(** * ShellShade: the multi-format theme translation layer

    A shallow embedding of the parsers ([services/parsers]), of the GUI
    installer ([services/installer]), of the CLI appliers ([cli/index.ts])
    and of the export handler ([main/ipc/files.ts]), followed by the
    properties of the specification that concern them.

    Conventions of the embedding.
    - JavaScript strings are modelled as [string] (sequences of 8-bit
      characters); the white space class and [toLowerCase] are the ASCII
      ones.
    - A JSON number is the rational its literal denotes ([Q]); where the
      program computes with it, it is the binary64 value nearest to that
      rational ([roundDouble]), and a product is rounded to binary64
      again. [NaN] and the infinities are values of their own.
    - The [plutil] command line has its paths between double quotes,
      unescaped; its run is modelled for paths the shell leaves as they
      are ([shellSafe]).
    - A value obtained from [JSON.parse] is a [json]; [undefined] is the
      [None] of [option json].
    - Functions that touch the file system or spawn a process are written
      in a small state-and-exception monad over a [World]; what the
      platform decides (does a write succeed, does [osascript] succeed,
      what does [JSON.parse] return) is read from an [Env].
    - [console.log] output is not modelled. *)

From Stdlib Require Import String Ascii ZArith QArith Qround List Bool Lia.
From Stdlib Require Import DecimalString HexadecimalString DecimalZ.
From stdpp Require Import base option list gmap strings.

Local Open Scope Z_scope.
Set Warnings "-register-all".

(** ** The JavaScript layer *)

Module JS.

Definition nl : ascii := "010"%char.
Definition dquote : ascii := "034"%char.
Definition squote : ascii := "039"%char.

Definition str1 (c : ascii) : string := String c EmptyString.

(** [WhiteSpace] and [LineTerminator] characters, as used by
    [String.prototype.trim] and by the regular expression class [\s]. *)
Definition isSpace (c : ascii) : bool :=
  let n := nat_of_ascii c in
  ((9 <=? n)%nat && (n <=? 13)%nat) || (n =? 32)%nat.

(** The regular expression class [\w]. *)
Definition isWordChar (c : ascii) : bool :=
  let n := nat_of_ascii c in
  ((48 <=? n)%nat && (n <=? 57)%nat)
  || ((65 <=? n)%nat && (n <=? 90)%nat)
  || ((97 <=? n)%nat && (n <=? 122)%nat)
  || (n =? 95)%nat.

(** The regular expression class [[0-9a-fA-F]]. *)
Definition isHexDigit (c : ascii) : bool :=
  let n := nat_of_ascii c in
  ((48 <=? n)%nat && (n <=? 57)%nat)
  || ((65 <=? n)%nat && (n <=? 70)%nat)
  || ((97 <=? n)%nat && (n <=? 102)%nat).

Definition lowerChar (c : ascii) : ascii :=
  let n := nat_of_ascii c in
  if ((65 <=? n)%nat && (n <=? 90)%nat) then ascii_of_nat (n + 32) else c.

Fixpoint toLowerCase (s : string) : string :=
  match s with
  | EmptyString => EmptyString
  | String c r => String (lowerChar c) (toLowerCase r)
  end.

Fixpoint rev_string (s acc : string) : string :=
  match s with
  | EmptyString => acc
  | String c r => rev_string r (String c acc)
  end.

Fixpoint trimStart (s : string) : string :=
  match s with
  | String c r => if isSpace c then trimStart r else s
  | EmptyString => EmptyString
  end.

Definition trimEnd (s : string) : string :=
  rev_string (trimStart (rev_string s EmptyString)) EmptyString.

Definition trim (s : string) : string := trimEnd (trimStart s).

(** [s.startsWith(p)] *)
Fixpoint startsWith (p s : string) : bool :=
  match p, s with
  | EmptyString, _ => true
  | String a p', String b s' => if Ascii.eqb a b then startsWith p' s' else false
  | String _ _, EmptyString => false
  end.

(** [s.slice(n)] for [0 <= n] *)
Fixpoint drop_string (n : nat) (s : string) : string :=
  match n, s with
  | O, _ => s
  | S n', String _ r => drop_string n' r
  | S _, EmptyString => EmptyString
  end.

Fixpoint take_string (n : nat) (s : string) : string :=
  match n, s with
  | S n', String c r => String c (take_string n' r)
  | _, _ => EmptyString
  end.

(** [lines.join('\n')] *)
Definition joinLines (lines : list string) : string :=
  String.concat (str1 nl) lines.

Definition endsWith (p s : string) : bool :=
  startsWith (rev_string p EmptyString) (rev_string s EmptyString).

(** [s.includes(c)] for a one-character needle *)
Fixpoint includesChar (c : ascii) (s : string) : bool :=
  match s with
  | EmptyString => false
  | String b r => if Ascii.eqb b c then true else includesChar c r
  end.

(** [s.split(sep)] for a one-character separator: never the empty list *)
Fixpoint splitOn (sep : ascii) (s : string) : list string :=
  match s with
  | EmptyString => [EmptyString]
  | String c r =>
      if Ascii.eqb c sep then EmptyString :: splitOn sep r
      else match splitOn sep r with
           | h :: t => String c h :: t
           | [] => [str1 c]
           end
  end.

(** [s.replace(c, '')] with a one-character string pattern: only the
    first occurrence is removed. *)
Fixpoint removeFirstChar (c : ascii) (s : string) : string :=
  match s with
  | EmptyString => EmptyString
  | String b r => if Ascii.eqb b c then r else String b (removeFirstChar c r)
  end.

(** Longest prefix of characters satisfying [p], and the rest: what a
    greedy [[class]*] consumes. *)
Fixpoint span (p : ascii -> bool) (s : string) : string * string :=
  match s with
  | EmptyString => (EmptyString, EmptyString)
  | String c r =>
      if p c then let '(a, b) := span p r in (String c a, b)
      else (EmptyString, s)
  end.

Fixpoint allChars (p : ascii -> bool) (s : string) : bool :=
  match s with
  | EmptyString => true
  | String c r => p c && allChars p r
  end.

Definition isEmpty (s : string) : bool :=
  match s with EmptyString => true | _ => false end.

(** [a || b] on strings: the empty string is the only falsy string. *)
Definition strOr (a b : string) : string := if isEmpty a then b else a.

(** [m.get(k) || d], [o[k] || d] where the values are strings. *)
Definition getOr (o : option string) (d : string) : string :=
  match o with
  | Some v => strOr v d
  | None => d
  end.

(** *** Numbers *)

(** [Math.round]: the nearest integer, ties towards plus infinity. *)
Definition Math_round (x : Q) : Z := Qfloor (x + (1 # 2))%Q.

(** [n.toString(16)] for an integer [n]: lower-case digits, a leading
    minus sign for negative numbers. *)
Definition toString16 (n : Z) : string :=
  NilZero.string_of_int (Z.to_hex_int n).

(** [n.toString()] for an integer [n]. *)
Definition toString10 (n : Z) : string :=
  DecimalString.NilZero.string_of_int (Z.to_int n).

Fixpoint repeatChar (n : nat) (c : ascii) : string :=
  match n with
  | O => EmptyString
  | S k => String c (repeatChar k c)
  end.

(** [s.padStart(len, c)] for a one-character filler. *)
Definition padStart (len : nat) (c : ascii) (s : string) : string :=
  repeatChar (len - String.length s) c +:+ s.

(** *** JSON values *)

Inductive json : Type :=
| JNull
| JBool (b : bool)
| JNum (q : Q)
| JStr (s : string)
| JArr (items : list json)
| JObj (fields : list (string * json)).

(** Truthiness of a value; [undefined] is handled by [truthyO]. *)
Definition truthy (v : json) : bool :=
  match v with
  | JNull => false
  | JBool b => b
  | JNum q => negb (Qeq_bool q 0)
  | JStr s => negb (isEmpty s)
  | JArr _ => true
  | JObj _ => true
  end.

Definition truthyO (v : option json) : bool :=
  match v with Some x => truthy x | None => false end.

(** *** Numbers as binary64 values *)

(** A Number: a finite binary64 value, given by the rational it is (the
    sign of zero is not kept), [NaN], or an infinity. A [JNum q] holds
    the value a numeric literal denotes; [roundDouble] gives the Number
    the engine has for it, and leaves a binary64 value as it is. *)
Inductive number : Type :=
| Finite (q : Q)
| NaN
| Infinity (negative : bool).

(** [2^e] *)
Definition pow2 (e : Z) : Q :=
  if 0 <=? e then inject_Z (2 ^ e) else 1 # Z.to_pos (2 ^ (- e)).

(** The nearest integer, ties to the even one. *)
Definition roundHalfEven (y : Q) : Z :=
  let f := Qfloor y in
  match (y - inject_Z f ?= 1 # 2)%Q with
  | Lt => f
  | Gt => f + 1
  | Eq => if Z.even f then f else f + 1
  end.

(** The exponent of the last place of the binary64 values around
    [x > 0]: 53 significant bits, and [2^-1074] for the subnormals. *)
Definition lastPlace (x : Q) : Z :=
  let e0 := Z.log2 (Qnum x) - Z.log2 (Zpos (Qden x)) - 52 in
  let e := if Qle_bool (inject_Z (2 ^ 52)) (x / pow2 e0) then e0
           else e0 - 1 in
  Z.max e (-1074).

(** Rounding [x > 0] to the nearest binary64 value, ties to even;
    [None] is the overflow to [Infinity]. *)
Definition roundPositive (x : Q) : option Q :=
  let e := lastPlace x in
  let y := (inject_Z (roundHalfEven (x / pow2 e)) * pow2 e)%Q in
  if Qle_bool (inject_Z (2 ^ 1024)) y then None else Some (Qred y).

(** The binary64 value of the real number [x]: what a numeric literal
    denotes and what an arithmetic operation returns. *)
Definition roundDouble (x : Q) : number :=
  match (x ?= 0)%Q with
  | Eq => Finite 0
  | Gt => match roundPositive x with
          | Some y => Finite y
          | None => Infinity false
          end
  | Lt => match roundPositive (- x) with
          | Some y => Finite (- y)
          | None => Infinity true
          end
  end.

(** [x * k] for a literal [k > 0] that is a binary64 value. *)
Definition timesLiteral (x : number) (k : Q) : number :=
  match x with
  | Finite q => roundDouble (q * k)
  | NaN => NaN
  | Infinity negative => Infinity negative
  end.

(** A Number that went through [Math.round]. *)
Inductive integral : Type :=
| Whole (z : Z)
| NotANumber
| Unbounded (negative : bool).

(** [Math.round(x)] on a Number. *)
Definition Math_roundN (x : number) : integral :=
  match x with
  | Finite q => Whole (Math_round q)
  | NaN => NotANumber
  | Infinity negative => Unbounded negative
  end.

(** [n.toString(16)] on the result of [Math.round]. *)
Definition radix16 (n : integral) : string :=
  match n with
  | Whole z => toString16 z
  | NotANumber => "NaN"
  | Unbounded false => "Infinity"
  | Unbounded true => "-Infinity"
  end.

(** *** [ToNumber] *)

Definition isDigit (c : ascii) : bool :=
  let n := nat_of_ascii c in (48 <=? n)%nat && (n <=? 57)%nat.

(** The value of a digit of a radix up to 16. *)
Definition digitOf (c : ascii) : Z :=
  let n := Z.of_nat (nat_of_ascii c) in
  if (48 <=? n) && (n <=? 57) then n - 48
  else if (65 <=? n) && (n <=? 70) then n - 55
  else n - 87.

Definition isRadixDigit (radix : Z) (c : ascii) : bool :=
  isHexDigit c && (digitOf c <? radix).

Fixpoint radixValue (radix acc : Z) (s : string) : Z :=
  match s with
  | EmptyString => acc
  | String c r => radixValue radix (radix * acc + digitOf c) r
  end.

(** [NonDecimalIntegerLiteral]: [None] when [t] does not start as one. *)
Definition nonDecimal (t : string) : option number :=
  match t with
  | String "0" (String p digits) =>
      let radix :=
        if Ascii.eqb p "x" || Ascii.eqb p "X" then Some 16
        else if Ascii.eqb p "o" || Ascii.eqb p "O" then Some 8
        else if Ascii.eqb p "b" || Ascii.eqb p "B" then Some 2
        else None in
      match radix with
      | Some r =>
          Some (if negb (isEmpty digits) && allChars (isRadixDigit r) digits
                then roundDouble (inject_Z (radixValue r 0 digits))
                else NaN)
      | None => None
      end
  | _ => None
  end.

(** [StrUnsignedDecimalLiteral] *)
Definition unsignedDecimal (u : string) : number :=
  if String.eqb u "Infinity" then Infinity false
  else
    let '(whole, r1) := span isDigit u in
    let '(fraction, r2) :=
      match r1 with
      | String "." r => span isDigit r
      | _ => (EmptyString, r1)
      end in
    if isEmpty whole && isEmpty fraction then NaN
    else
      let mantissa :=
        (inject_Z (radixValue 10 0 (whole +:+ fraction))
         / inject_Z (10 ^ Z.of_nat (String.length fraction)))%Q in
      match r2 with
      | EmptyString => roundDouble mantissa
      | String e r3 =>
          if Ascii.eqb e "e" || Ascii.eqb e "E" then
            let '(sign, r4) :=
              match r3 with
              | String "+" r => (1, r)
              | String "-" r => (-1, r)
              | _ => (1, r3)
              end in
            if negb (isEmpty r4) && allChars isDigit r4
            then roundDouble
                   (mantissa * 10 ^ (sign * radixValue 10 0 r4))%Q
            else NaN
          else NaN
      end.

Definition negate (x : number) : number :=
  match x with
  | Finite q => Finite (- q)
  | NaN => NaN
  | Infinity negative => Infinity (negb negative)
  end.

(** [StringToNumber]: white space around a numeric literal, the empty
    string being 0, anything else [NaN]. *)
Definition StringToNumber (s : string) : number :=
  let t := trim s in
  if isEmpty t then Finite 0
  else
    match nonDecimal t with
    | Some n => n
    | None =>
        match t with
        | String "+" u => unsignedDecimal u
        | String "-" u => negate (unsignedDecimal u)
        | _ => unsignedDecimal t
        end
    end.

(** [ToNumber] of a parsed JSON value. An array goes through its
    [toString]: the empty array is the empty string, an array of one
    element is that element as a string ([null] as the empty string),
    and a longer one holds a comma, which no numeric literal has. An
    object is ["[object Object]"]. *)
Fixpoint ToNumber (v : json) : number :=
  match v with
  | JNull => Finite 0
  | JBool b => Finite (if b then 1 else 0)
  | JNum q => roundDouble q
  | JStr s => StringToNumber s
  | JArr [] => Finite 0
  | JArr [x] =>
      match x with
      | JNull => Finite 0
      | JBool _ => NaN
      | JObj _ => NaN
      | _ => ToNumber x
      end
  | JArr _ => NaN
  | JObj _ => NaN
  end.

Fixpoint assoc (k : string) (fields : list (string * json)) : option json :=
  match fields with
  | [] => None
  | (k', v) :: rest => if String.eqb k k' then Some v else assoc k rest
  end.

(** [o[k]] for a value [o] that is not [null]: own properties of an
    object; [undefined] on arrays and primitives for the (non-index,
    non-builtin) keys this program uses. *)
Definition prop (k : string) (v : json) : option json :=
  match v with
  | JObj fields => assoc k fields
  | _ => None
  end.

(** [a || b] where [a] may be [undefined] *)
Definition jsOr (a : option json) (b : json) : json :=
  match a with
  | Some v => if truthy v then v else b
  | None => b
  end.

(** [o.k = v] on an object: replaces the value in place, or appends. *)
Fixpoint setField (k : string) (v : json) (fields : list (string * json))
  : list (string * json) :=
  match fields with
  | [] => [(k, v)]
  | (k', v') :: rest =>
      if String.eqb k k' then (k', v) :: rest
      else (k', v') :: setField k v rest
  end.

End JS.

(** ** Node's [path] module (POSIX flavour) *)

Module Path.
Import JS.

Definition slash : ascii := "/"%char.
Definition dot : ascii := "."%char.

(** [s.slice(a, b)] for [0 <= a], [0 <= b] *)
Definition slice (a b : Z) (s : string) : string :=
  take_string (Z.to_nat (b - a)) (drop_string (Z.to_nat a) s).

(** The characters of [s] with their indices, last character first: the
    order in which the loops of [path.extname] and [path.basename] visit
    them. *)
Fixpoint indexedFrom (i : Z) (s : string) (acc : list (Z * ascii))
  : list (Z * ascii) :=
  match s with
  | EmptyString => acc
  | String c r => indexedFrom (i + 1) r ((i, c) :: acc)
  end.
Definition backwards (s : string) : list (Z * ascii) :=
  indexedFrom 0 s [].

Record ExtState := mkExt {
  startDot : Z; startPart : Z; endIdx : Z;
  matchedSlash : bool; preDotState : Z; stopped : bool }.

Definition extStep (st : ExtState) (ic : Z * ascii) : ExtState :=
  let '(i, c) := ic in
  if stopped st then st
  else if Ascii.eqb c slash then
    if negb (matchedSlash st)
    then mkExt (startDot st) (i + 1) (endIdx st) (matchedSlash st)
               (preDotState st) true
    else st
  else
    let st1 :=
      if endIdx st =? -1
      then mkExt (startDot st) (startPart st) (i + 1) false
                 (preDotState st) false
      else st in
    if Ascii.eqb c dot then
      if startDot st1 =? -1
      then mkExt i (startPart st1) (endIdx st1) (matchedSlash st1)
                 (preDotState st1) false
      else if negb (preDotState st1 =? 1)
      then mkExt (startDot st1) (startPart st1) (endIdx st1)
                 (matchedSlash st1) 1 false
      else st1
    else if negb (startDot st1 =? -1)
    then mkExt (startDot st1) (startPart st1) (endIdx st1)
               (matchedSlash st1) (-1) false
    else st1.

(** [path.extname(p)] *)
Definition extname (p : string) : string :=
  let st := fold_left extStep (backwards p) (mkExt (-1) 0 (-1) true 0 false) in
  if (startDot st =? -1) || (endIdx st =? -1) || (preDotState st =? 0)
     || ((preDotState st =? 1) && (startDot st =? endIdx st - 1)
         && (startDot st =? startPart st + 1))
  then EmptyString
  else slice (startDot st) (endIdx st) p.

Record BaseState := mkBase {
  bStart : Z; bEnd : Z; bMatchedSlash : bool;
  extIdx : Z; firstNonSlashEnd : Z; bStopped : bool }.

Definition charAt (i : Z) (s : string) : option ascii :=
  if i <? 0 then None else String.get (Z.to_nat i) s.

Definition baseStepSuffix (suffix : string) (st : BaseState)
  (ic : Z * ascii) : BaseState :=
  let '(i, c) := ic in
  if bStopped st then st
  else if Ascii.eqb c slash then
    if negb (bMatchedSlash st)
    then mkBase (i + 1) (bEnd st) (bMatchedSlash st) (extIdx st)
                (firstNonSlashEnd st) true
    else st
  else
    let st1 :=
      if firstNonSlashEnd st =? -1
      then mkBase (bStart st) (bEnd st) false (extIdx st) (i + 1) false
      else st in
    if 0 <=? extIdx st1 then
      if match charAt (extIdx st1) suffix with
         | Some d => Ascii.eqb c d
         | None => false
         end
      then
        if extIdx st1 - 1 =? -1
        then mkBase (bStart st1) i (bMatchedSlash st1) (-1)
                    (firstNonSlashEnd st1) false
        else mkBase (bStart st1) (bEnd st1) (bMatchedSlash st1)
                    (extIdx st1 - 1) (firstNonSlashEnd st1) false
      else mkBase (bStart st1) (firstNonSlashEnd st1) (bMatchedSlash st1)
                  (-1) (firstNonSlashEnd st1) false
    else st1.

Definition baseStepPlain (st : BaseState) (ic : Z * ascii) : BaseState :=
  let '(i, c) := ic in
  if bStopped st then st
  else if Ascii.eqb c slash then
    if negb (bMatchedSlash st)
    then mkBase (i + 1) (bEnd st) (bMatchedSlash st) (extIdx st)
                (firstNonSlashEnd st) true
    else st
  else if bEnd st =? -1
  then mkBase (bStart st) (i + 1) false (extIdx st)
              (firstNonSlashEnd st) false
  else st.

(** [path.basename(p, suffix)] *)
Definition basename (p suffix : string) : string :=
  let len := Z.of_nat (String.length p) in
  let slen := Z.of_nat (String.length suffix) in
  if (0 <? slen) && (slen <=? len) then
    if String.eqb suffix p then EmptyString
    else
      let st := fold_left (baseStepSuffix suffix) (backwards p)
                  (mkBase 0 (-1) true (slen - 1) (-1) false) in
      let e := if bStart st =? bEnd st then firstNonSlashEnd st
               else if bEnd st =? -1 then len
               else bEnd st in
      slice (bStart st) e p
  else
    let st := fold_left baseStepPlain (backwards p)
                (mkBase 0 (-1) true (-1) (-1) false) in
    if bEnd st =? -1 then EmptyString else slice (bStart st) (bEnd st) p.

(** [path.join(dir, rest)] for a normalised directory and a normalised
    relative path; an empty [dir] is skipped. *)
Definition join (dir rest : string) : string :=
  if isEmpty dir then rest else dir +:+ str1 slash +:+ rest.

End Path.

(** ** The platform: file system, processes, built-ins *)

Module Sys.
Import JS.

Inductive Event : Type :=
| EvExists (p : string)
| EvRead (p : string)
| EvWrite (p content : string)
| EvUnlink (p : string)
| EvMkdir (p : string)
| EvExec (cmd : string).

(** The mutable part: regular files, directories, and the history of
    the calls made to [fs] and [child_process] (most recent first). *)
Record World := mkWorld {
  files : gmap string string;
  dirs : gset string;
  trace : list Event }.

(** What the platform decides. An error oracle returns [Some msg] when
    the call throws an error with message [msg]. *)
Record Env := mkEnv {
  JSON_parse : string -> option json;
  JSON_stringify : nat -> json -> string;
  plutil_convert : string -> option string;
  plutil_error : string;
  writeFileSync_error : string -> option string;
  mkdirSync_error : string -> option string;
  exec_error : string -> option string;
  Date_now : Z;
  homedir : string;
  env_LOCALAPPDATA : option string;
  env_USERPROFILE : option string }.

(** A thrown [Error] object: its [name] and its [message]. *)
Record Error := mkError { ename : string; emessage : string }.
Definition plainError (msg : string) : Error := mkError "Error" msg.
Definition TypeError (msg : string) : Error := mkError "TypeError" msg.
Definition SyntaxError (msg : string) : Error := mkError "SyntaxError" msg.

(** [`${err}`] *)
Definition errToString (e : Error) : string :=
  ename e +:+ ": " +:+ emessage e.

Inductive Outcome (A : Type) : Type :=
| Ret (a : A)
| Throw (err : Error).
Arguments Ret {A} a.
Arguments Throw {A} err.

Definition M (A : Type) : Type := World -> Outcome A * World.

Definition ret {A} (a : A) : M A := fun w => (Ret a, w).
Definition throw {A} (e : Error) : M A := fun w => (Throw e, w).
Definition bind {A B} (m : M A) (k : A -> M B) : M B :=
  fun w => match m w with
           | (Ret a, w') => k a w'
           | (Throw e, w') => (Throw e, w')
           end.
(** [try { m } catch (err) { h err }]: the effects of [m] up to the
    throw are kept. *)
Definition tryCatch {A} (m : M A) (h : Error -> M A) : M A :=
  fun w => match m w with
           | (Ret a, w') => (Ret a, w')
           | (Throw e, w') => h e w'
           end.

Definition existsSync (p : string) : M bool :=
  fun w =>
    (Ret (bool_decide (is_Some (files w !! p)) || bool_decide (p ∈ dirs w)),
     mkWorld (files w) (dirs w) (EvExists p :: trace w)).

(** [fs.readFileSync(p, 'utf-8')] *)
Definition readFileSync (p : string) : M string :=
  fun w =>
    let w' := mkWorld (files w) (dirs w) (EvRead p :: trace w) in
    match files w !! p with
    | Some c => (Ret c, w')
    | None =>
        (Throw (plainError
                  ("ENOENT: no such file or directory, open '" +:+ p +:+ "'")),
         w')
    end.

Definition writeFileSync (env : Env) (p content : string) : M unit :=
  fun w =>
    match writeFileSync_error env p with
    | Some msg => (Throw (plainError msg), w)
    | None =>
        (Ret tt,
         mkWorld (<[p := content]> (files w)) (dirs w)
                 (EvWrite p content :: trace w))
    end.

Definition unlinkSync (p : string) : M unit :=
  fun w =>
    match files w !! p with
    | Some _ =>
        (Ret tt, mkWorld (delete p (files w)) (dirs w)
                         (EvUnlink p :: trace w))
    | None =>
        (Throw (plainError
                  ("ENOENT: no such file or directory, unlink '" +:+ p +:+ "'")),
         w)
    end.

(** [fs.mkdirSync(p, { recursive: true })] *)
Definition mkdirSync (env : Env) (p : string) : M unit :=
  fun w =>
    match mkdirSync_error env p with
    | Some msg => (Throw (plainError msg), w)
    | None =>
        (Ret tt, mkWorld (files w) ({[p]} ∪ dirs w) (EvMkdir p :: trace w))
    end.

(** [execSync(cmd)] / [await execAsync(cmd)] for a command without
    effect on the modelled files. *)
Definition exec (env : Env) (cmd : string) : M unit :=
  fun w =>
    let w' := mkWorld (files w) (dirs w) (EvExec cmd :: trace w) in
    match exec_error env cmd with
    | Some msg => (Throw (plainError msg), w')
    | None => (Ret tt, w')
    end.

(** [JSON.parse(text)] *)
Definition parseJSON (env : Env) (text : string) : M json :=
  match JSON_parse env text with
  | Some v => ret v
  | None => throw (SyntaxError "Unexpected token in JSON")
  end.

Declare Scope sys_scope.
Delimit Scope sys_scope with sys.
Notation "'let!' x ':=' m 'in' k" := (bind m (fun x => k))
  (at level 10, x name, m at level 100, k at level 200) : sys_scope.
Notation "'do!' m 'in' k" := (bind m (fun _ => k))
  (at level 10, m at level 100, k at level 200) : sys_scope.

End Sys.

(** ** The canonical colour model ([shared/types/theme]) *)

Module Theme.
Import JS.

Record AnsiColors := mkAnsi {
  black : string; red : string; green : string; yellow : string;
  blue : string; magenta : string; cyan : string; white : string;
  brightBlack : string; brightRed : string; brightGreen : string;
  brightYellow : string; brightBlue : string; brightMagenta : string;
  brightCyan : string; brightWhite : string }.

Record ThemeColors := mkColors {
  background : string; foreground : string; cursor : string;
  cursorText : string; selection : string; selectionText : string;
  ansi : AnsiColors }.

(** The 22 required slots, in declaration order. *)
Definition slots (c : ThemeColors) : list string :=
  [ background c; foreground c; cursor c; cursorText c; selection c;
    selectionText c;
    black (ansi c); red (ansi c); green (ansi c); yellow (ansi c);
    blue (ansi c); magenta (ansi c); cyan (ansi c); white (ansi c);
    brightBlack (ansi c); brightRed (ansi c); brightGreen (ansi c);
    brightYellow (ansi c); brightBlue (ansi c); brightMagenta (ansi c);
    brightCyan (ansi c); brightWhite (ansi c) ].

(** A slot is populated when it holds a non-empty string. *)
Definition populated (c : ThemeColors) : Prop :=
  Forall (fun s => s <> EmptyString) (slots c).

(** [#] followed by exactly six hexadecimal digits. *)
Definition isValidHexColor (s : string) : bool :=
  match s with
  | String "#" r => (String.length r =? 6)%nat && allChars isHexDigit r
  | _ => false
  end.

(** The object a [ThemeColors] value is at run time. *)
Definition ansiToJson (a : AnsiColors) : json :=
  JObj [ ("black", JStr (black a)); ("red", JStr (red a));
         ("green", JStr (green a)); ("yellow", JStr (yellow a));
         ("blue", JStr (blue a)); ("magenta", JStr (magenta a));
         ("cyan", JStr (cyan a)); ("white", JStr (white a));
         ("brightBlack", JStr (brightBlack a));
         ("brightRed", JStr (brightRed a));
         ("brightGreen", JStr (brightGreen a));
         ("brightYellow", JStr (brightYellow a));
         ("brightBlue", JStr (brightBlue a));
         ("brightMagenta", JStr (brightMagenta a));
         ("brightCyan", JStr (brightCyan a));
         ("brightWhite", JStr (brightWhite a)) ].

Definition colorsToJson (c : ThemeColors) : json :=
  JObj [ ("background", JStr (background c));
         ("foreground", JStr (foreground c));
         ("cursor", JStr (cursor c));
         ("cursorText", JStr (cursorText c));
         ("selection", JStr (selection c));
         ("selectionText", JStr (selectionText c));
         ("ansi", ansiToJson (ansi c)) ].

(** [ParsedTheme] as the parsers return it. The JSON parser hands back
    parts of the parsed document unchanged, so both fields are run-time
    values. *)
Record ParsedTheme := mkParsed { name : json; colors : json }.

Definition parsed (n : string) (c : ThemeColors) : ParsedTheme :=
  mkParsed (JStr n) (colorsToJson c).

End Theme.

(** ** The parsers ([main/services/parsers]) *)

Module Parsers.
Import JS Path Sys Theme.
Local Open Scope sys_scope.

(** [colorDict[k] || 0] as a Number: a truthy value goes through
    [ToNumber] when it is multiplied. *)
Definition numberOr0 (o : option json) : number :=
  match o with
  | Some v => if truthy v then ToNumber v else Finite 0
  | None => Finite 0
  end.

(** [Math.round((colorDict[k] || 0) * 255)] *)
Definition component (colorDict : json) (k : string) : integral :=
  Math_roundN (timesLiteral (numberOr0 (prop k colorDict)) 255).

(** [n.toString(16).padStart(2, '0')] for an integer [n]. *)
Definition hex2 (n : Z) : string := padStart 2 "0" (toString16 n).

(** [n.toString(16).padStart(2, '0')] on the result of [Math.round]. *)
Definition hex2N (n : integral) : string := padStart 2 "0" (radix16 n).

(** The closure [getColor] of [parseItermColors] and of the profile
    branch of [parseJson] (the two bodies are the same), over a document
    [doc] that is not [null]. *)
Definition getColor (doc : json) (key : string) : string :=
  match prop key doc with
  | None => "#000000"
  | Some colorDict =>
      if negb (truthy colorDict) then "#000000"
      else
        let r := component colorDict "Red Component" in
        let g := component colorDict "Green Component" in
        let b := component colorDict "Blue Component" in
        "#" +:+ hex2N r +:+ hex2N g +:+ hex2N b
  end.

(** The [colors] literal built from [getColor]. *)
Definition componentColors (doc : json) : ThemeColors :=
  mkColors
    (getColor doc "Background Color")
    (getColor doc "Foreground Color")
    (getColor doc "Cursor Color")
    (strOr (getColor doc "Cursor Text Color")
           (getColor doc "Background Color"))
    (getColor doc "Selection Color")
    (strOr (getColor doc "Selected Text Color")
           (getColor doc "Foreground Color"))
    (mkAnsi
       (getColor doc "Ansi 0 Color") (getColor doc "Ansi 1 Color")
       (getColor doc "Ansi 2 Color") (getColor doc "Ansi 3 Color")
       (getColor doc "Ansi 4 Color") (getColor doc "Ansi 5 Color")
       (getColor doc "Ansi 6 Color") (getColor doc "Ansi 7 Color")
       (getColor doc "Ansi 8 Color") (getColor doc "Ansi 9 Color")
       (getColor doc "Ansi 10 Color") (getColor doc "Ansi 11 Color")
       (getColor doc "Ansi 12 Color") (getColor doc "Ansi 13 Color")
       (getColor doc "Ansi 14 Color") (getColor doc "Ansi 15 Color")).

(** [execSync(`plutil -convert json -o "${out}" "${inp}"`)]: on success
    the converted text is in [out]. The two paths stand between double
    quotes, unescaped: this is the run of the command for paths that hold
    no dollar sign, backquote, backslash or double quote, which the shell
    hands to [plutil] as they are. For other paths the shell expands or
    splits the text, and the command is another one. *)
Definition plutil (env : Env) (out inp : string) : M unit :=
  fun w =>
    let cmd := "plutil -convert json -o " +:+ str1 dquote +:+ out
               +:+ str1 dquote +:+ " " +:+ str1 dquote +:+ inp
               +:+ str1 dquote in
    let tr := EvExec cmd :: trace w in
    match files w !! inp with
    | Some content =>
        match plutil_convert env content with
        | Some text => (Ret tt, mkWorld (<[out := text]> (files w)) (dirs w) tr)
        | None => (Throw (plainError (plutil_error env)),
                   mkWorld (files w) (dirs w) tr)
        end
    | None => (Throw (plainError (plutil_error env)),
               mkWorld (files w) (dirs w) tr)
    end.

Definition parseItermColors (env : Env) (filePath : string) : M ParsedTheme :=
  let name := basename filePath ".itermcolors" in
  let tempJsonPath :=
    "/tmp/iterm-theme-" +:+ toString10 (Date_now env) +:+ ".json" in
  tryCatch
    (let! found := existsSync filePath in
     if negb found then throw (plainError ("File not found: " +:+ filePath))
     else
       let! fileContent := readFileSync filePath in
       do! tryCatch (plutil env tempJsonPath filePath)
             (fun plutilErr =>
                throw (plainError
                  ("Failed to parse plist file. The file may be corrupted or in an unsupported format. Error: "
                   +:+ emessage plutilErr))) in
       let! jsonContent := readFileSync tempJsonPath in
       let! plist := parseJSON env jsonContent in
       do! unlinkSync tempJsonPath in
       match plist with
       | JNull => throw (TypeError "Cannot convert undefined or null to object")
       | _ => ret (parsed name (componentColors plist))
       end)
    (fun err =>
       let! found := existsSync tempJsonPath in
       do! (if found then unlinkSync tempJsonPath else ret tt) in
       throw (plainError
                ("Failed to parse iTerm colors file: " +:+ errToString err))).

Definition parseTerminalApp (_filePath : string) : M ParsedTheme :=
  throw (plainError
    ("Terminal.app (.terminal) format uses NSKeyedArchiver which requires native parsing. "
     +:+ "Please export your theme from iTerm2 as .itermcolors instead, or use a different format.")).

(** *** Alacritty *)

(** The value alternative [(#?[0-9a-fA-F]{6}|0x[0-9a-fA-F]{6})] at the
    head of [s]: the captured text. *)
Definition matchColorValue (s : string) : option string :=
  let hex6 (t : string) : option string :=
    let h := take_string 6 t in
    if (String.length h =? 6)%nat && allChars isHexDigit h
    then Some h else None in
  match s with
  | String "#" r =>
      match hex6 r with
      | Some h => Some ("#" +:+ h)
      | None => None
      end
  | _ =>
      match hex6 s with
      | Some h => Some h
      | None =>
          if startsWith "0x" s then
            match hex6 (drop_string 2 s) with
            | Some h => Some ("0x" +:+ h)
            | None => None
            end
          else None
      end
  end.

Definition isQuote (c : ascii) : bool :=
  Ascii.eqb c squote || Ascii.eqb c dquote.

(** [trimmed.match(/^(\w+):\s*['"]?(#?[0-9a-fA-F]{6}|0x[0-9a-fA-F]{6})['"]?/)]:
    the two captures. Each quantifier has a single way to succeed, so
    the greedy choice is the only one tried. *)
Definition matchAlacrittyLine (trimmed : string) : option (string * string) :=
  let '(key, r1) := span isWordChar trimmed in
  if isEmpty key then None
  else match r1 with
       | String ":" r2 =>
           let '(_, r3) := span isSpace r2 in
           let r4 := match r3 with
                     | String c r => if isQuote c then r else r3
                     | EmptyString => r3
                     end in
           match matchColorValue r4 with
           | Some v => Some (key, v)
           | None => None
           end
       | _ => None
       end.

Record AlacrittyState := mkAla {
  alaColors : gmap string string;
  currentSection : string;
  inColors : bool }.

(** One iteration of the [for (const line of lines)] loop. *)
Definition alacrittyLine (st : AlacrittyState) (line : string)
  : AlacrittyState :=
  let trimmed := trim line in
  if isEmpty trimmed || startsWith "#" trimmed then st
  else if String.eqb trimmed "colors:"
  then mkAla (alaColors st) (currentSection st) true
  else if negb (inColors st) then st
  else if endsWith ":" trimmed && negb (includesChar squote trimmed)
          && negb (includesChar dquote trimmed)
  then mkAla (alaColors st) (trim (removeFirstChar ":" trimmed)) (inColors st)
  else match matchAlacrittyLine trimmed with
       | Some (key, value0) =>
           let value1 := if startsWith "0x" value0
                         then "#" +:+ drop_string 2 value0 else value0 in
           let value := if negb (startsWith "#" value1)
                        then "#" +:+ value1 else value1 in
           let fullKey := if isEmpty (currentSection st) then key
                          else currentSection st +:+ "." +:+ key in
           mkAla (<[fullKey := toLowerCase value]> (alaColors st))
                 (currentSection st) (inColors st)
       | None => st
       end.

Definition alacrittyMap (content : string) : gmap string string :=
  alaColors (fold_left alacrittyLine (splitOn nl content)
                       (mkAla ∅ EmptyString false)).

Definition alacrittyColors (content : string) : ThemeColors :=
  let getColor (key fallback : string) : string :=
    getOr (alacrittyMap content !! key) fallback in
  mkColors
    (getColor "primary.background" "#1d1f21")
    (getColor "primary.foreground" "#c5c8c6")
    (getColor "cursor.cursor" (getColor "primary.foreground" "#c5c8c6"))
    (getColor "cursor.text" (getColor "primary.background" "#1d1f21"))
    (getColor "selection.background" "#373b41")
    (getColor "selection.foreground"
              (getColor "primary.foreground" "#c5c8c6"))
    (mkAnsi
       (getColor "normal.black" "#1d1f21") (getColor "normal.red" "#cc6666")
       (getColor "normal.green" "#b5bd68")
       (getColor "normal.yellow" "#f0c674")
       (getColor "normal.blue" "#81a2be")
       (getColor "normal.magenta" "#b294bb")
       (getColor "normal.cyan" "#8abeb7") (getColor "normal.white" "#c5c8c6")
       (getColor "bright.black" "#969896") (getColor "bright.red" "#de935f")
       (getColor "bright.green" "#b5bd68")
       (getColor "bright.yellow" "#f0c674")
       (getColor "bright.blue" "#81a2be")
       (getColor "bright.magenta" "#b294bb")
       (getColor "bright.cyan" "#8abeb7")
       (getColor "bright.white" "#ffffff")).

Definition parseAlacritty (filePath : string) : M ParsedTheme :=
  let! content := readFileSync filePath in
  let name := basename filePath (extname filePath) in
  ret (parsed name (alacrittyColors content)).

(** *** Kitty *)

(** [trimmed.match(/^(\w+)\s+(#[0-9a-fA-F]{6})/)]: the two captures. *)
Definition matchKittyLine (trimmed : string) : option (string * string) :=
  let '(key, r1) := span isWordChar trimmed in
  let '(ws, r2) := span isSpace r1 in
  if isEmpty key || isEmpty ws then None
  else match r2 with
       | String "#" r3 =>
           let h := take_string 6 r3 in
           if (String.length h =? 6)%nat && allChars isHexDigit h
           then Some (key, "#" +:+ h) else None
       | _ => None
       end.

Definition kittyLine (colors : gmap string string) (line : string)
  : gmap string string :=
  let trimmed := trim line in
  if isEmpty trimmed || startsWith "#" trimmed then colors
  else match matchKittyLine trimmed with
       | Some (key, value) => <[key := toLowerCase value]> colors
       | None => colors
       end.

Definition kittyMap (content : string) : gmap string string :=
  fold_left kittyLine (splitOn nl content) ∅.

Definition kittyColors (content : string) : ThemeColors :=
  let getColor (key fallback : string) : string :=
    getOr (kittyMap content !! key) fallback in
  mkColors
    (getColor "background" "#1d1f21")
    (getColor "foreground" "#c5c8c6")
    (getColor "cursor" (getColor "foreground" "#c5c8c6"))
    (getColor "cursor_text_color" (getColor "background" "#1d1f21"))
    (getColor "selection_background" "#373b41")
    (getColor "selection_foreground" (getColor "foreground" "#c5c8c6"))
    (mkAnsi
       (getColor "color0" "#1d1f21") (getColor "color1" "#cc6666")
       (getColor "color2" "#b5bd68") (getColor "color3" "#f0c674")
       (getColor "color4" "#81a2be") (getColor "color5" "#b294bb")
       (getColor "color6" "#8abeb7") (getColor "color7" "#c5c8c6")
       (getColor "color8" "#969896") (getColor "color9" "#de935f")
       (getColor "color10" "#b5bd68") (getColor "color11" "#f0c674")
       (getColor "color12" "#81a2be") (getColor "color13" "#b294bb")
       (getColor "color14" "#8abeb7") (getColor "color15" "#ffffff")).

Definition parseKitty (filePath : string) : M ParsedTheme :=
  let! content := readFileSync filePath in
  let name := basename filePath (extname filePath) in
  ret (parsed name (kittyColors content)).

(** *** JSON *)

(** The second shape: iTerm2 Dynamic Profiles. *)
Definition parseJsonProfiles (name : string) (data : json) : M ParsedTheme :=
  match prop "Profiles" data with
  | Some (JArr (profile :: _)) =>
      match profile with
      | JNull =>
          throw (TypeError
            "Cannot read properties of null (reading 'Background Color')")
      | _ =>
          ret (mkParsed (jsOr (prop "Name" profile) (JStr name))
                        (colorsToJson (componentColors profile)))
      end
  | _ => throw (plainError "Unrecognized JSON theme format")
  end.

Definition parseJson (env : Env) (filePath : string) : M ParsedTheme :=
  let! content := readFileSync filePath in
  let name := basename filePath ".json" in
  let! data := parseJSON env content in
  match data with
  | JNull =>
      throw (TypeError "Cannot read properties of null (reading 'colors')")
  | _ =>
      match prop "colors" data with
      | Some dataColors =>
          if truthy dataColors && truthyO (prop "ansi" dataColors)
          then (* our native format *)
            ret (mkParsed (jsOr (prop "name" data) (JStr name)) dataColors)
          else parseJsonProfiles name data
      | None => parseJsonProfiles name data
      end
  end.

(** *** The dispatcher *)

Inductive Parser : Type :=
| ItermParser | TerminalAppParser | AlacrittyParser | JsonParser
| KittyParser.

Definition runParser (env : Env) (p : Parser) (filePath : string)
  : M ParsedTheme :=
  match p with
  | ItermParser => parseItermColors env filePath
  | TerminalAppParser => parseTerminalApp filePath
  | AlacrittyParser => parseAlacritty filePath
  | JsonParser => parseJson env filePath
  | KittyParser => parseKitty filePath
  end.

(** The [case] labels of the [switch (ext)]. *)
Definition parserFor (ext : string) : option Parser :=
  if String.eqb ext ".itermcolors" then Some ItermParser
  else if String.eqb ext ".terminal" then Some TerminalAppParser
  else if String.eqb ext ".yaml" then Some AlacrittyParser
  else if String.eqb ext ".yml" then Some AlacrittyParser
  else if String.eqb ext ".json" then Some JsonParser
  else if String.eqb ext ".conf" then Some KittyParser
  else None.

Definition parseThemeFile (env : Env) (filePath : string) : M ParsedTheme :=
  let ext := toLowerCase (extname filePath) in
  tryCatch
    match parserFor ext with
    | Some p => runParser env p filePath
    | None => throw (plainError ("Unsupported file format: " +:+ ext))
    end
    (fun err => throw err).

End Parsers.

(** ** The theme store ([main/db/connection]): the two tables read here *)

Module Store.

Record ColorRow := mkColorRow {
  theme_id : string; color_key : string; hex_value : string }.

Record ThemeRow := mkThemeRow { id : string; theme_name : string }.

Record Database := mkDb {
  theme_colors : list ColorRow;
  themes : list ThemeRow }.

(** [SELECT color_key, hex_value FROM theme_colors WHERE theme_id = ?] *)
Definition selectColors (db : Database) (themeId : string)
  : list (string * string) :=
  map (fun r => (color_key r, hex_value r))
      (filter (fun r => theme_id r = themeId) (theme_colors db)).

(** [SELECT name FROM themes WHERE id = ?], first row *)
Definition selectName (db : Database) (themeId : string) : option string :=
  match filter (fun r => id r = themeId) (themes db) with
  | r :: _ => Some (theme_name r)
  | [] => None
  end.

(** [new Map(pairs)]: a later pair overrides an earlier one. *)
Definition newMap (pairs : list (string * string)) : gmap string string :=
  fold_left (fun m kv => <[kv.1 := kv.2]> m) pairs ∅.

End Store.

(** ** The GUI installer ([main/services/installer]) *)

Module Installer.
Import JS Path Sys Theme Store.
Local Open Scope sys_scope.

Record InstallResult := mkResult {
  success : bool;
  path : string;
  instructions : option string;
  error : option string }.

(** The object literal shared by [getThemeColors] and by the CLI's
    [getFullThemeColors]. *)
Definition colorsOfMap (colorMap : gmap string string) : ThemeColors :=
  mkColors
    (getOr (colorMap !! "background") "#000000")
    (getOr (colorMap !! "foreground") "#ffffff")
    (getOr (colorMap !! "cursor") "#ffffff")
    (getOr (colorMap !! "cursorText") "#000000")
    (getOr (colorMap !! "selection") "#444444")
    (getOr (colorMap !! "selectionText") "#ffffff")
    (mkAnsi
       (getOr (colorMap !! "ansi_black") "#000000")
       (getOr (colorMap !! "ansi_red") "#ff0000")
       (getOr (colorMap !! "ansi_green") "#00ff00")
       (getOr (colorMap !! "ansi_yellow") "#ffff00")
       (getOr (colorMap !! "ansi_blue") "#0000ff")
       (getOr (colorMap !! "ansi_magenta") "#ff00ff")
       (getOr (colorMap !! "ansi_cyan") "#00ffff")
       (getOr (colorMap !! "ansi_white") "#ffffff")
       (getOr (colorMap !! "ansi_brightBlack") "#666666")
       (getOr (colorMap !! "ansi_brightRed") "#ff6666")
       (getOr (colorMap !! "ansi_brightGreen") "#66ff66")
       (getOr (colorMap !! "ansi_brightYellow") "#ffff66")
       (getOr (colorMap !! "ansi_brightBlue") "#6666ff")
       (getOr (colorMap !! "ansi_brightMagenta") "#ff66ff")
       (getOr (colorMap !! "ansi_brightCyan") "#66ffff")
       (getOr (colorMap !! "ansi_brightWhite") "#ffffff")).

Definition getThemeColors (db : Database) (themeId : string)
  : option ThemeColors :=
  let colors := selectColors db themeId in
  if (List.length colors =? 0)%nat then None
  else Some (colorsOfMap (newMap colors)).

Definition getThemeName (db : Database) (themeId : string) : string :=
  match selectName db themeId with
  | Some n => strOr n "Untitled"
  | None => "Untitled"
  end.

Definition hexValue (c : ascii) : Z :=
  let n := Z.of_nat (nat_of_ascii c) in
  if (48 <=? n) && (n <=? 57) then n - 48
  else if (65 <=? n) && (n <=? 70) then n - 55
  else n - 87.

Fixpoint hexDigitsValue (acc : Z) (s : string) : Z :=
  match s with
  | EmptyString => acc
  | String c r => hexDigitsValue (16 * acc + hexValue c) r
  end.

(** [parseInt(s, 16)]; [None] is [NaN]. *)
Definition parseInt16 (s : string) : option Z :=
  let s1 := trimStart s in
  let '(sign, s2) :=
    match s1 with
    | String "-" r => (-1, r)
    | String "+" r => (1, r)
    | _ => (1, s1)
    end in
  let s3 := if startsWith "0x" s2 || startsWith "0X" s2
            then drop_string 2 s2 else s2 in
  let '(digits, _) := span isHexDigit s3 in
  if isEmpty digits then None else Some (sign * hexDigitsValue 0 digits).

(** [parseInt(hex.slice(a, b), 16) / 255] as it is serialised: [NaN]
    is written [null] by [JSON.stringify]. *)
Definition channel (hex : string) (a b : Z) : json :=
  match parseInt16 (slice a b hex) with
  | Some n => JNum (n # 255)
  | None => JNull
  end.

Definition hexToItermColorDict (hex : string) : json :=
  JObj [ ("Red Component", channel hex 1 3);
         ("Green Component", channel hex 3 5);
         ("Blue Component", channel hex 5 7);
         ("Alpha Component", JNum 1);
         ("Color Space", JStr "sRGB") ].

(** The dynamic-profile document; [toDict] is the hex-to-dictionary
    conversion of the caller. *)
Definition itermProfile (toDict : string -> json)
  (themeName themeId : string) (colors : ThemeColors) : json :=
  JObj [ ("Profiles", JArr [ JObj [
    ("Name", JStr themeName);
    ("Guid", JStr themeId);
    ("Background Color", toDict (background colors));
    ("Foreground Color", toDict (foreground colors));
    ("Cursor Color", toDict (cursor colors));
    ("Cursor Text Color", toDict (cursorText colors));
    ("Selection Color", toDict (selection colors));
    ("Selected Text Color", toDict (selectionText colors));
    ("Ansi 0 Color", toDict (black (ansi colors)));
    ("Ansi 1 Color", toDict (red (ansi colors)));
    ("Ansi 2 Color", toDict (green (ansi colors)));
    ("Ansi 3 Color", toDict (yellow (ansi colors)));
    ("Ansi 4 Color", toDict (blue (ansi colors)));
    ("Ansi 5 Color", toDict (magenta (ansi colors)));
    ("Ansi 6 Color", toDict (cyan (ansi colors)));
    ("Ansi 7 Color", toDict (white (ansi colors)));
    ("Ansi 8 Color", toDict (brightBlack (ansi colors)));
    ("Ansi 9 Color", toDict (brightRed (ansi colors)));
    ("Ansi 10 Color", toDict (brightGreen (ansi colors)));
    ("Ansi 11 Color", toDict (brightYellow (ansi colors)));
    ("Ansi 12 Color", toDict (brightBlue (ansi colors)));
    ("Ansi 13 Color", toDict (brightMagenta (ansi colors)));
    ("Ansi 14 Color", toDict (brightCyan (ansi colors)));
    ("Ansi 15 Color", toDict (brightWhite (ansi colors))) ] ]) ].

Definition isSlugChar (c : ascii) : bool :=
  let n := nat_of_ascii c in
  ((97 <=? n)%nat && (n <=? 122)%nat) || ((48 <=? n)%nat && (n <=? 57)%nat).

(** [s.replace(/[^a-z0-9]+/g, '-')]; [inRun] tells that the previous
    character belonged to the run being replaced. *)
Fixpoint dashRuns (inRun : bool) (s : string) : string :=
  match s with
  | EmptyString => EmptyString
  | String c r =>
      if isSlugChar c then String c (dashRuns false r)
      else if inRun then dashRuns true r
      else String "-" (dashRuns true r)
  end.

Definition slugOf (themeName : string) : string :=
  dashRuns false (toLowerCase themeName).

(** [s.replace(/'/g, "'\"'\"'")] *)
Fixpoint shellQuote (s : string) : string :=
  match s with
  | EmptyString => EmptyString
  | String c r =>
      if Ascii.eqb c squote
      then str1 squote +:+ str1 dquote +:+ str1 squote +:+ str1 dquote
           +:+ str1 squote +:+ shellQuote r
      else String c (shellQuote r)
  end.

(** [`osascript -e '${script.replace(...)}'`] *)
Definition osascript (script : string) : string :=
  "osascript -e '" +:+ shellQuote script +:+ "'".

Definition setProfileScript (themeName : string) : string :=
  joinLines
    [ EmptyString;
      "      tell application " +:+ str1 dquote +:+ "iTerm" +:+ str1 dquote;
      "        repeat with w in windows";
      "          repeat with t in tabs of w";
      "            repeat with s in sessions of t";
      "              tell s to set profile to " +:+ str1 dquote +:+ themeName +:+ str1 dquote;
      "            end repeat";
      "          end repeat";
      "        end repeat";
      "      end tell";
      "    " ].

Definition dynamicProfilesDir (env : Env) : string :=
  join (homedir env) "Library/Application Support/iTerm2/DynamicProfiles".

Definition installToIterm2 (env : Env) (db : Database) (themeId : string)
  : M InstallResult :=
  let colors := getThemeColors db themeId in
  let themeName := getThemeName db themeId in
  match colors with
  | None => ret (mkResult false EmptyString None (Some "Theme not found"))
  | Some colors =>
      let dir := dynamicProfilesDir env in
      let! found := existsSync dir in
      do! (if negb found then mkdirSync env dir else ret tt) in
      let profile := itermProfile hexToItermColorDict themeName themeId colors in
      let slugName := slugOf themeName in
      let profilePath := join dir (slugName +:+ ".json") in
      tryCatch
        (do! writeFileSync env profilePath (JSON_stringify env 2 profile) in
         tryCatch
           (do! exec env (osascript (setProfileScript themeName)) in
            ret (mkResult true profilePath
                   (Some ("Theme " +:+ str1 dquote +:+ themeName
                          +:+ str1 dquote +:+ " applied to iTerm2!"))
                   None))
           (fun scriptErr =>
              ret (mkResult true profilePath
                     (Some ("Theme " +:+ str1 dquote +:+ themeName
                            +:+ str1 dquote
                            +:+ " installed. Open iTerm2 and select it from Profiles menu, or restart iTerm2."))
                     None)))
        (fun err =>
           ret (mkResult false profilePath None
                  (Some ("Failed to write profile: " +:+ errToString err))))
  end.

End Installer.

(** ** The CLI appliers ([cli/index.ts]) *)

Module Cli.
Import JS Path Sys Theme Store.
Local Open Scope sys_scope.

Record ApplyResult := mkApply { success : bool; message : string }.

Definition getFullThemeColors (db : Database) (themeId : string)
  : option ThemeColors :=
  let colors := selectColors db themeId in
  if (List.length colors =? 0)%nat then None
  else Some (Installer.colorsOfMap (newMap colors)).

(** *** iTerm2 *)

Definition hexToItermColor (hex : string) : json :=
  JObj [ ("Red Component", Installer.channel hex 1 3);
         ("Green Component", Installer.channel hex 3 5);
         ("Blue Component", Installer.channel hex 5 7);
         ("Alpha Component", JNum 1);
         ("Color Space", JStr "sRGB") ].

Definition setProfileScript (themeName : string) : string :=
  joinLines
    [ EmptyString;
      "      tell application " +:+ str1 dquote +:+ "iTerm" +:+ str1 dquote;
      "        repeat with w in windows";
      "          repeat with t in tabs of w";
      "            repeat with s in sessions of t";
      "              tell s to set profile to " +:+ str1 dquote +:+ themeName +:+ str1 dquote;
      "            end repeat";
      "          end repeat";
      "        end repeat";
      "      end tell";
      "    " ].

Definition applyToIterm2 (env : Env) (colors : ThemeColors)
  (themeName themeId : string) : M ApplyResult :=
  let dir := join (homedir env)
               "Library/Application Support/iTerm2/DynamicProfiles" in
  let! found := existsSync dir in
  do! (if negb found then mkdirSync env dir else ret tt) in
  let profile := Installer.itermProfile hexToItermColor themeName themeId colors in
  let slugName := Installer.slugOf themeName in
  let profilePath := join dir ("shellshade-" +:+ slugName +:+ ".json") in
  tryCatch
    (do! writeFileSync env profilePath (JSON_stringify env 2 profile) in
     tryCatch
       (do! exec env (Installer.osascript (setProfileScript themeName)) in
        ret (mkApply true "Theme applied to all sessions!"))
       (fun _ =>
          ret (mkApply true
                 "Profile installed. Select from Profiles menu or restart iTerm2.")))
    (fun _ => ret (mkApply false "Failed to install profile.")).

(** *** PowerShell *)

Definition psColorScript (colors : ThemeColors) (themeName : string)
  : string :=
  joinLines
    [ EmptyString;
      "# ShellShade Theme: " +:+ themeName;
      "# Generated by ShellShade - Terminal Theme Manager";
      EmptyString;
      "$Host.UI.RawUI.BackgroundColor = [System.ConsoleColor]::Black";
      "$Host.UI.RawUI.ForegroundColor = [System.ConsoleColor]::White";
      EmptyString;
      "# PSReadLine colors (if available)";
      "if (Get-Module -ListAvailable -Name PSReadLine) {";
      "    Set-PSReadLineOption -Colors @{";
      "        Command            = '" +:+ yellow (ansi colors) +:+ "'";
      "        Parameter          = '" +:+ cyan (ansi colors) +:+ "'";
      "        String             = '" +:+ green (ansi colors) +:+ "'";
      "        Comment            = '" +:+ brightBlack (ansi colors) +:+ "'";
      "        Keyword            = '" +:+ magenta (ansi colors) +:+ "'";
      "        Variable           = '" +:+ blue (ansi colors) +:+ "'";
      "        Operator           = '" +:+ foreground colors +:+ "'";
      "        Number             = '" +:+ red (ansi colors) +:+ "'";
      "        Type               = '" +:+ cyan (ansi colors) +:+ "'";
      "        Member             = '" +:+ yellow (ansi colors) +:+ "'";
      "        Error              = '" +:+ brightRed (ansi colors) +:+ "'";
      "        Selection          = '" +:+ selection colors +:+ "'";
      "    }";
      "}";
      EmptyString;
      "# Set console colors via registry (requires restart)";
      "$regPath = " +:+ str1 dquote +:+ "HKCU:\Console" +:+ str1 dquote;
      "if (Test-Path $regPath) {";
      "    # Note: Console colors require hex values in specific format";
      "    Write-Host " +:+ str1 dquote +:+ "Theme '" +:+ themeName +:+ "' applied to PSReadLine." +:+ str1 dquote +:+ " -ForegroundColor Green";
      "    Write-Host " +:+ str1 dquote +:+ "For full color support, use Windows Terminal." +:+ str1 dquote +:+ " -ForegroundColor Yellow";
      "}";
      EmptyString ].

Definition blockHeader : string := "# ShellShade Theme:".

(** Does [/\n?# ShellShade Theme:/] match at the head of [s], and over
    how many characters? The optional newline is tried first. *)
Definition headerLength (s : string) : option nat :=
  if startsWith (String nl blockHeader) s
  then Some (S (String.length blockHeader))
  else if startsWith blockHeader s
  then Some (String.length blockHeader)
  else None.

(** The look-ahead [(?=\n# (?!ShellShade)|$)] at the head of [s];
    without the [m] flag [$] is the end of the input. *)
Definition blockEndsHere (s : string) : bool :=
  (startsWith (String nl "# ") s
   && negb (startsWith "ShellShade" (drop_string 3 s)))
  || isEmpty s.

(** [s.replace(shellshadeBlockRegex, '')]. [skip = None]: looking for the
    next match; [skip = Some n]: inside a match, [n] characters of the
    header still to pass, then the lazy [[\s\S]*?] that stops at the
    first position where the look-ahead holds. *)
Fixpoint removeBlocks (skip : option nat) (s : string) : string :=
  match s with
  | EmptyString => EmptyString
  | String c r =>
      let search :=
        match headerLength s with
        | Some n => removeBlocks (Some (n - 1)%nat) r
        | None => String c (removeBlocks None r)
        end in
      match skip with
      | None => search
      | Some (S k) => removeBlocks (Some k) r
      | Some O => if blockEndsHere s then search
                  else removeBlocks (Some O) r
      end
  end.

Definition psProfileDir (env : Env) : string :=
  join (match env_USERPROFILE env with
        | Some d => strOr d (homedir env)
        | None => homedir env
        end) "Documents/PowerShell".

Definition psProfilePath (env : Env) : string :=
  join (psProfileDir env) "Microsoft.PowerShell_profile.ps1".

Definition applyToPowerShell (env : Env) (colors : ThemeColors)
  (themeName : string) : M ApplyResult :=
  let! found := existsSync (psProfileDir env) in
  do! (if negb found then mkdirSync env (psProfileDir env) else ret tt) in
  tryCatch
    (let! present := existsSync (psProfilePath env) in
     let! existingProfile :=
       (if present then readFileSync (psProfilePath env)
        else ret EmptyString) in
     let existingProfile := removeBlocks None existingProfile in
     let newProfile :=
       trim existingProfile +:+ str1 nl +:+ psColorScript colors themeName in
     do! writeFileSync env (psProfilePath env) newProfile in
     ret (mkApply true
            (joinLines [ "Theme applied to PowerShell profile!";
                         "Restart PowerShell to see changes.";
                         "For full 24-bit color, use Windows Terminal." ])))
    (fun err =>
       ret (mkApply false
              ("Failed to update PowerShell profile: " +:+ errToString err))).

(** *** Windows Terminal *)

Definition colorScheme (colors : ThemeColors) (themeName : string) : json :=
  JObj [ ("name", JStr themeName);
         ("background", JStr (background colors));
         ("foreground", JStr (foreground colors));
         ("cursorColor", JStr (cursor colors));
         ("selectionBackground", JStr (selection colors));
         ("black", JStr (black (ansi colors)));
         ("red", JStr (red (ansi colors)));
         ("green", JStr (green (ansi colors)));
         ("yellow", JStr (yellow (ansi colors)));
         ("blue", JStr (blue (ansi colors)));
         ("purple", JStr (magenta (ansi colors)));
         ("cyan", JStr (cyan (ansi colors)));
         ("white", JStr (white (ansi colors)));
         ("brightBlack", JStr (brightBlack (ansi colors)));
         ("brightRed", JStr (brightRed (ansi colors)));
         ("brightGreen", JStr (brightGreen (ansi colors)));
         ("brightYellow", JStr (brightYellow (ansi colors)));
         ("brightBlue", JStr (brightBlue (ansi colors)));
         ("brightPurple", JStr (brightMagenta (ansi colors)));
         ("brightCyan", JStr (brightCyan (ansi colors)));
         ("brightWhite", JStr (brightWhite (ansi colors))) ].

Definition isLineTerminator (c : ascii) : bool :=
  Ascii.eqb c nl || Ascii.eqb c "013"%char.

(** [s.replace(/\/\/.*$/gm, '')]; [inComment]: between [//] and the end
    of the line. *)
Fixpoint stripLineComments (inComment : bool) (s : string) : string :=
  match s with
  | EmptyString => EmptyString
  | String c r =>
      if inComment then
        if isLineTerminator c then String c (stripLineComments false r)
        else stripLineComments true r
      else
        match r with
        | String d r' =>
            if Ascii.eqb c "/" && Ascii.eqb d "/"
            then stripLineComments true r'
            else String c (stripLineComments false r)
        | EmptyString => String c EmptyString
        end
  end.

Fixpoint hasBlockEnd (s : string) : bool :=
  match s with
  | EmptyString => false
  | String c r => startsWith "*/" s || hasBlockEnd r
  end.

(** [s.replace(/\/\*[\s\S]*?\*\//g, '')]; [inBlock]: after a
    [/*] whose closing [*/] exists. *)
Fixpoint stripBlockComments (inBlock : bool) (s : string) : string :=
  match s with
  | EmptyString => EmptyString
  | String c r =>
      match r with
      | String d r' =>
          if inBlock then
            if Ascii.eqb c "*" && Ascii.eqb d "/"
            then stripBlockComments false r'
            else stripBlockComments true r
          else if Ascii.eqb c "/" && Ascii.eqb d "*" && hasBlockEnd r'
          then stripBlockComments true r'
          else String c (stripBlockComments false r)
      | EmptyString => if inBlock then EmptyString else String c EmptyString
      end
  end.

Definition stripComments (content : string) : string :=
  stripBlockComments false (stripLineComments false content).

(** [s.name !== themeName]; [None] when reading [s.name] throws. *)
Definition keepScheme (themeName : string) (s : json) : option bool :=
  match s with
  | JNull => None
  | _ => match prop "name" s with
         | Some (JStr n) => Some (negb (String.eqb n themeName))
         | _ => Some true
         end
  end.

(** [schemes.filter(s => s.name !== themeName)] *)
Fixpoint filterSchemes (themeName : string) (l : list json)
  : option (list json) :=
  match l with
  | [] => Some []
  | s :: rest =>
      match keepScheme themeName s with
      | None => None
      | Some keep =>
          match filterSchemes themeName rest with
          | None => None
          | Some rest' => Some (if keep then s :: rest' else rest')
          end
      end
  end.

Definition defaultSettings : json :=
  JObj [ ("schemes", JArr []); ("profiles", JObj [ ("defaults", JObj []) ]) ].

(** The value of [o.k] after [if (!o.k) o.k = d]. *)
Definition fieldOr (k : string) (d : json) (fields : list (string * json))
  : json :=
  jsOr (assoc k fields) d.

(** [if (!settings.profiles) settings.profiles = {};]
    [if (!settings.profiles.defaults) settings.profiles.defaults = {};]
    [settings.profiles.defaults.colorScheme = themeName;]
    on the fields of [settings]. The code is module code, hence strict:
    creating a property on a primitive throws; a property created on an
    array is not an element and is not serialised. *)
Definition setDefaultScheme (themeName : string)
  (fields : list (string * json)) : M (list (string * json)) :=
  match fieldOr "profiles" (JObj []) fields with
  | JObj pf =>
      match fieldOr "defaults" (JObj []) pf with
      | JObj df =>
          ret (setField "profiles"
                 (JObj (setField "defaults"
                          (JObj (setField "colorScheme" (JStr themeName) df))
                          pf))
                 fields)
      | JArr _ => ret fields
      | _ => throw (TypeError "Cannot create property 'colorScheme' on a primitive value")
      end
  | JArr _ => ret fields
  | _ => throw (TypeError "Cannot create property 'defaults' on a primitive value")
  end.

(** The statements between the reading of the settings and the writing
    of the file, on the value [settings]; the result is the value handed
    to [JSON.stringify]. *)
Definition updateSettings (colors : ThemeColors) (themeName : string)
  (settings : json) : M json :=
  match settings with
  | JNull =>
      throw (TypeError "Cannot read properties of null (reading 'schemes')")
  | JObj fields =>
      match fieldOr "schemes" (JArr []) fields with
      | JArr schemes =>
          match filterSchemes themeName schemes with
          | Some kept =>
              let fields1 :=
                setField "schemes"
                  (JArr (kept ++ [colorScheme colors themeName])) fields in
              let! fields2 := setDefaultScheme themeName fields1 in
              ret (JObj fields2)
          | None =>
              throw (TypeError "Cannot read properties of null (reading 'name')")
          end
      | _ => throw (TypeError "settings.schemes.filter is not a function")
      end
  | JArr items => ret (JArr items)
  | _ => throw (TypeError "Cannot create property 'schemes' on a primitive value")
  end.

Definition localAppData (env : Env) : string :=
  match env_LOCALAPPDATA env with
  | Some d => d
  | None => EmptyString
  end.

Definition wtPaths (env : Env) : list string :=
  [ join (localAppData env)
      "Packages/Microsoft.WindowsTerminal_8wekyb3d8bbwe/LocalState/settings.json";
    join (localAppData env) "Microsoft/Windows Terminal/settings.json" ].

(** [paths.find(p => fs.existsSync(p))] *)
Fixpoint findExisting (paths : list string) : M (option string) :=
  match paths with
  | [] => ret None
  | p :: rest =>
      let! found := existsSync p in
      if found then ret (Some p) else findExisting rest
  end.

Definition wtSettingsPath (env : Env) : M string :=
  let! found := findExisting (wtPaths env) in
  match found with
  | Some p => ret p
  | None =>
      let previewDir := join (localAppData env) "Microsoft/Windows Terminal" in
      let! present := existsSync previewDir in
      do! (if negb present then mkdirSync env previewDir else ret tt) in
      ret (join previewDir "settings.json")
  end.

Definition readSettings (env : Env) (settingsPath : string) : M json :=
  let! present := existsSync settingsPath in
  if present then
    let! content := readFileSync settingsPath in
    let jsonContent := stripComments content in
    tryCatch (parseJSON env jsonContent) (fun _ => ret defaultSettings)
  else ret defaultSettings.

Definition applyToWindowsTerminal (env : Env) (colors : ThemeColors)
  (themeName : string) : M ApplyResult :=
  let! settingsPath := wtSettingsPath env in
  tryCatch
    (let! settings := readSettings env settingsPath in
     let! settings' := updateSettings colors themeName settings in
     do! writeFileSync env settingsPath (JSON_stringify env 4 settings') in
     ret (mkApply true
            (joinLines [ "Theme added to Windows Terminal and set as default!";
                         "Restart Windows Terminal to see changes." ])))
    (fun err =>
       ret (mkApply false
              ("Failed to update Windows Terminal settings: "
               +:+ errToString err))).

End Cli.

(** ** The export handler ([main/ipc/files.ts]) *)

Module Files.
Import JS Sys.

(** The answer of [dialog.showSaveDialog]. *)
Record SaveDialogResult := mkDialog {
  canceled : bool; dialogPath : option string }.

(** The handler of [IPC_CHANNELS.FILES_EXPORT]; [dialog] is what the
    save dialog answers when it is shown. *)
Definition exportHandler (dialog : SaveDialogResult)
  (themeId format : string) (filePath : option string) : M string :=
  let chosen :=
    match filePath with
    | Some p => if isEmpty p then None else Some p
    | None => None
    end in
  match chosen with
  | Some targetPath =>
      throw (plainError "Export not yet implemented. Coming soon!")
  | None =>
      if canceled dialog
         || match dialogPath dialog with
            | Some p => isEmpty p
            | None => true
            end
      then throw (plainError "Export cancelled")
      else throw (plainError "Export not yet implemented. Coming soon!")
  end.

End Files.

(** ** Notions used to state the properties *)

Module Props.
Import JS Path Sys Theme Parsers Store.

(** *** Bytes as two lower-case hexadecimal digits *)

Definition hexDigitChar (d : Z) : ascii :=
  match String.get (Z.to_nat d) "0123456789abcdef" with
  | Some c => c
  | None => "0"%char
  end.

Definition byteHex (n : Z) : string :=
  String (hexDigitChar (n / 16)) (String (hexDigitChar (n mod 16)) EmptyString).

(** The conversion as the specification words it: multiply by 255,
    round, clamp to [0,255], two lower-case hexadecimal digits. *)
Definition clampByte (n : Z) : Z := Z.max 0 (Z.min 255 n).
Definition clampIntegral (n : integral) : Z :=
  match n with
  | Whole z => clampByte z
  | NotANumber => 0
  | Unbounded negative => if negative then 0 else 255
  end.
Definition specComponentHex (c : number) : string :=
  byteHex (clampIntegral (Math_roundN (timesLiteral c 255))).

(** The component [k] of a colour dictionary is absent or a number of
    the unit interval. *)
Definition unitComponent (colorDict : json) (k : string) : Prop :=
  match prop k colorDict with
  | None => True
  | Some (JNum q) => (0 <= q)%Q /\ (q <= 1)%Q
  | Some _ => False
  end.

Definition unitColor (colorDict : json) : Prop :=
  unitComponent colorDict "Red Component"
  /\ unitComponent colorDict "Green Component"
  /\ unitComponent colorDict "Blue Component".

(** *** Files *)

(** What [fs.existsSync(p)] answers in the world [w]. *)
Definition present (w : World) (p : string) : bool :=
  bool_decide (is_Some (files w !! p)) || bool_decide (p ∈ dirs w).

(** *** Strings *)

(** [hay.includes(needle)] *)
Fixpoint includes (needle hay : string) : bool :=
  match hay with
  | EmptyString => isEmpty needle
  | String _ r => startsWith needle hay || includes needle r
  end.

(** Number of positions of [hay] at which [needle] occurs. *)
Fixpoint occurrences (needle hay : string) : nat :=
  match hay with
  | EmptyString => O
  | String _ r =>
      ((if startsWith needle hay then 1 else 0) + occurrences needle r)%nat
  end.

(** *** The native JSON shape *)

(** The document of the native shape for a theme: an object with the
    [name] and the [colors] object, the latter with its [ansi]
    sub-object. The repository has no function that builds it (the
    export handler throws); it is what the first branch of [parseJson]
    recognises. *)
Definition nativeShape (n : string) (c : ThemeColors) : json :=
  JObj [ ("name", JStr n); ("colors", colorsToJson c) ].

(** *** Windows Terminal documents *)

(** [s.name === themeName] *)
Definition isNamed (themeName : string) (s : json) : bool :=
  match prop "name" s with
  | Some (JStr n) => String.eqb n themeName
  | _ => false
  end.

(** The entries of [doc.schemes] whose name is [themeName]. *)
Definition schemesNamed (themeName : string) (doc : json) : list json :=
  match prop "schemes" doc with
  | Some (JArr l) => List.filter (isNamed themeName) l
  | _ => []
  end.

Definition notNull (v : json) : bool :=
  match v with JNull => false | _ => true end.

Definition isObject (v : json) : bool :=
  match v with JObj _ => true | _ => false end.

Definition objectOrArray (v : json) : bool :=
  match v with JObj _ | JArr _ => true | _ => false end.

(** A settings document as Windows Terminal keeps it: an object; its
    [schemes], when set, an array without [null] entries; its
    [profiles], when set, an array or an object whose [defaults], when
    set, is an object or an array. *)
Definition isSettingsDocument (v : json) : bool :=
  match v with
  | JObj fields =>
      match jsOr (assoc "schemes" fields) (JArr []) with
      | JArr l => forallb notNull l
      | _ => false
      end
      && match jsOr (assoc "profiles" fields) (JObj []) with
         | JObj pf => objectOrArray (jsOr (assoc "defaults" pf) (JObj []))
         | JArr _ => true
         | _ => false
         end
  | _ => false
  end.

(** The settings the run starts from when the file holds [content]. *)
Definition settingsOf (env : Env) (content : string) : json :=
  match JSON_parse env (Cli.stripComments content) with
  | Some v => v
  | None => Cli.defaultSettings
  end.

(** The settings file [applyToWindowsTerminal] picks when one exists:
    the first of [wtPaths] that is present. *)
Definition settingsFile (env : Env) (w : World) : option string :=
  List.find (present w) (Cli.wtPaths env).

(** The call returned a result with [success: true]. *)
Definition applied (o : Outcome Cli.ApplyResult) : bool :=
  match o with
  | Ret r => Cli.success r
  | Throw _ => false
  end.

(** *** The iTerm2 installers *)

(** The file [installToIterm2] writes. *)
Definition guiProfilePath (env : Env) (db : Database) (themeId : string)
  : string :=
  join (Installer.dynamicProfilesDir env)
       (Installer.slugOf (Installer.getThemeName db themeId) +:+ ".json").

(** The file [applyToIterm2] writes. *)
Definition cliProfilePath (env : Env) (themeName : string) : string :=
  join (Installer.dynamicProfilesDir env)
       ("shellshade-" +:+ Installer.slugOf themeName +:+ ".json").

(** The directory exists already or can be created. *)
Definition dirAvailable (env : Env) (w : World) (dir : string) : Prop :=
  present w dir = true \/ mkdirSync_error env dir = None.

(** The world once the directory [dir] has been looked up and, when it
    was missing, created. *)
Definition withDir (w : World) (dir : string) : World :=
  if present w dir
  then mkWorld (files w) (dirs w) (EvExists dir :: trace w)
  else mkWorld (files w) ({[dir]} ∪ dirs w)
               (EvMkdir dir :: EvExists dir :: trace w).

(** The two texts of [instructions] of a successful [installToIterm2]. *)
Definition appliedText (themeName : string) : string :=
  "Theme " +:+ str1 dquote +:+ themeName +:+ str1 dquote
  +:+ " applied to iTerm2!".
Definition manualText (themeName : string) : string :=
  "Theme " +:+ str1 dquote +:+ themeName +:+ str1 dquote
  +:+ " installed. Open iTerm2 and select it from Profiles menu, or restart iTerm2.".

(** *** The dispatcher *)

(** The message of the error thrown by [parseTerminalApp]. *)
Definition terminalAppMessage : string :=
  "Terminal.app (.terminal) format uses NSKeyedArchiver which requires native parsing. Please export your theme from iTerm2 as .itermcolors instead, or use a different format.".

Definition recognisedExtensions : list string :=
  [ ".itermcolors"; ".terminal"; ".yaml"; ".yml"; ".json"; ".conf" ].

(** *** The slots of the store, with their keys and built-in defaults *)

Definition storeSlots : list (string * (ThemeColors -> string) * string) :=
  [ ("background", background, "#000000");
    ("foreground", foreground, "#ffffff");
    ("cursor", cursor, "#ffffff");
    ("cursorText", cursorText, "#000000");
    ("selection", selection, "#444444");
    ("selectionText", selectionText, "#ffffff");
    ("ansi_black", fun c => black (ansi c), "#000000");
    ("ansi_red", fun c => red (ansi c), "#ff0000");
    ("ansi_green", fun c => green (ansi c), "#00ff00");
    ("ansi_yellow", fun c => yellow (ansi c), "#ffff00");
    ("ansi_blue", fun c => blue (ansi c), "#0000ff");
    ("ansi_magenta", fun c => magenta (ansi c), "#ff00ff");
    ("ansi_cyan", fun c => cyan (ansi c), "#00ffff");
    ("ansi_white", fun c => white (ansi c), "#ffffff");
    ("ansi_brightBlack", fun c => brightBlack (ansi c), "#666666");
    ("ansi_brightRed", fun c => brightRed (ansi c), "#ff6666");
    ("ansi_brightGreen", fun c => brightGreen (ansi c), "#66ff66");
    ("ansi_brightYellow", fun c => brightYellow (ansi c), "#ffff66");
    ("ansi_brightBlue", fun c => brightBlue (ansi c), "#6666ff");
    ("ansi_brightMagenta", fun c => brightMagenta (ansi c), "#ff66ff");
    ("ansi_brightCyan", fun c => brightCyan (ansi c), "#66ffff");
    ("ansi_brightWhite", fun c => brightWhite (ansi c), "#ffffff") ].

End Props.

(** ** Concrete inputs *)

Module Examples.
Import JS Path Sys Theme Parsers Store Props.

(** A colour entry whose red component exceeds 1. *)
Definition overflowDict : json :=
  JObj [ ("Red Component", JNum (6 # 5)); ("Green Component", JNum 0);
         ("Blue Component", JNum 0) ].
Definition overflowDoc : json := JObj [ ("Background Color", overflowDict) ].

(** A red component whose product with 255 lies just below one half. *)
Definition tieComponent : Q := 196078431372549 # 100000000000000000.
Definition tieDict : json :=
  JObj [ ("Red Component", JNum tieComponent); ("Green Component", JNum 0);
         ("Blue Component", JNum 0) ].
Definition tieDoc : json := JObj [ ("Background Color", tieDict) ].

(** An orange entry: components 1, 1/2 and 0. *)
Definition orangeDict : json :=
  JObj [ ("Red Component", JNum 1); ("Green Component", JNum (1 # 2));
         ("Blue Component", JNum 0) ].
Definition orangeDoc : json := JObj [ ("Cursor Color", orangeDict) ].

(** A light scheme without [Cursor Text Color] and without
    [Selected Text Color]: white background, orange foreground. *)
Definition whiteDict : json :=
  JObj [ ("Red Component", JNum 1); ("Green Component", JNum 1);
         ("Blue Component", JNum 1) ].
Definition lightDoc : json :=
  JObj [ ("Background Color", whiteDict); ("Foreground Color", orangeDict) ].

(** A platform on which every call succeeds, [plutil] answers [text]
    and [JSON.parse] of [text] is [doc]. *)
Definition envWith (text : string) (doc : json) : Env :=
  mkEnv (fun s => if String.eqb s text then Some doc else None)
        (fun _ _ => text)
        (fun _ => Some text)
        "plutil: conversion failed"
        (fun _ => None) (fun _ => None) (fun _ => None)
        1700000000000 "/Users/me" None None.

Definition emptyWorld : World := mkWorld ∅ ∅ [].

Definition lightWorld : World :=
  mkWorld {[ "light.itermcolors" := "<plist/>" ]} ∅ [].

(** The Tokyo Night palette. *)
Definition tokyoNight : ThemeColors :=
  mkColors "#1a1b26" "#c0caf5" "#c0caf5" "#1a1b26" "#33467c" "#c0caf5"
    (mkAnsi "#15161e" "#f7768e" "#9ece6a" "#e0af68" "#7aa2f7" "#bb9af7"
            "#7dcfff" "#a9b1d6" "#414868" "#f7768e" "#9ece6a" "#e0af68"
            "#7aa2f7" "#bb9af7" "#7dcfff" "#c0caf5").

(** A profile script of the user, without any ShellShade block. *)
Definition userProfile : string := "Set-Alias ll Get-ChildItem".

Definition psEnv : Env := envWith "{}" (JObj []).

Definition psWorld : World :=
  mkWorld {[ Cli.psProfilePath psEnv := userProfile ]}
          {[ Cli.psProfileDir psEnv ]} [].

(** The profile after one and after two applications of the same theme. *)
Definition psOnce : Outcome Cli.ApplyResult * World :=
  Cli.applyToPowerShell psEnv tokyoNight "Tokyo Night" psWorld.
Definition psTwice : Outcome Cli.ApplyResult * World :=
  Cli.applyToPowerShell psEnv tokyoNight "Tokyo Night" psOnce.2.

Definition profileText (w : World) : string :=
  match files w !! Cli.psProfilePath psEnv with
  | Some t => t
  | None => EmptyString
  end.

(** A theme file of the native shape whose theme has an empty name. *)
Definition namelessEnv : Env := envWith "{}" (nativeShape EmptyString tokyoNight).
Definition namelessWorld : World := mkWorld {[ "theme.json" := "{}" ]} ∅ [].

Definition namedEnv : Env := envWith "{}" (nativeShape "Tokyo Night" tokyoNight).

(** Scenario B: a Kitty file with a background and one ANSI colour. *)
Definition minimalConf : string :=
  joinLines [ "background #1a1b26"; "color1 #f7768e" ].
Definition confWorld : World :=
  mkWorld {[ "themes/minimal.conf" := minimalConf ]} ∅ [].

(** The same two colours in Alacritty's block style. *)
Definition minimalYaml : string :=
  joinLines [ "colors:"; "  primary:"; "    background: '0x1a1b26'";
              "  normal:"; "    red: '#F7768E'" ].

(** A folder with one theme file of each parsed kind, the extensions
    written in capitals. *)
Definition themesWorld : World :=
  mkWorld {[ "themes/minimal.CONF" := minimalConf;
             "themes/minimal.YML" := minimalYaml;
             "themes/light.ITERMCOLORS" := "<plist/>";
             "themes/night.JSON" := "{}" ]} ∅ [].

(** A store with a single colour row for the theme [t1]. *)
Definition oneRowDb : Database :=
  mkDb [ mkColorRow "t1" "background" "#1a1b26";
         mkColorRow "t2" "foreground" "#ffffff" ]
       [ mkThemeRow "t1" "Tokyo Night" ].

(** A platform on which writing succeeds and [osascript] fails. *)
Definition noScriptEnv : Env :=
  mkEnv (fun _ => None) (fun _ _ => "{}") (fun _ => None)
        "plutil: conversion failed"
        (fun _ => None) (fun _ => None)
        (fun _ => Some "osascript: command not found")
        1700000000000 "/Users/me" None None.

(** A Windows Terminal settings document with two schemes, one of them an
    older Tokyo Night. *)
Definition startSettings : json :=
  JObj [ ("defaultProfile", JStr "{61c54bbd-c2c6-5271-96e7-009a87ff44bf}");
         ("schemes",
          JArr [ JObj [ ("name", JStr "Tokyo Night");
                        ("background", JStr "#000000") ];
                 JObj [ ("name", JStr "Campbell");
                        ("background", JStr "#0c0c0c") ] ]);
         ("profiles", JObj [ ("list", JArr []) ]) ].

Definition wtEnv : Env :=
  mkEnv (fun s => if String.eqb s "{}" then Some startSettings else None)
        (fun _ _ => "{}") (fun _ => None) "plutil: conversion failed"
        (fun _ => None) (fun _ => None) (fun _ => None)
        1700000000000 "C:/Users/me" (Some "C:/Users/me/AppData/Local")
        (Some "C:/Users/me").

Definition wtFile : string :=
  "C:/Users/me/AppData/Local/Microsoft/Windows Terminal/settings.json".

Definition wtWorld : World := mkWorld {[ wtFile := "{}" ]} ∅ [].

(** A world in which a Terminal.app export exists. *)
Definition terminalWorld : World :=
  mkWorld {[ "Themes/Basic.TERMINAL" := "bplist00" ]} ∅ [].

End Examples.

(** ** The other CLI appliers ([cli/index.ts]) *)

Module Appliers.
Import JS Path Sys Theme Store.
Local Open Scope sys_scope.

(** What the platform decides besides [Env]: the text [yaml.stringify]
    produces and the directory [os.tmpdir()] names. *)
Record Platform := mkPlatform {
  yaml_stringify : json -> string;
  os_tmpdir : string }.

(** [s.replace(/[^a-z0-9]+/g, '_')]; [inRun] as in [dashRuns]. *)
Fixpoint underscoreRuns (inRun : bool) (s : string) : string :=
  match s with
  | EmptyString => EmptyString
  | String c r =>
      if Installer.isSlugChar c then String c (underscoreRuns false r)
      else if inRun then underscoreRuns true r
      else String "_" (underscoreRuns true r)
  end.

Definition slugUnderscore (themeName : string) : string :=
  underscoreRuns false (toLowerCase themeName).

(** [`${n}`] for a number that is an integer or [NaN]. *)
Definition numberText (n : option Z) : string :=
  match n with
  | Some z => toString10 z
  | None => "NaN"
  end.

(** [parseInt(hex.slice(a, b), 16)] *)
Definition channelByte (hex : string) (a b : Z) : option Z :=
  Installer.parseInt16 (slice a b hex).

(** [hexToRgb]: the three channels. *)
Definition hexToRgb (hex : string) : option Z * option Z * option Z :=
  (channelByte hex 1 3, channelByte hex 3 5, channelByte hex 5 7).

(** The closure [hexToRGB] of the Terminal.app code: channels scaled by
    257 and written as an AppleScript list. *)
Definition hexToRGB (hex : string) : string :=
  let r := option_map (fun n => n * 257) (channelByte hex 1 3) in
  let g := option_map (fun n => n * 257) (channelByte hex 3 5) in
  let b := option_map (fun n => n * 257) (channelByte hex 5 7) in
  "{" +:+ numberText r +:+ ", " +:+ numberText g +:+ ", " +:+ numberText b
  +:+ "}".

(** [themeName.replace(/"/g, '\\"')] *)
Fixpoint escapeQuotes (s : string) : string :=
  match s with
  | EmptyString => EmptyString
  | String c r =>
      if Ascii.eqb c dquote then String "\" (String dquote (escapeQuotes r))
      else String c (escapeQuotes r)
  end.

(** *** Terminal.app *)

Definition terminalScript (colors : ThemeColors) (escapedName : string)
  : string :=
  joinLines
    [ EmptyString;
      "    tell application " +:+ str1 dquote +:+ "Terminal" +:+ str1 dquote;
      "      if not (exists settings set " +:+ str1 dquote +:+ escapedName +:+ str1 dquote +:+ ") then";
      "        make new settings set with properties {name:" +:+ str1 dquote +:+ escapedName +:+ str1 dquote +:+ "}";
      "      end if";
      EmptyString;
      "      set targetSettings to settings set " +:+ str1 dquote +:+ escapedName +:+ str1 dquote;
      "      set background color of targetSettings to " +:+ hexToRGB (background colors);
      "      set normal text color of targetSettings to " +:+ hexToRGB (foreground colors);
      "      set cursor color of targetSettings to " +:+ hexToRGB (cursor colors);
      EmptyString;
      "      set default settings to targetSettings";
      "      set startup settings to targetSettings";
      EmptyString;
      "      if (count of windows) > 0 then";
      "        repeat with w in windows";
      "          try";
      "            set current settings of selected tab of w to targetSettings";
      "          end try";
      "        end repeat";
      "      end if";
      "    end tell";
      "  " ].

Definition applyToTerminalApp (env : Env) (colors : ThemeColors)
  (themeName : string) : M Cli.ApplyResult :=
  let escapedName := escapeQuotes themeName in
  tryCatch
    (do! exec env (Installer.osascript (terminalScript colors escapedName)) in
     ret (Cli.mkApply true "Theme applied and set as default!"))
    (fun _ =>
       ret (Cli.mkApply false
              "Theme saved to profiles. Select in Terminal → Settings → Profiles.")).

(** *** Warp *)

Definition warpTheme (colors : ThemeColors) (themeName : string) : json :=
  JObj [ ("name", JStr themeName);
         ("accent", JStr (blue (ansi colors)));
         ("background", JStr (background colors));
         ("foreground", JStr (foreground colors));
         ("details", JStr "darker");
         ("terminal_colors",
          JObj [ ("normal",
                  JObj [ ("black", JStr (black (ansi colors)));
                         ("red", JStr (red (ansi colors)));
                         ("green", JStr (green (ansi colors)));
                         ("yellow", JStr (yellow (ansi colors)));
                         ("blue", JStr (blue (ansi colors)));
                         ("magenta", JStr (magenta (ansi colors)));
                         ("cyan", JStr (cyan (ansi colors)));
                         ("white", JStr (white (ansi colors))) ]);
                 ("bright",
                  JObj [ ("black", JStr (brightBlack (ansi colors)));
                         ("red", JStr (brightRed (ansi colors)));
                         ("green", JStr (brightGreen (ansi colors)));
                         ("yellow", JStr (brightYellow (ansi colors)));
                         ("blue", JStr (brightBlue (ansi colors)));
                         ("magenta", JStr (brightMagenta (ansi colors)));
                         ("cyan", JStr (brightCyan (ansi colors)));
                         ("white", JStr (brightWhite (ansi colors))) ]) ]) ].

(** The shape shared by the appliers that only write a theme file:
    create the directory when it is missing, write, report. *)
Definition writeThemeFile (env : Env) (dir themePath content : string)
  (done : string) : M Cli.ApplyResult :=
  let! found := existsSync dir in
  do! (if negb found then mkdirSync env dir else ret tt) in
  tryCatch
    (do! writeFileSync env themePath content in
     ret (Cli.mkApply true done))
    (fun _ => ret (Cli.mkApply false "Failed to write theme file.")).

Definition warpPath (env : Env) (themeName : string) : string :=
  join (join (homedir env) ".warp/themes")
       (slugUnderscore themeName +:+ ".yaml").

Definition applyToWarp (env : Env) (pf : Platform) (colors : ThemeColors)
  (themeName : string) : M Cli.ApplyResult :=
  writeThemeFile env (join (homedir env) ".warp/themes")
    (warpPath env themeName)
    (yaml_stringify pf (warpTheme colors themeName))
    (joinLines [ "Theme saved to " +:+ warpPath env themeName;
                 "Select in Warp → Settings → Appearance → Themes." ]).

(** *** Alacritty *)

Definition tomlContent (colors : ThemeColors) (themeName : string) : string :=
  joinLines
    [ "# " +:+ themeName +:+ " - Generated by ShellShade";
      "[colors.primary]";
      "background = " +:+ str1 dquote +:+ background colors +:+ str1 dquote;
      "foreground = " +:+ str1 dquote +:+ foreground colors +:+ str1 dquote;
      EmptyString;
      "[colors.cursor]";
      "text = " +:+ str1 dquote +:+ cursorText colors +:+ str1 dquote;
      "cursor = " +:+ str1 dquote +:+ cursor colors +:+ str1 dquote;
      EmptyString;
      "[colors.selection]";
      "text = " +:+ str1 dquote +:+ selectionText colors +:+ str1 dquote;
      "background = " +:+ str1 dquote +:+ selection colors +:+ str1 dquote;
      EmptyString;
      "[colors.normal]";
      "black = " +:+ str1 dquote +:+ black (ansi colors) +:+ str1 dquote;
      "red = " +:+ str1 dquote +:+ red (ansi colors) +:+ str1 dquote;
      "green = " +:+ str1 dquote +:+ green (ansi colors) +:+ str1 dquote;
      "yellow = " +:+ str1 dquote +:+ yellow (ansi colors) +:+ str1 dquote;
      "blue = " +:+ str1 dquote +:+ blue (ansi colors) +:+ str1 dquote;
      "magenta = " +:+ str1 dquote +:+ magenta (ansi colors) +:+ str1 dquote;
      "cyan = " +:+ str1 dquote +:+ cyan (ansi colors) +:+ str1 dquote;
      "white = " +:+ str1 dquote +:+ white (ansi colors) +:+ str1 dquote;
      EmptyString;
      "[colors.bright]";
      "black = " +:+ str1 dquote +:+ brightBlack (ansi colors) +:+ str1 dquote;
      "red = " +:+ str1 dquote +:+ brightRed (ansi colors) +:+ str1 dquote;
      "green = " +:+ str1 dquote +:+ brightGreen (ansi colors) +:+ str1 dquote;
      "yellow = " +:+ str1 dquote +:+ brightYellow (ansi colors) +:+ str1 dquote;
      "blue = " +:+ str1 dquote +:+ brightBlue (ansi colors) +:+ str1 dquote;
      "magenta = " +:+ str1 dquote +:+ brightMagenta (ansi colors) +:+ str1 dquote;
      "cyan = " +:+ str1 dquote +:+ brightCyan (ansi colors) +:+ str1 dquote;
      "white = " +:+ str1 dquote +:+ brightWhite (ansi colors) +:+ str1 dquote;
      EmptyString ].

Definition alacrittyPath (env : Env) (themeName : string) : string :=
  join (join (homedir env) ".config/alacritty/themes")
       (slugUnderscore themeName +:+ ".toml").

Definition applyToAlacritty (env : Env) (colors : ThemeColors)
  (themeName : string) : M Cli.ApplyResult :=
  writeThemeFile env (join (homedir env) ".config/alacritty/themes")
    (alacrittyPath env themeName)
    (tomlContent colors themeName)
    (joinLines [ "Theme saved to " +:+ alacrittyPath env themeName;
                 "Import in alacritty.toml with: import = [" +:+ str1 dquote
                 +:+ alacrittyPath env themeName +:+ str1 dquote +:+ "]" ]).

(** *** Kitty *)

Definition kittyTheme (colors : ThemeColors) (themeName : string) : string :=
  joinLines
    [ "# " +:+ themeName +:+ " - Generated by ShellShade";
      EmptyString;
      "foreground " +:+ foreground colors;
      "background " +:+ background colors;
      "cursor " +:+ cursor colors;
      "cursor_text_color " +:+ cursorText colors;
      "selection_foreground " +:+ selectionText colors;
      "selection_background " +:+ selection colors;
      EmptyString;
      "# Normal colors";
      "color0 " +:+ black (ansi colors);
      "color1 " +:+ red (ansi colors);
      "color2 " +:+ green (ansi colors);
      "color3 " +:+ yellow (ansi colors);
      "color4 " +:+ blue (ansi colors);
      "color5 " +:+ magenta (ansi colors);
      "color6 " +:+ cyan (ansi colors);
      "color7 " +:+ white (ansi colors);
      EmptyString;
      "# Bright colors";
      "color8 " +:+ brightBlack (ansi colors);
      "color9 " +:+ brightRed (ansi colors);
      "color10 " +:+ brightGreen (ansi colors);
      "color11 " +:+ brightYellow (ansi colors);
      "color12 " +:+ brightBlue (ansi colors);
      "color13 " +:+ brightMagenta (ansi colors);
      "color14 " +:+ brightCyan (ansi colors);
      "color15 " +:+ brightWhite (ansi colors);
      EmptyString ].

Definition kittyPath (env : Env) (themeName : string) : string :=
  join (join (homedir env) ".config/kitty/themes")
       (slugUnderscore themeName +:+ ".conf").

Definition applyToKitty (env : Env) (colors : ThemeColors)
  (themeName : string) : M Cli.ApplyResult :=
  writeThemeFile env (join (homedir env) ".config/kitty/themes")
    (kittyPath env themeName)
    (kittyTheme colors themeName)
    (joinLines [ "Theme saved to " +:+ kittyPath env themeName;
                 "Apply with: kitty +kitten themes --reload-in=all "
                 +:+ themeName ]).

(** *** Konsole *)

Definition hexToKonsoleRgb (hex : string) : string :=
  numberText (channelByte hex 1 3) +:+ "," +:+ numberText (channelByte hex 3 5)
  +:+ "," +:+ numberText (channelByte hex 5 7).

Definition konsoleTheme (colors : ThemeColors) (themeName : string) : string :=
  joinLines
    [ "[Background]";
      "Color=" +:+ hexToKonsoleRgb (background colors);
      EmptyString;
      "[BackgroundFaint]";
      "Color=" +:+ hexToKonsoleRgb (background colors);
      EmptyString;
      "[BackgroundIntense]";
      "Color=" +:+ hexToKonsoleRgb (background colors);
      EmptyString;
      "[Color0]";
      "Color=" +:+ hexToKonsoleRgb (black (ansi colors));
      EmptyString;
      "[Color0Faint]";
      "Color=" +:+ hexToKonsoleRgb (black (ansi colors));
      EmptyString;
      "[Color0Intense]";
      "Color=" +:+ hexToKonsoleRgb (brightBlack (ansi colors));
      EmptyString;
      "[Color1]";
      "Color=" +:+ hexToKonsoleRgb (red (ansi colors));
      EmptyString;
      "[Color1Faint]";
      "Color=" +:+ hexToKonsoleRgb (red (ansi colors));
      EmptyString;
      "[Color1Intense]";
      "Color=" +:+ hexToKonsoleRgb (brightRed (ansi colors));
      EmptyString;
      "[Color2]";
      "Color=" +:+ hexToKonsoleRgb (green (ansi colors));
      EmptyString;
      "[Color2Faint]";
      "Color=" +:+ hexToKonsoleRgb (green (ansi colors));
      EmptyString;
      "[Color2Intense]";
      "Color=" +:+ hexToKonsoleRgb (brightGreen (ansi colors));
      EmptyString;
      "[Color3]";
      "Color=" +:+ hexToKonsoleRgb (yellow (ansi colors));
      EmptyString;
      "[Color3Faint]";
      "Color=" +:+ hexToKonsoleRgb (yellow (ansi colors));
      EmptyString;
      "[Color3Intense]";
      "Color=" +:+ hexToKonsoleRgb (brightYellow (ansi colors));
      EmptyString;
      "[Color4]";
      "Color=" +:+ hexToKonsoleRgb (blue (ansi colors));
      EmptyString;
      "[Color4Faint]";
      "Color=" +:+ hexToKonsoleRgb (blue (ansi colors));
      EmptyString;
      "[Color4Intense]";
      "Color=" +:+ hexToKonsoleRgb (brightBlue (ansi colors));
      EmptyString;
      "[Color5]";
      "Color=" +:+ hexToKonsoleRgb (magenta (ansi colors));
      EmptyString;
      "[Color5Faint]";
      "Color=" +:+ hexToKonsoleRgb (magenta (ansi colors));
      EmptyString;
      "[Color5Intense]";
      "Color=" +:+ hexToKonsoleRgb (brightMagenta (ansi colors));
      EmptyString;
      "[Color6]";
      "Color=" +:+ hexToKonsoleRgb (cyan (ansi colors));
      EmptyString;
      "[Color6Faint]";
      "Color=" +:+ hexToKonsoleRgb (cyan (ansi colors));
      EmptyString;
      "[Color6Intense]";
      "Color=" +:+ hexToKonsoleRgb (brightCyan (ansi colors));
      EmptyString;
      "[Color7]";
      "Color=" +:+ hexToKonsoleRgb (white (ansi colors));
      EmptyString;
      "[Color7Faint]";
      "Color=" +:+ hexToKonsoleRgb (white (ansi colors));
      EmptyString;
      "[Color7Intense]";
      "Color=" +:+ hexToKonsoleRgb (brightWhite (ansi colors));
      EmptyString;
      "[Foreground]";
      "Color=" +:+ hexToKonsoleRgb (foreground colors);
      EmptyString;
      "[ForegroundFaint]";
      "Color=" +:+ hexToKonsoleRgb (foreground colors);
      EmptyString;
      "[ForegroundIntense]";
      "Color=" +:+ hexToKonsoleRgb (foreground colors);
      EmptyString;
      "[General]";
      "Anchor=0.5,0.5";
      "Blur=false";
      "ColorRandomization=false";
      "Description=" +:+ themeName;
      "FillStyle=Tile";
      "Opacity=1";
      "Wallpaper=";
      "WallpaperFlipType=NoFlip";
      "WallpaperOpacity=1";
      EmptyString ].

Definition konsolePath (env : Env) (themeName : string) : string :=
  join (join (homedir env) ".local/share/konsole")
       (slugUnderscore themeName +:+ ".colorscheme").

Definition applyToKonsole (env : Env) (colors : ThemeColors)
  (themeName : string) : M Cli.ApplyResult :=
  let! found := existsSync (join (homedir env) ".local/share/konsole") in
  do! (if negb found
       then mkdirSync env (join (homedir env) ".local/share/konsole")
       else ret tt) in
  tryCatch
    (do! writeFileSync env (konsolePath env themeName)
           (konsoleTheme colors themeName) in
     ret (Cli.mkApply true
            (joinLines
               [ "Theme saved to " +:+ konsolePath env themeName;
                 "Select in Konsole → Settings → Edit Current Profile → Appearance" ])))
    (fun _ => ret (Cli.mkApply false "Failed to write colorscheme file.")).

(** *** GNOME Terminal *)

(** [list.map(c => `'${c}'`).join(', ')] *)
Definition quotedList (l : list string) : string :=
  String.concat ", " (map (fun c => "'" +:+ c +:+ "'") l).

Definition gnomeScript (colors : ThemeColors) (themeName : string) : string :=
  let slugName := Installer.slugOf themeName in
  let profileId := "shellshade-" +:+ slugName in
  let palette :=
    quotedList
      [ black (ansi colors); red (ansi colors); green (ansi colors);
        yellow (ansi colors); blue (ansi colors); magenta (ansi colors);
        cyan (ansi colors); white (ansi colors);
        brightBlack (ansi colors); brightRed (ansi colors);
        brightGreen (ansi colors); brightYellow (ansi colors);
        brightBlue (ansi colors); brightMagenta (ansi colors);
        brightCyan (ansi colors); brightWhite (ansi colors) ] in
  joinLines
    [ "#!/bin/bash";
      "# ShellShade Theme: " +:+ themeName;
      EmptyString;
      "PROFILE_ID=" +:+ str1 dquote +:+ profileId +:+ str1 dquote;
      "PROFILE_PATH=" +:+ str1 dquote +:+ "/org/gnome/terminal/legacy/profiles:/:$PROFILE_ID/" +:+ str1 dquote;
      EmptyString;
      "# Create new profile";
      "dconf write /org/gnome/terminal/legacy/profiles:/list " +:+ str1 dquote +:+ "[$(dconf read /org/gnome/terminal/legacy/profiles:/list | tr -d " +:+ str1 dquote +:+ "[]'" +:+ str1 dquote +:+ " | sed " +:+ str1 dquote +:+ "s/,/', '/g" +:+ str1 dquote +:+ "), '$PROFILE_ID']" +:+ str1 dquote +:+ " 2>/dev/null || true";
      EmptyString;
      "# Set profile properties";
      "dconf write " +:+ str1 dquote +:+ "$PROFILE_PATH/visible-name" +:+ str1 dquote +:+ " " +:+ str1 dquote +:+ "'" +:+ themeName +:+ "'" +:+ str1 dquote;
      "dconf write " +:+ str1 dquote +:+ "$PROFILE_PATH/use-theme-colors" +:+ str1 dquote +:+ " " +:+ str1 dquote +:+ "false" +:+ str1 dquote;
      "dconf write " +:+ str1 dquote +:+ "$PROFILE_PATH/background-color" +:+ str1 dquote +:+ " " +:+ str1 dquote +:+ "'" +:+ background colors +:+ "'" +:+ str1 dquote;
      "dconf write " +:+ str1 dquote +:+ "$PROFILE_PATH/foreground-color" +:+ str1 dquote +:+ " " +:+ str1 dquote +:+ "'" +:+ foreground colors +:+ "'" +:+ str1 dquote;
      "dconf write " +:+ str1 dquote +:+ "$PROFILE_PATH/cursor-background-color" +:+ str1 dquote +:+ " " +:+ str1 dquote +:+ "'" +:+ cursor colors +:+ "'" +:+ str1 dquote;
      "dconf write " +:+ str1 dquote +:+ "$PROFILE_PATH/cursor-foreground-color" +:+ str1 dquote +:+ " " +:+ str1 dquote +:+ "'" +:+ cursorText colors +:+ "'" +:+ str1 dquote;
      "dconf write " +:+ str1 dquote +:+ "$PROFILE_PATH/highlight-background-color" +:+ str1 dquote +:+ " " +:+ str1 dquote +:+ "'" +:+ selection colors +:+ "'" +:+ str1 dquote;
      "dconf write " +:+ str1 dquote +:+ "$PROFILE_PATH/highlight-foreground-color" +:+ str1 dquote +:+ " " +:+ str1 dquote +:+ "'" +:+ selectionText colors +:+ "'" +:+ str1 dquote;
      "dconf write " +:+ str1 dquote +:+ "$PROFILE_PATH/palette" +:+ str1 dquote +:+ " " +:+ str1 dquote +:+ "[" +:+ palette +:+ "]" +:+ str1 dquote;
      "dconf write " +:+ str1 dquote +:+ "$PROFILE_PATH/use-theme-transparency" +:+ str1 dquote +:+ " " +:+ str1 dquote +:+ "false" +:+ str1 dquote;
      EmptyString;
      "# Set as default";
      "dconf write /org/gnome/terminal/legacy/profiles:/default " +:+ str1 dquote +:+ "'$PROFILE_ID'" +:+ str1 dquote;
      EmptyString;
      "echo " +:+ str1 dquote +:+ "Theme '" +:+ themeName +:+ "' applied to GNOME Terminal!" +:+ str1 dquote;
      EmptyString ].

Definition gnomeScriptPath (env : Env) (pf : Platform) : string :=
  join (os_tmpdir pf)
       ("shellshade-gnome-" +:+ toString10 (Date_now env) +:+ ".sh").

Definition gnomeFallbackDir (env : Env) : string :=
  join (homedir env) ".config/shellshade".

Definition gnomeFallbackPath (env : Env) (themeName : string) : string :=
  join (gnomeFallbackDir env)
       ("gnome-" +:+ Installer.slugOf themeName +:+ ".sh").

Definition applyToGnomeTerminal (env : Env) (pf : Platform)
  (colors : ThemeColors) (themeName : string) : M Cli.ApplyResult :=
  let script := gnomeScript colors themeName in
  let scriptPath := gnomeScriptPath env pf in
  tryCatch
    (do! writeFileSync env scriptPath script in
     do! exec env ("bash " +:+ str1 dquote +:+ scriptPath +:+ str1 dquote) in
     do! unlinkSync scriptPath in
     ret (Cli.mkApply true "Theme applied to GNOME Terminal!"))
    (fun err =>
       let fallbackPath := gnomeFallbackPath env themeName in
       let fallbackDir := gnomeFallbackDir env in
       let! found := existsSync fallbackDir in
       do! (if negb found then mkdirSync env fallbackDir else ret tt) in
       do! writeFileSync env fallbackPath script in
       ret (Cli.mkApply true
              (joinLines
                 [ "Script saved to " +:+ fallbackPath;
                   "Run it manually: bash " +:+ str1 dquote +:+ fallbackPath
                   +:+ str1 dquote ]))).

(** *** The unified apply function *)

Definition applyTheme (env : Env) (pf : Platform) (db : Database)
  (themeId themeName terminal : string) : M Cli.ApplyResult :=
  match Cli.getFullThemeColors db themeId with
  | None => ret (Cli.mkApply false "Theme not found")
  | Some colors =>
      if String.eqb terminal "terminal"
      then applyToTerminalApp env colors themeName
      else if String.eqb terminal "iterm2"
      then Cli.applyToIterm2 env colors themeName themeId
      else if String.eqb terminal "warp"
      then applyToWarp env pf colors themeName
      else if String.eqb terminal "windows-terminal"
      then Cli.applyToWindowsTerminal env colors themeName
      else if String.eqb terminal "powershell"
      then Cli.applyToPowerShell env colors themeName
      else if String.eqb terminal "gnome-terminal"
      then applyToGnomeTerminal env pf colors themeName
      else if String.eqb terminal "konsole"
      then applyToKonsole env colors themeName
      else if String.eqb terminal "alacritty"
      then applyToAlacritty env colors themeName
      else if String.eqb terminal "kitty"
      then applyToKitty env colors themeName
      else ret (Cli.mkApply false "Unsupported terminal")
  end.

End Appliers.

(** ** The Terminal.app installers of the GUI ([main/services/installer]) *)

Module TerminalApp.
Import JS Path Sys Theme Store Appliers.
Local Open Scope sys_scope.

(** [createProfileScript]; [hexToRGB] and the escaping of the name are
    those of [applyToTerminalApp]. *)
Definition createProfileScript (colors : ThemeColors) (escapedName : string)
  : string :=
  joinLines
    [ EmptyString;
      "    tell application " +:+ str1 dquote +:+ "Terminal" +:+ str1 dquote;
      "      if not (exists settings set " +:+ str1 dquote +:+ escapedName +:+ str1 dquote +:+ ") then";
      "        make new settings set with properties {name:" +:+ str1 dquote +:+ escapedName +:+ str1 dquote +:+ "}";
      "      end if";
      EmptyString;
      "      set targetSettings to settings set " +:+ str1 dquote +:+ escapedName +:+ str1 dquote;
      "      set background color of targetSettings to " +:+ hexToRGB (background colors);
      "      set normal text color of targetSettings to " +:+ hexToRGB (foreground colors);
      "      set cursor color of targetSettings to " +:+ hexToRGB (cursor colors);
      EmptyString;
      "      -- Set as default and startup profile";
      "      set default settings to targetSettings";
      "      set startup settings to targetSettings";
      "    end tell";
      "  " ].

Definition applyScript (escapedName : string) : string :=
  joinLines
    [ EmptyString;
      "        tell application " +:+ str1 dquote +:+ "Terminal" +:+ str1 dquote;
      "          set targetSettings to settings set " +:+ str1 dquote +:+ escapedName +:+ str1 dquote;
      "          if (count of windows) > 0 then";
      "            repeat with w in windows";
      "              try";
      "                set current settings of selected tab of w to targetSettings";
      "              end try";
      "            end repeat";
      "          end if";
      "        end tell";
      "      " ].

Definition installedText (themeName : string) : string :=
  "Theme " +:+ str1 dquote +:+ themeName +:+ str1 dquote
  +:+ " applied! Profile saved in Terminal → Settings → Profiles.".

Definition savedText (themeName : string) : string :=
  "Theme " +:+ str1 dquote +:+ themeName +:+ str1 dquote
  +:+ " saved to Terminal profiles. Select it in Terminal → Settings → Profiles, or close and reopen Terminal windows.".

Definition installToTerminalApp (env : Env) (db : Database)
  (themeId : string) : M Installer.InstallResult :=
  let colors := Installer.getThemeColors db themeId in
  let themeName := Installer.getThemeName db themeId in
  match colors with
  | None =>
      ret (Installer.mkResult false EmptyString None (Some "Theme not found"))
  | Some colors =>
      let escapedName := escapeQuotes themeName in
      tryCatch
        (do! exec env
               (Installer.osascript (createProfileScript colors escapedName)) in
         let! appliedToWindows :=
           tryCatch
             (do! exec env (Installer.osascript (applyScript escapedName)) in
              ret true)
             (fun _ => ret false) in
         if appliedToWindows
         then ret (Installer.mkResult true EmptyString
                     (Some (installedText themeName)) None)
         else ret (Installer.mkResult true EmptyString
                     (Some (savedText themeName)) None))
        (fun _ =>
           ret (Installer.mkResult false EmptyString None
                  (Some "Failed to create Terminal profile. Make sure Terminal.app is running.")))
  end.

Definition defaultScript (colors : ThemeColors) (escapedName : string)
  : string :=
  joinLines
    [ EmptyString;
      "    tell application " +:+ str1 dquote +:+ "Terminal" +:+ str1 dquote;
      "      -- Create or update the profile (settings set)";
      "      if not (exists settings set " +:+ str1 dquote +:+ escapedName +:+ str1 dquote +:+ ") then";
      "        set newSettings to make new settings set with properties {name:" +:+ str1 dquote +:+ escapedName +:+ str1 dquote +:+ "}";
      "      end if";
      EmptyString;
      "      tell settings set " +:+ str1 dquote +:+ escapedName +:+ str1 dquote;
      "        set background color to " +:+ hexToRGB (background colors);
      "        set normal text color to " +:+ hexToRGB (foreground colors);
      "        set cursor color to " +:+ hexToRGB (cursor colors);
      "      end tell";
      EmptyString;
      "      -- Set as default profile";
      "      set default settings to settings set " +:+ str1 dquote +:+ escapedName +:+ str1 dquote;
      EmptyString;
      "      -- Also set startup settings (for new windows)";
      "      set startup settings to settings set " +:+ str1 dquote +:+ escapedName +:+ str1 dquote;
      "    end tell";
      "  " ].

Definition setTerminalDefault (env : Env) (db : Database)
  (themeId : string) : M Installer.InstallResult :=
  let colors := Installer.getThemeColors db themeId in
  let themeName := Installer.getThemeName db themeId in
  match colors with
  | None =>
      ret (Installer.mkResult false EmptyString None (Some "Theme not found"))
  | Some colors =>
      let escapedName := escapeQuotes themeName in
      tryCatch
        (do! exec env
               (Installer.osascript (defaultScript colors escapedName)) in
         ret (Installer.mkResult true EmptyString
                (Some ("Theme " +:+ str1 dquote +:+ themeName +:+ str1 dquote
                       +:+ " is now the default Terminal.app profile! New windows will use this theme."))
                None))
        (fun err =>
           ret (Installer.mkResult false EmptyString None
                  (Some ("Failed to set default: " +:+ errToString err))))
  end.

End TerminalApp.

(** ** Importing themes ([main/ipc/files.ts]) *)

Module Importing.
Import JS Path Sys Theme Store.

(** The columns of the table [themes] the import handlers look at;
    [author] may be [NULL]. *)
Record ThemeEntry := mkEntry {
  entry_name : string; entry_slug : string; entry_author : option string }.

(** The count of [SELECT ... FROM themes WHERE slug = ?] *)
Definition countSlug (themes : list ThemeEntry) (slug : string) : nat :=
  List.length
    (List.filter (fun r => String.eqb (entry_slug r) slug) themes).

(** The count of [SELECT ... FROM themes WHERE name = ? AND author = ?] *)
Definition countName (themes : list ThemeEntry) (author name : string) : nat :=
  List.length
    (List.filter
       (fun r => String.eqb (entry_name r) name
                 && match entry_author r with
                    | Some a => String.eqb a author
                    | None => false
                    end) themes).

(** [s.replace(/^-|-$/g, '')]: a dash at the start and a dash at the
    end are removed. *)
Fixpoint dropLastDash (s : string) : string :=
  match s with
  | EmptyString => EmptyString
  | String c EmptyString => if Ascii.eqb c "-" then EmptyString else s
  | String c r => String c (dropLastDash r)
  end.

Definition stripEdgeDashes (s : string) : string :=
  dropLastDash (match s with String "-" r => r | _ => s end).

(** The loop of both helpers,
    [while (count(cur) > 0) { cur = next(counter); counter++; }],
    run for at most [fuel] tests of its condition. *)
Fixpoint whileTaken (fuel : nat) (count : string -> nat) (next : Z -> string)
  (cur : string) (counter : Z) : option string :=
  match fuel with
  | O => None
  | S fuel' =>
      if (0 <? count cur)%nat
      then whileTaken fuel' count next (next counter) (counter + 1)
      else Some cur
  end.

Definition baseSlugOf (baseName : string) : string :=
  stripEdgeDashes (Installer.dashRuns false (toLowerCase baseName)).

Definition generateUniqueSlug (fuel : nat) (themes : list ThemeEntry)
  (baseName : string) : option string :=
  let baseSlug := baseSlugOf baseName in
  whileTaken fuel (countSlug themes)
    (fun counter => baseSlug +:+ "-" +:+ toString10 counter) baseSlug 1.

Definition generateUniqueName (fuel : nat) (themes : list ThemeEntry)
  (baseName author : string) : option string :=
  whileTaken fuel (countName themes author)
    (fun counter => baseName +:+ " (" +:+ toString10 counter +:+ ")")
    baseName 1.

(** The array [colorEntries] of the import handlers. *)
Definition colorEntries (c : ThemeColors) : list (string * string) :=
  [ ("background", background c);
    ("foreground", foreground c);
    ("cursor", cursor c);
    ("cursorText", cursorText c);
    ("selection", selection c);
    ("selectionText", selectionText c);
    ("ansi_black", black (ansi c));
    ("ansi_red", red (ansi c));
    ("ansi_green", green (ansi c));
    ("ansi_yellow", yellow (ansi c));
    ("ansi_blue", blue (ansi c));
    ("ansi_magenta", magenta (ansi c));
    ("ansi_cyan", cyan (ansi c));
    ("ansi_white", white (ansi c));
    ("ansi_brightBlack", brightBlack (ansi c));
    ("ansi_brightRed", brightRed (ansi c));
    ("ansi_brightGreen", brightGreen (ansi c));
    ("ansi_brightYellow", brightYellow (ansi c));
    ("ansi_brightBlue", brightBlue (ansi c));
    ("ansi_brightMagenta", brightMagenta (ansi c));
    ("ansi_brightCyan", brightCyan (ansi c));
    ("ansi_brightWhite", brightWhite (ansi c)) ].

(** [insertColor.run(id, key, value)]: the table has
    [UNIQUE(theme_id, color_key)]; a new row goes to the end. *)
Definition insertColor (db : Database) (themeId key value : string)
  : Outcome Database :=
  if existsb (fun kv => String.eqb kv.1 key) (selectColors db themeId)
  then Throw (mkError "SqliteError"
                "UNIQUE constraint failed: theme_colors.theme_id, theme_colors.color_key")
  else Ret (mkDb (theme_colors db ++ [mkColorRow themeId key value])
                 (themes db)).

(** [for (const [key, value] of colorEntries) insertColor.run(id, key, value)] *)
Fixpoint insertColors (db : Database) (themeId : string)
  (entries : list (string * string)) : Outcome Database :=
  match entries with
  | [] => Ret db
  | (key, value) :: rest =>
      match insertColor db themeId key value with
      | Ret db' => insertColors db' themeId rest
      | Throw e => Throw e
      end
  end.

End Importing.

(** ** Terminal detection and favourites ([cli/index.ts]) *)

Module Session.
Import JS Sys Props.

(** [type Platform = 'macos' | 'windows' | 'linux'] *)
Inductive OsPlatform : Type := macos | windows | linux.

(** [currentPlatform], from [process.platform]. *)
Definition currentPlatform (process_platform : string) : OsPlatform :=
  if String.eqb process_platform "darwin" then macos
  else if String.eqb process_platform "win32" then windows
  else linux.

Definition platformTerminals (p : OsPlatform) : list string :=
  match p with
  | macos => [ "terminal"; "iterm2"; "warp"; "alacritty"; "kitty" ]
  | windows => [ "windows-terminal"; "powershell"; "alacritty"; "kitty" ]
  | linux => [ "gnome-terminal"; "konsole"; "alacritty"; "kitty" ]
  end.

(** [process.env.X] in a condition: set and not empty. *)
Definition envSet (v : option string) : bool :=
  match v with
  | Some s => negb (isEmpty s)
  | None => false
  end.

(** [process.env.X?.toLowerCase() || ''] *)
Definition envLower (v : option string) : string :=
  match v with
  | Some s => toLowerCase s
  | None => EmptyString
  end.

(** [detectTerminal], over the platform and [process.env]. *)
Definition detectTerminal (platform : OsPlatform)
  (getenv : string -> option string) : string :=
  let term := envLower (getenv "TERM_PROGRAM") in
  let termId := envLower (getenv "LC_TERMINAL") in
  let wtSession := getenv "WT_SESSION" in
  let psVersion := getenv "PSModulePath" in
  match platform with
  | windows =>
      if envSet wtSession then "windows-terminal"
      else if envSet psVersion then "powershell"
      else if includes "alacritty" term then "alacritty"
      else if envSet (getenv "KITTY_WINDOW_ID") then "kitty"
      else "windows-terminal"
  | linux =>
      if envSet (getenv "GNOME_TERMINAL_SCREEN") then "gnome-terminal"
      else if envSet (getenv "KONSOLE_VERSION") then "konsole"
      else if includes "alacritty" term then "alacritty"
      else if envSet (getenv "KITTY_WINDOW_ID") then "kitty"
      else "gnome-terminal"
  | macos =>
      if includes "iterm" term || includes "iterm" termId then "iterm2"
      else if includes "warp" term
              || envSet (getenv "WARP_IS_LOCAL_SHELL_SESSION") then "warp"
      else if includes "alacritty" term then "alacritty"
      else if includes "kitty" term || envSet (getenv "KITTY_WINDOW_ID")
      then "kitty"
      else "terminal"
  end.

(** The columns of [themes] that [toggleFavorite] uses; [is_favorite] is
    an integer column that may hold [NULL]. *)
Record FavoriteRow := mkFavorite {
  fav_id : string; is_favorite : option Z }.

(** [theme.is_favorite === 1 ? 0 : 1] *)
Definition flipFavorite (v : option Z) : Z :=
  match v with
  | Some 1 => 0
  | _ => 1
  end.

(** [toggleFavorite]: the value returned and the table afterwards. *)
Definition toggleFavorite (rows : list FavoriteRow) (themeId : string)
  : bool * list FavoriteRow :=
  match List.filter (fun r => String.eqb (fav_id r) themeId) rows with
  | [] => (false, rows)
  | theme :: _ =>
      let newValue := flipFavorite (is_favorite theme) in
      (newValue =? 1,
       map (fun r => if String.eqb (fav_id r) themeId
                     then mkFavorite (fav_id r) (Some newValue) else r) rows)
  end.

End Session.

(** ** Notions used by the statements on serialisers and parsers *)

Module Shapes.
Import JS Path Sys Theme Parsers Store Props Examples Appliers TerminalApp Importing Session.

(** [0-9a-f] *)
Definition isLowerHexDigit (c : ascii) : bool :=
  let n := nat_of_ascii c in
  ((48 <=? n)%nat && (n <=? 57)%nat) || ((97 <=? n)%nat && (n <=? 102)%nat).

(** [#] and six lower-case hexadecimal digits: what [/^#[0-9a-f]{6}$/]
    accepts. *)
Definition isLowerHexColor (s : string) : bool :=
  match s with
  | String "#" r => (String.length r =? 6)%nat && allChars isLowerHexDigit r
  | _ => false
  end.

(** Every value of a key-value table is such a colour. *)
Definition lowerHexValues (m : gmap string string) : Prop :=
  map_Forall (fun _ v => isLowerHexColor v = true) m.

(** The value the Alacritty loop stores for the captured text [value0]. *)
Definition normalised (value0 : string) : string :=
  let value1 := if startsWith "0x" value0
                then "#" +:+ drop_string 2 value0 else value0 in
  let value := if negb (startsWith "#" value1) then "#" +:+ value1 else value1 in
  toLowerCase value.

(** [toLowerCase] on each of the twenty-two slots. *)
Definition lowerColors (c : ThemeColors) : ThemeColors :=
  mkColors (toLowerCase (background c)) (toLowerCase (foreground c))
    (toLowerCase (cursor c)) (toLowerCase (cursorText c))
    (toLowerCase (selection c)) (toLowerCase (selectionText c))
    (mkAnsi
       (toLowerCase (black (ansi c))) (toLowerCase (red (ansi c)))
       (toLowerCase (green (ansi c))) (toLowerCase (yellow (ansi c)))
       (toLowerCase (blue (ansi c))) (toLowerCase (magenta (ansi c)))
       (toLowerCase (cyan (ansi c))) (toLowerCase (white (ansi c)))
       (toLowerCase (brightBlack (ansi c))) (toLowerCase (brightRed (ansi c)))
       (toLowerCase (brightGreen (ansi c)))
       (toLowerCase (brightYellow (ansi c)))
       (toLowerCase (brightBlue (ansi c)))
       (toLowerCase (brightMagenta (ansi c)))
       (toLowerCase (brightCyan (ansi c)))
       (toLowerCase (brightWhite (ansi c)))).

(** Every slot passes [isValidHexColor]. *)
Definition validColors (c : ThemeColors) : Prop :=
  Forall (fun s => isValidHexColor s = true) (slots c).

(** The two hexadecimal digits [a b], read by [parseInt], divided by 255,
    multiplied by 255, rounded and written with [toString(16)] and
    [padStart]: the check that this gives the digits back in lower case. *)
Definition digitsSurvive (a b : ascii) : bool :=
  implb (isHexDigit a && isHexDigit b)
    (match Installer.parseInt16 (String a (String b EmptyString)) with
     | Some n =>
         (0 <=? n) && (n <=? 255)
         && String.eqb (hex2 (Math_round ((n # 255) * 255)%Q))
              (String (lowerChar a) (String (lowerChar b) EmptyString))
     | None => false
     end).

(** The byte [n] divided by 255 and serialised, read back as a Number,
    multiplied by 255 and rounded: the check that this gives [n] back. *)
Definition byteSurvives (n : Z) : bool :=
  match Math_roundN (timesLiteral (numberOr0 (Some (JNum (n # 255)))) 255) with
  | Whole m => m =? n
  | _ => false
  end.

(** The colours the database of [oneRowDb] gives for its theme. *)
Definition oneRowColors : ThemeColors :=
  Installer.colorsOfMap (newMap (Store.selectColors oneRowDb "t1")).

(** A platform whose [JSON.parse] gives back the profile of [oneRowDb]. *)
Definition guiProfileEnv : Env :=
  envWith "{}"
    (Installer.itermProfile Installer.hexToItermColorDict "Tokyo Night" "t1"
       oneRowColors).

(** The same for the profile the CLI writes for Tokyo Night. *)
Definition cliProfileEnv : Env :=
  envWith "{}"
    (Installer.itermProfile Cli.hexToItermColor "Tokyo Night" "t1" tokyoNight).

(** The temporary file of [parseItermColors]. *)
Definition tempJsonPath (env : Env) : string :=
  "/tmp/iterm-theme-" +:+ toString10 (Date_now env) +:+ ".json".

(** The characters the shell gives a meaning to between double quotes
    (and the null character, which no command line may hold). *)
Definition isShellSpecial (c : ascii) : bool :=
  Ascii.eqb c "$" || Ascii.eqb c "`" || Ascii.eqb c "\" || Ascii.eqb c dquote
  || Ascii.eqb c "000".

(** The path reaches [plutil] as it is written: the command line
    [plutil -convert json -o "<temp>" "<path>"] has the path between
    double quotes, unescaped. *)
Definition shellSafe (p : string) : bool :=
  allChars (fun c => negb (isShellSpecial c)) p.

(** The message of the error [parseItermColors] throws for the error
    [err] caught by its outer [catch]. *)
Definition itermFailure (err : Error) : Error :=
  plainError ("Failed to parse iTerm colors file: " +:+ errToString err).

(** What the [try] block of [parseItermColors] leaves behind: when it
    returns, the temporary file is gone; when it throws, no file but the
    temporary one has changed. *)
Definition bodyLeaves {A} (temp : string) (w : World)
  (r : Outcome A * World) : Prop :=
  dirs r.2 = dirs w
  /\ match r.1 with
     | Ret _ => files r.2 = delete temp (files w)
     | Throw _ => delete temp (files r.2) = delete temp (files w)
     end.

(** The file holds a property list that [plutil] converts to the text of
    a document other than [null], and [t] is the theme read from it. *)
Definition converts (env : Env) (filePath : string) (w : World)
  (t : ParsedTheme) : Prop :=
  exists content text plist,
    files w !! filePath = Some content
    /\ plutil_convert env content = Some text
    /\ JSON_parse env text = Some plist
    /\ plist <> JNull
    /\ t = parsed (basename filePath ".itermcolors") (componentColors plist).

(** No character of [s] ends a line. *)
Definition oneLine (s : string) : bool :=
  allChars (fun c => negb (Cli.isLineTerminator c)) s.

(** The document [applyToWindowsTerminal] writes when it starts from the
    built-in settings. *)
Definition freshSettings (colors : ThemeColors) (themeName : string) : json :=
  JObj [ ("schemes", JArr [Cli.colorScheme colors themeName]);
         ("profiles",
          JObj [ ("defaults", JObj [ ("colorScheme", JStr themeName) ]) ]) ].

(** The directory and the file [applyToWindowsTerminal] creates when no
    settings file exists. *)
Definition previewDir (env : Env) : string :=
  join (Cli.localAppData env) "Microsoft/Windows Terminal".

Definition previewSettings (env : Env) : string :=
  join (previewDir env) "settings.json".

(** A settings file with a URL in it. *)
Definition urlWorld : World :=
  mkWorld {[ wtFile := "{ schema: https://aka.ms/terminal-profiles-schema }" ]}
          ∅ [].

Definition isExec (e : Event) : bool :=
  match e with EvExec _ => true | _ => false end.

(** Between [w] and [w'] no process was started. *)
Definition noExecSince (w w' : World) : Prop :=
  exists evs, trace w' = evs ++ trace w
              /\ forallb (fun e => negb (isExec e)) evs = true.

(** The appliers that only write a theme file, each with its directory,
    its file and the text it writes. *)
Definition themeFileAppliers (env : Env) (pf : Platform)
  (colors : ThemeColors) (themeName : string)
  : list (string * string * string * M Cli.ApplyResult) :=
  [ (join (homedir env) ".warp/themes", warpPath env themeName,
     yaml_stringify pf (warpTheme colors themeName),
     applyToWarp env pf colors themeName);
    (join (homedir env) ".config/alacritty/themes",
     alacrittyPath env themeName, tomlContent colors themeName,
     applyToAlacritty env colors themeName);
    (join (homedir env) ".config/kitty/themes", kittyPath env themeName,
     kittyTheme colors themeName, applyToKitty env colors themeName);
    (join (homedir env) ".local/share/konsole", konsolePath env themeName,
     konsoleTheme colors themeName, applyToKonsole env colors themeName) ].

(** What a run of such an applier from [w] amounts to: no process is
    started; a result with [success: true] means that exactly the theme
    file was written; a result with [success: false] means that the
    write failed and no file changed; an exception can only come from
    the creation of the missing directory. *)
Definition writesOnly (env : Env) (w : World)
  (a : string * string * string * M Cli.ApplyResult) : Prop :=
  let '(dir, path, content, run) := a in
  noExecSince w (run w).2
  /\ match (run w).1 with
     | Ret r =>
         if Cli.success r
         then writeFileSync_error env path = None
              /\ files (run w).2 = <[path := content]> (files w)
         else is_Some (writeFileSync_error env path)
              /\ files (run w).2 = files w
     | Throw e =>
         present w dir = false
         /\ mkdirSync_error env dir = Some (emessage e)
         /\ files (run w).2 = files w
     end.


(** The [case] labels of [applyTheme]. *)
Definition supportedTerminals : list string :=
  [ "terminal"; "iterm2"; "warp"; "windows-terminal"; "powershell";
    "gnome-terminal"; "konsole"; "alacritty"; "kitty" ].


Definition linuxPlatform : Platform := mkPlatform (fun _ => "name: x") "/tmp".

(** [a-z0-9] or the separator [sep]. *)
Definition isSlugOr (sep c : ascii) : bool :=
  Installer.isSlugChar c || Ascii.eqb c sep.

(** The [k]-th value the loop tests. *)
Definition candidate (next : Z -> string) (cur : string) (k : nat) : string :=
  match k with
  | O => cur
  | S _ => next (Z.of_nat k)
  end.

(** The values [generateUniqueSlug] and [generateUniqueName] test, in
    the order of the loop. *)
Definition slugCandidate (baseSlug : string) (k : nat) : string :=
  candidate (fun counter => baseSlug +:+ "-" +:+ toString10 counter)
    baseSlug k.

Definition nameCandidate (baseName : string) (k : nat) : string :=
  candidate (fun counter => baseName +:+ " (" +:+ toString10 counter +:+ ")")
    baseName k.

(** A table with one imported theme. *)
Definition oneTheme : list ThemeEntry :=
  [ mkEntry "Tokyo Night" "tokyo-night" (Some "Imported") ].

(** The profile [applyToPowerShell] leaves when it starts from the text
    [existing] and finds no block to remove. *)
Definition appendedProfile (existing : string) (colors : ThemeColors)
  (themeName : string) : string :=
  trim existing +:+ str1 nl +:+ Cli.psColorScript colors themeName.

(** The text of the profile file before the run, empty when there is
    none. *)
Definition profileBefore (env : Env) (w : World) : string :=
  match files w !! Cli.psProfilePath env with
  | Some text => text
  | None => EmptyString
  end.

(** The flag is 0 or 1. *)
Definition isFlag (r : FavoriteRow) : Prop :=
  is_favorite r = Some 0 \/ is_favorite r = Some 1.

(** A table with one favourite. *)
Definition twoThemes : list FavoriteRow :=
  [ mkFavorite "t1" (Some 1); mkFavorite "t2" (Some 0) ].

(** Neither a dot nor a slash. *)
Definition isPlainChar (c : ascii) : bool :=
  negb (Ascii.eqb c slash) && negb (Ascii.eqb c dot).

(** The two commands of [installToTerminalApp]. *)
Definition createCommand (db : Database) (themeId : string)
  (colors : ThemeColors) : string :=
  Installer.osascript
    (createProfileScript colors
       (escapeQuotes (Installer.getThemeName db themeId))).

Definition applyCommand (db : Database) (themeId : string) : string :=
  Installer.osascript
    (applyScript (escapeQuotes (Installer.getThemeName db themeId))).

(** The command of [setTerminalDefault]. *)
Definition defaultCommand (db : Database) (themeId : string)
  (colors : ThemeColors) : string :=
  Installer.osascript
    (defaultScript colors (escapeQuotes (Installer.getThemeName db themeId))).

End Shapes.

(** * Properties *)

Import JS Path Sys Theme Parsers Store Props Examples.
#[local] Arguments String.append : simpl nomatch.

(** ** Binary64 rounding *)

Lemma pow2_nonpos (e : Z) :
  e <= 0 -> pow2 e = 1 # Z.to_pos (2 ^ (- e)).
Proof.
  intros He. unfold pow2. destruct (0 <=? e) eqn:H0; [| reflexivity].
  apply Z.leb_le in H0. assert (e = 0) by lia. subst e. reflexivity.
Qed.

Lemma roundHalfEven_range (y : Q) (M : Z) :
  (0 <= y)%Q -> (y <= inject_Z M)%Q -> 0 <= roundHalfEven y <= M.
Proof.
  intros H0 HM. unfold roundHalfEven.
  assert (Hf0 : 0 <= Qfloor y).
  { change 0 with (Qfloor 0). apply Qfloor_resp_le. exact H0. }
  assert (HfM : Qfloor y <= M).
  { rewrite <- (Qfloor_Z M). apply Qfloor_resp_le. exact HM. }
  assert (Hup : (1 # 2 <= y - inject_Z (Qfloor y))%Q -> Qfloor y + 1 <= M).
  { intros Hh. destruct (Z.eq_dec (Qfloor y) M) as [Heq | Hne]; [| lia].
    exfalso. rewrite Heq in Hh. apply (Qle_not_lt _ _ Hh).
    apply Qle_lt_trans with (y := (inject_Z M + - inject_Z M)%Q).
    - unfold Qminus. apply Qplus_le_compat; [exact HM | apply Qle_refl].
    - rewrite Qplus_opp_r. reflexivity. }
  destruct (Qcompare_spec (y - inject_Z (Qfloor y)) (1 # 2)) as [He | Hl | Hg].
  - destruct (Z.even (Qfloor y)); [lia |].
    split; [lia |]. apply Hup. rewrite He. apply Qle_refl.
  - lia.
  - split; [lia |]. apply Hup. apply Qlt_le_weak. exact Hg.
Qed.

Lemma lastPlace_nonpos (x : Q) (N : Z) :
  N < 2 ^ 53 -> (0 < x)%Q -> (x <= inject_Z N)%Q -> lastPlace x <= 0.
Proof.
  intros HN Hx HxN. unfold lastPlace.
  destruct x as [n d]. unfold Qlt in Hx. unfold Qle in HxN.
  cbn [Qnum Qden inject_Z] in *.
  assert (Hn : 0 < n) by lia.
  assert (Hle : n <= N * Z.pos d) by lia.
  pose proof (Z.log2_spec n Hn) as [Ha _].
  pose proof (Z.log2_spec (Z.pos d) (Pos2Z.is_pos d)) as [_ Hb].
  pose proof (Z.log2_nonneg n) as Ha0.
  pose proof (Z.log2_nonneg (Z.pos d)) as Hb0.
  set (a := Z.log2 n) in *. set (b := Z.log2 (Z.pos d)) in *.
  assert (Hab : a < b + 54).
  { apply (Z.pow_lt_mono_r_iff 2); [lia | lia |].
    replace (b + 54) with (53 + Z.succ b) by lia.
    rewrite Z.pow_add_r by lia.
    assert (0 < 2 ^ Z.succ b) by (apply Z.pow_pos_nonneg; lia).
    assert (0 < N) by nia.
    nia. }
  assert (He0 : a - b - 52 <= 0 \/ a - b - 52 = 1) by lia.
  destruct He0 as [He0 | He0].
  - destruct (Qle_bool _ _); lia.
  - rewrite He0.
    destruct (Qle_bool (inject_Z (2 ^ 52)) ((n # d) / pow2 1)) eqn:Ht; [| lia].
    exfalso. apply Qle_bool_iff in Ht.
    change (pow2 1) with (2 # 1)%Q in Ht.
    unfold Qle, Qdiv, Qmult, Qinv in Ht. cbn [Qnum Qden inject_Z] in Ht.
    rewrite Pos2Z.inj_mul in Ht.
    assert (2 ^ 52 * (Z.pos d * 2) <= n) by lia.
    change (2 ^ 53) with (2 ^ 52 * 2) in HN.
    pose proof (Pos2Z.is_pos d). nia.
Qed.

(** A value between 0 and an integer below [2^53] rounds to a binary64
    value in the same range: the integer is itself a binary64 value. *)
Lemma roundDouble_range (x : Q) (N : Z) :
  N < 2 ^ 53 -> (0 <= x)%Q -> (x <= inject_Z N)%Q ->
  exists y, roundDouble x = Finite y /\ (0 <= y)%Q /\ (y <= inject_Z N)%Q.
Proof.
  intros HN H0 HxN. unfold roundDouble.
  destruct (Qcompare_spec x 0) as [He | Hl | Hg].
  - exists 0%Q. split; [reflexivity |]. split; [apply Qle_refl |].
    rewrite <- He. exact HxN.
  - exfalso. exact (Qle_not_lt _ _ H0 Hl).
  - pose proof (lastPlace_nonpos x N HN Hg HxN) as He.
    unfold roundPositive.
    set (e := lastPlace x) in *. clearbody e.
    rewrite (pow2_nonpos e He).
    set (K := Z.to_pos (2 ^ (- e))).
    assert (HK : (x / (1 # K) == x * inject_Z (Z.pos K))%Q) by reflexivity.
    assert (Hm : 0 <= roundHalfEven (x / (1 # K)) <= N * Z.pos K).
    { apply roundHalfEven_range.
      - rewrite HK. apply Qmult_le_0_compat; [exact H0 |].
        unfold Qle. cbn. lia.
      - rewrite HK, inject_Z_mult. apply Qmult_le_compat_r; [exact HxN |].
        unfold Qle. cbn. lia. }
    set (m := roundHalfEven (x / (1 # K))) in *. clearbody m.
    assert (Hy0 : (0 <= inject_Z m * (1 # K))%Q).
    { unfold Qle. cbn. lia. }
    assert (HyN : (inject_Z m * (1 # K) <= inject_Z N)%Q).
    { unfold Qle. cbn. lia. }
    destruct (Qle_bool (inject_Z (2 ^ 1024)) (inject_Z m * (1 # K))) eqn:Ho.
    + exfalso. apply Qle_bool_iff in Ho.
      assert (Hc : (inject_Z (2 ^ 1024) <= inject_Z N)%Q)
        by (eapply Qle_trans; eassumption).
      rewrite <- Zle_Qle in Hc.
      assert (2 ^ 53 < 2 ^ 1024) by (apply Z.pow_lt_mono_r; lia).
      lia.
    + eexists. split; [reflexivity |].
      rewrite Qred_correct. split; assumption.
Qed.

(** ** Property-list colours *)

Lemma Math_round_range (p : Q) (N : Z) :
  (0 <= p)%Q -> (p <= inject_Z N)%Q -> 0 <= Math_round p <= N.
Proof.
  intros H0 HN. unfold Math_round. split.
  - change 0 with (Qfloor 0). apply Qfloor_resp_le.
    apply Qle_trans with p; [exact H0 |].
    rewrite <- (Qplus_0_r p) at 1. apply Qplus_le_r. discriminate.
  - assert (H : Qfloor (p + (1 # 2)) <= Qfloor (inject_Z N + (1 # 2))).
    { apply Qfloor_resp_le. apply Qplus_le_l. exact HN. }
    assert (HfN : Qfloor (inject_Z N + (1 # 2)) = N).
    { unfold Qfloor, Qplus, inject_Z. cbn [Qnum Qden].
      symmetry. apply (Z.div_unique_pos _ _ N 1); lia. }
    lia.
Qed.

Lemma hex2_byte (n : Z) : 0 <= n <= 255 -> hex2 n = byteHex n.
Proof.
  intros Hn.
  assert (Hall : forallb (fun k => String.eqb (hex2 (Z.of_nat k))
                                     (byteHex (Z.of_nat k)))
                         (seq 0 256) = true) by (vm_compute; reflexivity).
  rewrite forallb_forall in Hall.
  specialize (Hall (Z.to_nat n)). cbv beta in Hall.
  rewrite Z2Nat.id in Hall by lia.
  apply String.eqb_eq, Hall. apply in_seq. lia.
Qed.

Lemma hexDigitChar_hex (d : Z) :
  0 <= d < 16 -> isHexDigit (hexDigitChar d) = true.
Proof.
  intros Hd.
  assert (Hall : forallb (fun k => isHexDigit (hexDigitChar (Z.of_nat k)))
                         (seq 0 16) = true) by (vm_compute; reflexivity).
  rewrite forallb_forall in Hall. specialize (Hall (Z.to_nat d)).
  cbv beta in Hall. rewrite Z2Nat.id in Hall by lia.
  apply Hall. apply in_seq. lia.
Qed.

Lemma byteHex_valid (a b c : Z) :
  0 <= a <= 255 -> 0 <= b <= 255 -> 0 <= c <= 255 ->
  isValidHexColor ("#" +:+ byteHex a +:+ byteHex b +:+ byteHex c) = true.
Proof.
  intros Ha Hb Hc. unfold byteHex.
  cbn -[hexDigitChar Z.div Z.modulo isHexDigit].
  rewrite !hexDigitChar_hex; [reflexivity | | | | | |];
    try (apply Z.mod_pos_bound; lia);
    (split; [apply Z.div_pos; lia | apply Z.div_lt_upper_bound; lia]).
Qed.

Lemma numberOr0_unit (colorDict : json) (k : string) :
  unitComponent colorDict k ->
  exists d, numberOr0 (prop k colorDict) = Finite d
            /\ (0 <= d)%Q /\ (d <= 1)%Q.
Proof.
  unfold unitComponent, numberOr0. intros H.
  destruct (prop k colorDict) as [[| b | q | s | l | f] |]; try contradiction.
  - destruct H as [H0 H1]. destruct (truthy (JNum q)).
    + cbn [ToNumber]. apply (roundDouble_range q 1); [reflexivity | | ]; assumption.
    + exists 0%Q. split; [reflexivity |]. split; discriminate.
  - exists 0%Q. split; [reflexivity |]. split; discriminate.
Qed.

Lemma component_unit (colorDict : json) (k : string) :
  unitComponent colorDict k ->
  exists n, component colorDict k = Whole n /\ 0 <= n <= 255.
Proof.
  intros H. unfold component.
  destruct (numberOr0_unit colorDict k H) as (d & -> & H0 & H1).
  cbn [timesLiteral].
  destruct (roundDouble_range (d * 255) 255) as (p & -> & Hp0 & Hp1).
  - reflexivity.
  - apply Qmult_le_0_compat; [exact H0 | discriminate].
  - apply Qle_trans with (1 * 255)%Q; [| discriminate].
    apply Qmult_le_compat_r; [exact H1 | discriminate].
  - exists (Math_round p). split; [reflexivity |].
    apply Math_round_range; assumption.
Qed.

Lemma clampByte_id (n : Z) : 0 <= n <= 255 -> clampByte n = n.
Proof. unfold clampByte. lia. Qed.

(** C1 (amended). For a colour entry whose components all lie in the unit
    interval (an absent component counts as 0), every component [c] is
    converted to the byte [round(c*255)], the product being the binary64
    one; the byte lies in [0,255] without any clamping, and is written as
    exactly two lower-case hexadecimal digits, so that the entry parses to
    a valid [#rrggbb] string. *)
Theorem getColor_unit_color (doc : json) (key : string) (colorDict : json) :
  prop key doc = Some colorDict ->
  truthy colorDict = true ->
  unitColor colorDict ->
  exists r g b : Z,
    (component colorDict "Red Component" = Whole r
     /\ component colorDict "Green Component" = Whole g
     /\ component colorDict "Blue Component" = Whole b)
    /\ (0 <= r <= 255 /\ 0 <= g <= 255 /\ 0 <= b <= 255)
    /\ getColor doc key = "#" +:+ byteHex r +:+ byteHex g +:+ byteHex b
    /\ (hex2N (component colorDict "Red Component")
        = specComponentHex (numberOr0 (prop "Red Component" colorDict))
        /\ hex2N (component colorDict "Green Component")
           = specComponentHex (numberOr0 (prop "Green Component" colorDict))
        /\ hex2N (component colorDict "Blue Component")
           = specComponentHex (numberOr0 (prop "Blue Component" colorDict)))
    /\ isValidHexColor (getColor doc key) = true.
Proof.
  intros Hdoc Htruthy (Hr & Hg & Hb).
  destruct (component_unit _ _ Hr) as (r & Er & Br).
  destruct (component_unit _ _ Hg) as (g & Eg & Bg).
  destruct (component_unit _ _ Hb) as (b & Eb & Bb).
  exists r, g, b.
  assert (Hget : getColor doc key
                 = "#" +:+ byteHex r +:+ byteHex g +:+ byteHex b).
  { unfold getColor. rewrite Hdoc, Htruthy. cbn [negb].
    rewrite Er, Eg, Eb. cbv zeta.
    change (hex2N (Whole r)) with (hex2 r).
    change (hex2N (Whole g)) with (hex2 g).
    change (hex2N (Whole b)) with (hex2 b).
    rewrite !hex2_byte by assumption. reflexivity. }
  split; [tauto |]. split; [tauto |]. split; [exact Hget |]. split.
  - unfold specComponentHex.
    fold (component colorDict "Red Component").
    fold (component colorDict "Green Component").
    fold (component colorDict "Blue Component").
    rewrite Er, Eg, Eb. cbn [clampIntegral].
    change (hex2N (Whole r)) with (hex2 r).
    change (hex2N (Whole g)) with (hex2 g).
    change (hex2N (Whole b)) with (hex2 b).
    rewrite !clampByte_id, !hex2_byte by assumption. tauto.
  - rewrite Hget. apply byteHex_valid; assumption.
Qed.

Lemma getColor_unit_color_witness :
  getColor orangeDoc "Cursor Color" = "#ff8000"
  /\ isValidHexColor (getColor orangeDoc "Cursor Color") = true.
Proof.
  assert (Hu : unitColor orangeDict).
  { unfold unitColor, unitComponent. cbn. repeat split; discriminate. }
  destruct (getColor_unit_color orangeDoc "Cursor Color" orangeDict
              eq_refl eq_refl Hu)
    as (r & g & b & (Er & Eg & Eb) & _ & Hget & _ & Hvalid).
  split; [| exact Hvalid].
  assert (Hr : r = 255) by (vm_compute in Er; congruence).
  assert (Hg : g = 128) by (vm_compute in Eg; congruence).
  assert (Hb : b = 0) by (vm_compute in Eb; congruence).
  rewrite Hget, Hr, Hg, Hb. reflexivity.
Defined.

(** The product is the binary64 one: 0.00196078431372549 times 255 is
    just below one half, the nearest binary64 value is one half, and the
    component is 1 where the exact product would give 0. *)
Lemma getColor_rounds_the_double :
  (tieComponent * 255 < 1 # 2)%Q
  /\ Math_round (tieComponent * 255)%Q = 0
  /\ timesLiteral (ToNumber (JNum tieComponent)) 255 = Finite (1 # 2)
  /\ component tieDict "Red Component" = Whole 1
  /\ getColor tieDoc "Background Color" = "#010000".
Proof. vm_compute. repeat split; reflexivity. Qed.

(** A component that is not a number goes through [ToNumber]: the
    string ["0.5"] gives [80], and a string that is no numeric literal
    gives [NaN], written as it is. *)
Lemma getColor_of_strings :
  getColor (JObj [ ("Background Color",
                    JObj [ ("Red Component", JStr "0.5");
                           ("Green Component", JStr "abc");
                           ("Blue Component", JArr [JNum 1]) ]) ])
    "Background Color" = "#80NaNff".
Proof. vm_compute. reflexivity. Qed.

(** C1 (as stated) fails: a red component of 1.2 is rounded to 306, which
    is written with three digits, where clamping would give [ff]. *)
Lemma getColor_does_not_clamp :
  component overflowDict "Red Component" = Whole 306
  /\ hex2N (component overflowDict "Red Component") = "132"
  /\ specComponentHex (numberOr0 (prop "Red Component" overflowDict)) = "ff"
  /\ hex2N (component overflowDict "Red Component")
     <> specComponentHex (numberOr0 (prop "Red Component" overflowDict))
  /\ getColor overflowDoc "Background Color" = "#1320000"
  /\ isValidHexColor (getColor overflowDoc "Background Color") = false.
Proof. vm_compute. repeat split; try reflexivity. discriminate. Qed.

Lemma getColor_nonempty (doc : json) (key : string) :
  isEmpty (getColor doc key) = false.
Proof.
  unfold getColor. destruct (prop key doc) as [d |]; [| reflexivity].
  destruct (truthy d); reflexivity.
Qed.

(** The right-hand sides of the two [||] in the [colors] literal are never
    evaluated: an absent entry yields black, whatever the background and
    the foreground are. *)
Lemma absent_text_colors_are_black (doc : json) :
  (prop "Cursor Text Color" doc = None ->
   cursorText (componentColors doc) = "#000000")
  /\ (prop "Selected Text Color" doc = None ->
      selectionText (componentColors doc) = "#000000").
Proof.
  split; intros H; cbn [componentColors cursorText selectionText];
    unfold strOr; rewrite getColor_nonempty; unfold getColor; rewrite H;
    reflexivity.
Qed.

(** C2 (code defect). On a converted property list with a white
    background, an orange foreground and neither [Cursor Text Color] nor
    [Selected Text Color], the parser returns black for [cursorText] and
    for [selectionText] instead of the background and the foreground. *)
Theorem absent_cursor_text_is_not_background :
  prop "Cursor Text Color" lightDoc = None
  /\ prop "Selected Text Color" lightDoc = None
  /\ (parseItermColors (envWith "{}" lightDoc) "light.itermcolors" lightWorld).1
     = Ret (parsed "light" (componentColors lightDoc))
  /\ background (componentColors lightDoc) = "#ffffff"
  /\ cursorText (componentColors lightDoc) = "#000000"
  /\ foreground (componentColors lightDoc) = "#ff8000"
  /\ selectionText (componentColors lightDoc) = "#000000".
Proof. vm_compute. repeat split; reflexivity. Qed.

(** ** The PowerShell profile *)

(** C3 (code defect). Starting from a profile without any ShellShade
    block, the first application appends one block. The second application
    removes only the header line of that block (the look-ahead of the
    regular expression already holds in front of the block's own second
    comment line), so the rest of the old block stays and the profile after
    two applications differs from the profile after one. *)
Theorem powershell_reapply_duplicates :
  applied psOnce.1 = true /\ applied psTwice.1 = true
  /\ profileText psOnce.2
     = userProfile +:+ str1 nl +:+ Cli.psColorScript tokyoNight "Tokyo Night"
  /\ Cli.removeBlocks None (profileText psOnce.2)
     = userProfile +:+ str1 nl
       +:+ drop_string (String.length (String nl "# ShellShade Theme: Tokyo Night"))
             (Cli.psColorScript tokyoNight "Tokyo Night")
  /\ String.eqb (profileText psTwice.2) (profileText psOnce.2) = false
  /\ occurrences "Set-PSReadLineOption" (profileText psOnce.2) = 1%nat
  /\ occurrences "Set-PSReadLineOption" (profileText psTwice.2) = 2%nat
  /\ occurrences "# ShellShade Theme:" (profileText psTwice.2) = 1%nat.
Proof. vm_compute. repeat split; reflexivity. Qed.

(** ** The native JSON shape *)

Lemma exportHandler_throws (dialog : Files.SaveDialogResult)
  (themeId format : string) (target : option string) (w : World) :
  exists e, Files.exportHandler dialog themeId format target w = (Throw e, w).
Proof.
  unfold Files.exportHandler.
  destruct target as [p |]; [destruct (isEmpty p) |];
    try (destruct (_ || _)); eexists; reflexivity.
Qed.

(** C4 (amended). Parsing a file that holds the native-shape document of a
    theme returns the colours of the theme unchanged (they are not
    validated) and its name when the name is not empty; for an empty name
    the base name of the file is returned instead. Nothing is written. The
    export handler never produces such a document: it always throws. *)
Theorem parseJson_native_shape (env : Env) (filePath content n : string)
  (c : ThemeColors) (w : World) :
  files w !! filePath = Some content ->
  JSON_parse env content = Some (nativeShape n c) ->
  (parseJson env filePath w).1
  = Ret (parsed (strOr n (basename filePath ".json")) c)
  /\ (n <> EmptyString -> (parseJson env filePath w).1 = Ret (parsed n c))
  /\ files (parseJson env filePath w).2 = files w
  /\ (forall dialog themeId format target w',
        exists e,
          Files.exportHandler dialog themeId format target w' = (Throw e, w')).
Proof.
  intros Hfile Hparse.
  assert (Hrun : parseJson env filePath w
                 = (Ret (parsed (strOr n (basename filePath ".json")) c),
                    mkWorld (files w) (dirs w) (EvRead filePath :: trace w))).
  { unfold parseJson, bind, readFileSync, parseJSON. rewrite Hfile, Hparse.
    unfold nativeShape, ret, parsed, strOr. cbn.
    destruct n; reflexivity. }
  rewrite Hrun. cbn [fst snd files]. repeat split.
  - intros Hn. destruct n; [contradiction | reflexivity].
  - intros. apply exportHandler_throws.
Qed.

Lemma parseJson_native_shape_witness :
  (parseJson namedEnv "theme.json" namelessWorld).1
  = Ret (parsed "Tokyo Night" tokyoNight).
Proof.
  destruct (parseJson_native_shape namedEnv "theme.json" "{}" "Tokyo Night"
              tokyoNight namelessWorld eq_refl eq_refl) as (_ & Hname & _).
  apply Hname. discriminate.
Defined.

(** C4 (as stated) fails: all 22 colours of the theme are valid, yet the
    theme read back from its native-shape document has the name of the
    file, not the (empty) name of the theme; and the export handler, asked
    for the [json] format, throws instead of serialising. *)
Lemma parseJson_renames_nameless_theme :
  forallb isValidHexColor (slots tokyoNight) = true
  /\ (parseJson namelessEnv "theme.json" namelessWorld).1
     = Ret (parsed "theme" tokyoNight)
  /\ (parseJson namelessEnv "theme.json" namelessWorld).1
     <> Ret (parsed EmptyString tokyoNight)
  /\ Files.exportHandler (Files.mkDialog false None) "t1" "json"
       (Some "theme.json") namelessWorld
     = (Throw (plainError "Export not yet implemented. Coming soon!"),
        namelessWorld).
Proof. vm_compute. repeat split; try reflexivity. discriminate. Qed.

(** ** Default filling in the Kitty and Alacritty parsers *)

Lemma getOr_nonempty (o : option string) (d : string) :
  d <> EmptyString -> getOr o d <> EmptyString.
Proof.
  intros Hd. destruct o as [v |]; [| exact Hd].
  unfold getOr, strOr. destruct v; [exact Hd | discriminate].
Qed.

Create HintDb populated.
#[local] Hint Resolve getOr_nonempty : populated.
#[local] Hint Extern 1 (_ <> EmptyString) => discriminate : populated.

Lemma kittyColors_populated (content : string) :
  populated (kittyColors content).
Proof.
  unfold populated, slots, kittyColors; cbn [background foreground cursor
    cursorText selection selectionText ansi black red green yellow blue
    magenta cyan white brightBlack brightRed brightGreen brightYellow
    brightBlue brightMagenta brightCyan brightWhite].
  repeat constructor; auto 4 with populated.
Qed.

Lemma alacrittyColors_populated (content : string) :
  populated (alacrittyColors content).
Proof.
  unfold populated, slots, alacrittyColors; cbn [background foreground cursor
    cursorText selection selectionText ansi black red green yellow blue
    magenta cyan white brightBlack brightRed brightGreen brightYellow
    brightBlue brightMagenta brightCyan brightWhite].
  repeat constructor; auto 4 with populated.
Qed.

(** C7. For every readable file the Kitty parser and the Alacritty parser
    return a theme, and each of its 22 slots holds a non-empty string. For
    the file made of the lines [background #1a1b26] and [color1 #f7768e],
    the foreground is the built-in [#c5c8c6], red is [#f7768e] and black is
    the built-in [#1d1f21]. *)
Theorem conf_parsers_fill_every_slot (filePath content : string) (w : World) :
  files w !! filePath = Some content ->
  ((parseKitty filePath w).1
   = Ret (parsed (basename filePath (extname filePath)) (kittyColors content))
   /\ populated (kittyColors content))
  /\ ((parseAlacritty filePath w).1
      = Ret (parsed (basename filePath (extname filePath))
                    (alacrittyColors content))
      /\ populated (alacrittyColors content))
  /\ (background (kittyColors minimalConf) = "#1a1b26"
      /\ foreground (kittyColors minimalConf) = "#c5c8c6"
      /\ red (ansi (kittyColors minimalConf)) = "#f7768e"
      /\ black (ansi (kittyColors minimalConf)) = "#1d1f21")
  /\ (background (alacrittyColors minimalYaml) = "#1a1b26"
      /\ foreground (alacrittyColors minimalYaml) = "#c5c8c6"
      /\ red (ansi (alacrittyColors minimalYaml)) = "#f7768e"
      /\ black (ansi (alacrittyColors minimalYaml)) = "#1d1f21").
Proof.
  intros Hfile. split; [| split; [| split]].
  - split; [| apply kittyColors_populated].
    unfold parseKitty, bind, readFileSync. rewrite Hfile. reflexivity.
  - split; [| apply alacrittyColors_populated].
    unfold parseAlacritty, bind, readFileSync. rewrite Hfile. reflexivity.
  - vm_compute. repeat split; reflexivity.
  - vm_compute. repeat split; reflexivity.
Qed.

Lemma conf_parsers_fill_every_slot_witness :
  (parseKitty "themes/minimal.conf" confWorld).1
  = Ret (parsed "minimal" (kittyColors minimalConf))
  /\ populated (kittyColors minimalConf).
Proof.
  destruct (conf_parsers_fill_every_slot "themes/minimal.conf" minimalConf
              confWorld eq_refl) as ((Hk & Hp) & _).
  split; [exact Hk | exact Hp].
Defined.

(** ** The dispatcher *)

Lemma tryCatch_rethrow {A} (m : M A) (w : World) :
  tryCatch m (fun err => throw err) w = m w.
Proof. unfold tryCatch, throw. destruct (m w) as [[a | e] w']; reflexivity. Qed.

Lemma parseThemeFile_unfold (env : Env) (filePath : string) (w : World) :
  parseThemeFile env filePath w
  = match parserFor (toLowerCase (extname filePath)) with
    | Some p => runParser env p filePath w
    | None =>
        (Throw (plainError ("Unsupported file format: "
                            +:+ toLowerCase (extname filePath))), w)
    end.
Proof.
  unfold parseThemeFile. rewrite tryCatch_rethrow.
  destruct (parserFor _); reflexivity.
Qed.

(** C8. Whatever the platform and the files are, parsing a path whose
    extension is [.terminal] (in any letter case) throws the error of
    [parseTerminalApp], whose message names the [.itermcolors] export as the
    alternative and is not the unsupported-extension message; the world is
    left as it was: no file is looked up or read and no other parser runs. *)
Theorem terminal_files_are_refused (env : Env) (filePath : string) (w : World) :
  toLowerCase (extname filePath) = ".terminal" ->
  parseThemeFile env filePath w = (Throw (plainError terminalAppMessage), w)
  /\ parserFor (toLowerCase (extname filePath)) = Some TerminalAppParser
  /\ includes ".itermcolors" terminalAppMessage = true
  /\ startsWith "Unsupported file format" terminalAppMessage = false.
Proof.
  intros Hext. rewrite parseThemeFile_unfold, Hext.
  repeat split; reflexivity.
Qed.

Lemma terminal_files_are_refused_witness :
  parseThemeFile (envWith "{}" JNull) "Themes/Basic.TERMINAL" terminalWorld
  = (Throw (plainError terminalAppMessage), terminalWorld).
Proof.
  apply (terminal_files_are_refused (envWith "{}" JNull)
           "Themes/Basic.TERMINAL" terminalWorld).
  vm_compute. reflexivity.
Defined.

Lemma parserFor_recognised (ext : string) :
  ext ∈ recognisedExtensions -> exists p, parserFor ext = Some p.
Proof.
  unfold recognisedExtensions. rewrite !elem_of_cons, elem_of_nil.
  intros [-> | [-> | [-> | [-> | [-> | [-> | []]]]]]]; eexists; reflexivity.
Qed.

Lemma parserFor_unrecognised (ext : string) :
  ext ∉ recognisedExtensions -> parserFor ext = None.
Proof.
  unfold recognisedExtensions. rewrite !not_elem_of_cons.
  intros (H1 & H2 & H3 & H4 & H5 & H6 & _). unfold parserFor.
  repeat match goal with
         | |- context [String.eqb ext ?s] =>
             destruct (String.eqb_spec ext s); [congruence |]
         end.
  reflexivity.
Qed.

(** C9. A path whose lower-cased extension is not one of the six
    recognised ones makes the dispatcher throw the unsupported-format
    error naming that extension, with the world untouched (no parser has
    run). A path whose lower-cased extension is recognised is handed, in
    the same world, to the parser of that extension and to no other:
    [.itermcolors] to [parseItermColors], [.terminal] to
    [parseTerminalApp], [.yaml] and [.yml] to [parseAlacritty], [.json]
    to [parseJson], [.conf] to [parseKitty]; the dispatcher returns or
    throws what that parser returns or throws on the path. *)
Theorem dispatch_by_extension (env : Env) (filePath : string) (w : World) :
  let ext := toLowerCase (extname filePath) in
  (ext ∉ recognisedExtensions ->
   parserFor ext = None
   /\ parseThemeFile env filePath w
      = (Throw (plainError ("Unsupported file format: " +:+ ext)), w))
  /\ (ext = ".itermcolors" ->
      parseThemeFile env filePath w = parseItermColors env filePath w)
  /\ (ext = ".terminal" ->
      parseThemeFile env filePath w = parseTerminalApp filePath w)
  /\ (ext = ".yaml" \/ ext = ".yml" ->
      parseThemeFile env filePath w = parseAlacritty filePath w)
  /\ (ext = ".json" ->
      parseThemeFile env filePath w = parseJson env filePath w)
  /\ (ext = ".conf" ->
      parseThemeFile env filePath w = parseKitty filePath w)
  /\ (ext ∈ recognisedExtensions ->
      exists p,
        parserFor ext = Some p
        /\ (forall p', parserFor ext = Some p' -> p' = p)
        /\ parseThemeFile env filePath w = runParser env p filePath w).
Proof.
  intros ext. split; [| repeat split].
  - intros Hext. pose proof (parserFor_unrecognised ext Hext) as Hnone.
    split; [exact Hnone |]. rewrite parseThemeFile_unfold. fold ext.
    rewrite Hnone. reflexivity.
  - intros Hext. rewrite parseThemeFile_unfold. fold ext. rewrite Hext.
    reflexivity.
  - intros Hext. rewrite parseThemeFile_unfold. fold ext. rewrite Hext.
    reflexivity.
  - intros [Hext | Hext]; rewrite parseThemeFile_unfold; fold ext;
      rewrite Hext; reflexivity.
  - intros Hext. rewrite parseThemeFile_unfold. fold ext. rewrite Hext.
    reflexivity.
  - intros Hext. rewrite parseThemeFile_unfold. fold ext. rewrite Hext.
    reflexivity.
  - intros Hext. destruct (parserFor_recognised ext Hext) as [p Hp].
    exists p. split; [exact Hp |]. split; [congruence |].
    rewrite parseThemeFile_unfold. fold ext. rewrite Hp. reflexivity.
Qed.

Lemma dispatch_by_extension_witness :
  parseThemeFile namedEnv "themes/notes.TXT" themesWorld
  = (Throw (plainError "Unsupported file format: .txt"), themesWorld)
  /\ (parseThemeFile (envWith "{}" lightDoc) "themes/light.ITERMCOLORS"
        themesWorld).1
     = Ret (parsed "light.ITERMCOLORS" (componentColors lightDoc))
  /\ (parseThemeFile namedEnv "themes/basic.Terminal" themesWorld).1
     = Throw (plainError terminalAppMessage)
  /\ (parseThemeFile namedEnv "themes/minimal.YML" themesWorld).1
     = Ret (parsed "minimal" (alacrittyColors minimalYaml))
  /\ (parseThemeFile namedEnv "themes/night.JSON" themesWorld).1
     = Ret (parsed "Tokyo Night" tokyoNight)
  /\ (parseThemeFile namedEnv "themes/minimal.CONF" themesWorld).1
     = Ret (parsed "minimal" (kittyColors minimalConf)).
Proof.
  split; [| split; [| split; [| split; [| split]]]].
  - apply (dispatch_by_extension namedEnv "themes/notes.TXT" themesWorld).
    unfold recognisedExtensions. rewrite !not_elem_of_cons.
    repeat split; try (vm_compute; discriminate). apply not_elem_of_nil.
  - destruct (dispatch_by_extension (envWith "{}" lightDoc)
                "themes/light.ITERMCOLORS" themesWorld)
      as (_ & H & _).
    rewrite H by (vm_compute; reflexivity). vm_compute. reflexivity.
  - destruct (dispatch_by_extension namedEnv "themes/basic.Terminal"
                themesWorld) as (_ & _ & H & _).
    rewrite H by (vm_compute; reflexivity). reflexivity.
  - destruct (dispatch_by_extension namedEnv "themes/minimal.YML"
                themesWorld) as (_ & _ & _ & H & _).
    rewrite H by (right; vm_compute; reflexivity). vm_compute. reflexivity.
  - destruct (dispatch_by_extension namedEnv "themes/night.JSON"
                themesWorld) as (_ & _ & _ & _ & H & _).
    rewrite H by (vm_compute; reflexivity). vm_compute. reflexivity.
  - destruct (dispatch_by_extension namedEnv "themes/minimal.CONF"
                themesWorld) as (_ & _ & _ & _ & _ & H & _).
    rewrite H by (vm_compute; reflexivity). vm_compute. reflexivity.
Defined.

(** ** The theme-colours lookup *)

Lemma newMap_absent (pairs : list (string * string)) (k : string) :
  k ∉ pairs.*1 -> newMap pairs !! k = None.
Proof.
  unfold newMap.
  assert (Hgen : forall m : gmap string string,
             k ∉ pairs.*1 ->
             fold_left (fun m kv => <[kv.1 := kv.2]> m) pairs m !! k = m !! k).
  { induction pairs as [| [k' v] rest IH]; intros m Hk; [reflexivity |].
    rewrite fmap_cons in Hk. apply not_elem_of_cons in Hk as [Hne Hrest].
    cbn [fold_left fst snd] in *. rewrite IH by exact Hrest.
    apply lookup_insert_ne. intros ->. apply Hne. reflexivity. }
  intros Hk. rewrite Hgen by exact Hk. apply lookup_empty.
Qed.

Lemma colorsOfMap_populated (m : gmap string string) :
  populated (Installer.colorsOfMap m).
Proof.
  unfold populated, slots, Installer.colorsOfMap; cbn [background foreground
    cursor cursorText selection selectionText ansi black red green yellow
    blue magenta cyan white brightBlack brightRed brightGreen brightYellow
    brightBlue brightMagenta brightCyan brightWhite].
  repeat constructor; auto 3 with populated.
Qed.

Lemma colorsOfMap_slots (pairs : list (string * string)) :
  Forall (fun slot : string * (ThemeColors -> string) * string =>
            let '(k, proj, d) := slot in
            proj (Installer.colorsOfMap (newMap pairs))
            = getOr (newMap pairs !! k) d
            /\ (k ∉ pairs.*1 ->
                proj (Installer.colorsOfMap (newMap pairs)) = d))
         storeSlots.
Proof.
  unfold storeSlots.
  repeat constructor; intros Hk; cbn; rewrite (newMap_absent _ _ Hk);
    reflexivity.
Qed.


(** ** The iTerm2 installers *)

Lemma ensure_dir {A} (env : Env) (w : World) (dir : string) (k : M A) :
  dirAvailable env w dir ->
  bind (existsSync dir)
       (fun found =>
          bind (if negb found then mkdirSync env dir else ret tt)
               (fun _ => k)) w
  = k (withDir w dir).
Proof.
  intros Hdir. unfold bind, existsSync, withDir. fold (present w dir).
  destruct (present w dir) eqn:Hp; cbn [negb]; [reflexivity |].
  destruct Hdir as [Hd | Hd]; [congruence |].
  unfold mkdirSync. cbn [files dirs trace]. rewrite Hd. reflexivity.
Qed.

(** What [installToIterm2] does once the colours are found. *)
Lemma gui_install_found (env : Env) (db : Database) (themeId : string)
  (c : ThemeColors) (w : World) :
  Installer.getThemeColors db themeId = Some c ->
  dirAvailable env w (Installer.dynamicProfilesDir env) ->
  let name := Installer.getThemeName db themeId in
  let path := guiProfilePath env db themeId in
  let text := JSON_stringify env 2
                (Installer.itermProfile Installer.hexToItermColorDict
                   name themeId c) in
  let w1 := withDir w (Installer.dynamicProfilesDir env) in
  let cmd := Installer.osascript (Installer.setProfileScript name) in
  let w2 := mkWorld (<[path := text]> (files w1)) (dirs w1)
              (EvExec cmd :: EvWrite path text :: trace w1) in
  Installer.installToIterm2 env db themeId w
  = match writeFileSync_error env path with
    | Some msg =>
        (Ret (Installer.mkResult false path None
                (Some ("Failed to write profile: "
                       +:+ errToString (plainError msg)))), w1)
    | None =>
        match exec_error env cmd with
        | Some _ =>
            (Ret (Installer.mkResult true path (Some (manualText name)) None),
             w2)
        | None =>
            (Ret (Installer.mkResult true path (Some (appliedText name)) None),
             w2)
        end
    end.
Proof.
  intros Hc Hdir name path text w1 cmd w2.
  unfold Installer.installToIterm2. rewrite Hc. fold name.
  rewrite ensure_dir by exact Hdir. fold w1.
  change (join (Installer.dynamicProfilesDir env)
            (Installer.slugOf name +:+ ".json")) with path.
  unfold tryCatch, bind, writeFileSync. fold text.
  destruct (writeFileSync_error env path) as [msg |]; [reflexivity |].
  unfold exec. cbn [files dirs trace]. fold cmd.
  destruct (exec_error env cmd); reflexivity.
Qed.

(** What [applyToIterm2] does. *)
Lemma cli_apply_run (env : Env) (c : ThemeColors) (themeName themeId : string)
  (w : World) :
  dirAvailable env w (Installer.dynamicProfilesDir env) ->
  let path := cliProfilePath env themeName in
  let text := JSON_stringify env 2
                (Installer.itermProfile Cli.hexToItermColor
                   themeName themeId c) in
  let w1 := withDir w (Installer.dynamicProfilesDir env) in
  let cmd := Installer.osascript (Cli.setProfileScript themeName) in
  let w2 := mkWorld (<[path := text]> (files w1)) (dirs w1)
              (EvExec cmd :: EvWrite path text :: trace w1) in
  Cli.applyToIterm2 env c themeName themeId w
  = match writeFileSync_error env path with
    | Some _ => (Ret (Cli.mkApply false "Failed to install profile."), w1)
    | None =>
        match exec_error env cmd with
        | Some _ =>
            (Ret (Cli.mkApply true
                    "Profile installed. Select from Profiles menu or restart iTerm2."),
             w2)
        | None => (Ret (Cli.mkApply true "Theme applied to all sessions!"), w2)
        end
    end.
Proof.
  intros Hdir path text w1 cmd w2.
  unfold Cli.applyToIterm2.
  change (join (homedir env)
            "Library/Application Support/iTerm2/DynamicProfiles")
    with (Installer.dynamicProfilesDir env).
  rewrite ensure_dir by exact Hdir. fold w1.
  change (join (Installer.dynamicProfilesDir env)
            ("shellshade-" +:+ Installer.slugOf themeName +:+ ".json"))
    with path.
  unfold tryCatch, bind, writeFileSync. fold text.
  destruct (writeFileSync_error env path) as [msg |]; [reflexivity |].
  unfold exec. cbn [files dirs trace]. fold cmd.
  destruct (exec_error env cmd); reflexivity.
Qed.

Lemma manualText_nonempty (themeName : string) :
  manualText themeName <> EmptyString.
Proof. unfold manualText. cbn. discriminate. Qed.

(** C6 (amended). Take either iTerm2 installer with its dynamic-profiles
    directory found or created. It returns a result. When the profile
    file is written and the [osascript] call fails, the result has
    [success: true] with the non-empty manual text, and the written file
    is still there. For a theme that has colours the result has
    [success: false] exactly when the write fails, and it then carries a
    non-empty error text. [installToIterm2] looks the colours up itself:
    without any colour row it answers [success: false] with
    [Theme not found], the world left as it was; this is the one
    [success: false] that no failed write precedes. *)
Theorem iterm2_install_outcomes (env : Env) (db : Database) (c : ThemeColors)
  (themeName themeId : string) (w : World) :
  dirAvailable env w (Installer.dynamicProfilesDir env) ->
  let name := Installer.getThemeName db themeId in
  let gpath := guiProfilePath env db themeId in
  let gcmd := Installer.osascript (Installer.setProfileScript name) in
  let cpath := cliProfilePath env themeName in
  let ccmd := Installer.osascript (Cli.setProfileScript themeName) in
  (Installer.getThemeColors db themeId = Some c ->
   exists r w',
     Installer.installToIterm2 env db themeId w = (Ret r, w')
     /\ (Installer.success r = false <-> writeFileSync_error env gpath <> None)
     /\ (Installer.success r = false ->
         exists e, Installer.error r = Some e /\ e <> EmptyString)
     /\ (writeFileSync_error env gpath = None ->
         files w' !! gpath
         = Some (JSON_stringify env 2
                   (Installer.itermProfile Installer.hexToItermColorDict
                      name themeId c))
         /\ (exec_error env gcmd <> None ->
             Installer.success r = true
             /\ Installer.instructions r = Some (manualText name)
             /\ manualText name <> EmptyString)))
  /\ (Installer.getThemeColors db themeId = None ->
      Installer.installToIterm2 env db themeId w
      = (Ret (Installer.mkResult false EmptyString None
                (Some "Theme not found")), w))
  /\ (exists r w',
        Cli.applyToIterm2 env c themeName themeId w = (Ret r, w')
        /\ (Cli.success r = false <-> writeFileSync_error env cpath <> None)
        /\ Cli.message r <> EmptyString
        /\ (writeFileSync_error env cpath = None ->
            files w' !! cpath
            = Some (JSON_stringify env 2
                      (Installer.itermProfile Cli.hexToItermColor
                         themeName themeId c))
            /\ (exec_error env ccmd <> None ->
                Cli.success r = true
                /\ Cli.message r
                   = "Profile installed. Select from Profiles menu or restart iTerm2."))).
Proof.
  intros Hdir name gpath gcmd cpath ccmd. split; [| split].
  - intros Hc. rewrite (gui_install_found env db themeId c w Hc Hdir).
    fold name gpath gcmd.
    destruct (writeFileSync_error env gpath) as [msg |] eqn:Hw.
    + eexists _, _. split; [reflexivity |]. cbn. repeat split; try discriminate.
      intros _. eexists. split; [reflexivity | discriminate].
    + destruct (exec_error env gcmd) as [e |] eqn:He;
        (eexists _, _; split; [reflexivity |]; cbn; repeat split;
         try discriminate; try congruence;
         try apply lookup_insert_eq; try apply manualText_nonempty).
  - intros Hnone. unfold Installer.installToIterm2. rewrite Hnone. reflexivity.
  - rewrite (cli_apply_run env c themeName themeId w Hdir).
    fold cpath ccmd.
    destruct (writeFileSync_error env cpath) as [msg |] eqn:Hw.
    + eexists _, _. split; [reflexivity |]. cbn.
      repeat split; try discriminate.
    + destruct (exec_error env ccmd) as [e |] eqn:He;
        (eexists _, _; split; [reflexivity |]; cbn; repeat split;
         try discriminate; try congruence; try apply lookup_insert_eq).
Qed.

Lemma iterm2_install_outcomes_witness :
  exists r w',
    Installer.installToIterm2 noScriptEnv oneRowDb "t1" emptyWorld = (Ret r, w')
    /\ Installer.success r = true
    /\ Installer.instructions r = Some (manualText "Tokyo Night")
    /\ is_Some (files w' !! guiProfilePath noScriptEnv oneRowDb "t1").
Proof.
  assert (Hdir : dirAvailable noScriptEnv emptyWorld
                   (Installer.dynamicProfilesDir noScriptEnv))
    by (right; reflexivity).
  destruct (iterm2_install_outcomes noScriptEnv oneRowDb
              (Installer.colorsOfMap (newMap [("background", "#1a1b26")]))
              "Tokyo Night" "t1" emptyWorld Hdir) as (Hgui & _ & _).
  destruct (Hgui eq_refl) as (r & w' & Hrun & _ & _ & Hwritten).
  destruct (Hwritten eq_refl) as (Hfile & Hmanual).
  destruct Hmanual as (Hs & Hi & _); [discriminate |].
  exists r, w'. repeat split; try assumption.
  rewrite Hfile. eexists. reflexivity.
Defined.

(** C6 (as stated) fails: [installToIterm2] answers [success: false]
    for a theme without colours in the store, on a platform where every
    write succeeds; nothing is written, the world is as it was. *)
Lemma iterm2_install_fails_without_write :
  Installer.getThemeColors oneRowDb "t9" = None
  /\ (forall p, writeFileSync_error noScriptEnv p = None)
  /\ exists r,
       Installer.installToIterm2 noScriptEnv oneRowDb "t9" emptyWorld
       = (Ret r, emptyWorld)
       /\ Installer.success r = false
       /\ Installer.error r = Some "Theme not found"
       /\ trace emptyWorld = [].
Proof.
  split; [reflexivity |]. split; [reflexivity |].
  eexists. split; [reflexivity |]. repeat split.
Qed.

(** C10. The lookup of the GUI installer and the lookup of the CLI are
    the same function. It returns [null] exactly when the store holds no
    colour row for the theme, and that is the only case in which
    [installToIterm2] reports [Theme not found]. With at least one row it
    returns colours whose 22 slots are all non-empty: a slot is the stored
    value, or the built-in default of the slot when no row (or an empty
    value) is stored for its key. *)
Theorem theme_colors_lookup (db : Database) (themeId : string) :
  let rows := selectColors db themeId in
  Cli.getFullThemeColors db themeId = Installer.getThemeColors db themeId
  /\ (Installer.getThemeColors db themeId = None <-> rows = [])
  /\ (rows <> [] ->
      Installer.getThemeColors db themeId
      = Some (Installer.colorsOfMap (newMap rows))
      /\ populated (Installer.colorsOfMap (newMap rows))
      /\ Forall (fun slot : string * (ThemeColors -> string) * string =>
                   let '(k, proj, d) := slot in
                   proj (Installer.colorsOfMap (newMap rows))
                   = getOr (newMap rows !! k) d
                   /\ (k ∉ rows.*1 ->
                       proj (Installer.colorsOfMap (newMap rows)) = d))
                storeSlots)
  /\ (forall env w,
        rows = [] ->
        Installer.installToIterm2 env db themeId w
        = (Ret (Installer.mkResult false EmptyString None
                  (Some "Theme not found")), w))
  /\ (forall env w r w',
        Installer.installToIterm2 env db themeId w = (Ret r, w') ->
        Installer.error r = Some "Theme not found" -> rows = []).
Proof.
  intros rows. unfold Installer.getThemeColors, Cli.getFullThemeColors.
  fold rows. repeat split.
  - destruct rows; [reflexivity | discriminate].
  - intros ->. reflexivity.
  - destruct rows; [contradiction | reflexivity].
  - apply colorsOfMap_populated.
  - apply colorsOfMap_slots.
  - intros env w Hrows. unfold Installer.installToIterm2,
      Installer.getThemeColors. fold rows. rewrite Hrows. reflexivity.
  - intros env w r w' Hrun Herr.
    destruct rows as [| row rest] eqn:Hrows; [reflexivity | exfalso].
    unfold Installer.installToIterm2, Installer.getThemeColors in Hrun.
    fold rows in Hrun. rewrite Hrows in Hrun. cbn [List.length Nat.eqb] in Hrun.
    unfold bind, tryCatch, ret, existsSync in Hrun.
    destruct (negb _) in Hrun.
    + destruct (mkdirSync _ _ _) as [[[] | e] w1] in Hrun; [| discriminate].
      destruct (writeFileSync _ _ _ _) as [[[] | e] w2] in Hrun.
      * destruct (exec _ _ _) as [[[] | e] w3] in Hrun;
          injection Hrun as <- <-; discriminate.
      * injection Hrun as <- <-. discriminate.
    + destruct (writeFileSync _ _ _ _) as [[[] | e] w2] in Hrun.
      * destruct (exec _ _ _) as [[[] | e] w3] in Hrun;
          injection Hrun as <- <-; discriminate.
      * injection Hrun as <- <-. discriminate.
Qed.

Lemma theme_colors_lookup_witness :
  Installer.getThemeColors oneRowDb "t1"
  = Some (Installer.colorsOfMap (newMap [("background", "#1a1b26")]))
  /\ foreground (Installer.colorsOfMap (newMap [("background", "#1a1b26")]))
     = "#ffffff".
Proof.
  destruct (theme_colors_lookup oneRowDb "t1") as (_ & _ & Hsome & _).
  destruct Hsome as (Hget & _ & Hslots); [vm_compute; discriminate |].
  split; [exact Hget |].
  apply Forall_cons in Hslots as [_ Hslots].
  apply Forall_cons in Hslots as [[_ Hfg] _].
  apply Hfg. intros Hin. apply list_elem_of_In in Hin. vm_compute in Hin.
  destruct Hin as [H | []]. discriminate.
Defined.

(** ** Windows Terminal settings *)

Lemma assoc_setField_eq (k : string) (v : json) (fields : list (string * json)) :
  assoc k (setField k v fields) = Some v.
Proof.
  induction fields as [| [k' v'] rest IH]; cbn.
  - rewrite String.eqb_refl. reflexivity.
  - destruct (String.eqb k k') eqn:E; cbn; rewrite E; [reflexivity | exact IH].
Qed.

Lemma assoc_setField_ne (k k2 : string) (v : json)
  (fields : list (string * json)) :
  k <> k2 -> assoc k (setField k2 v fields) = assoc k fields.
Proof.
  intros Hne. induction fields as [| [k' v'] rest IH]; cbn.
  - destruct (String.eqb_spec k k2); [contradiction | reflexivity].
  - destruct (String.eqb_spec k2 k') as [-> | Hk2]; cbn.
    + destruct (String.eqb_spec k k'); [contradiction | reflexivity].
    + destruct (String.eqb k k'); [reflexivity | exact IH].
Qed.

Lemma keepScheme_isNamed (themeName : string) (s : json) :
  notNull s = true -> Cli.keepScheme themeName s = Some (negb (isNamed themeName s)).
Proof.
  intros Hs. unfold Cli.keepScheme, isNamed.
  destruct s; try discriminate;
    try (destruct (prop _ _) as [[| | | n | |] |]; reflexivity); reflexivity.
Qed.

Lemma keepScheme_some (themeName : string) (s : json) (keep : bool) :
  Cli.keepScheme themeName s = Some keep -> keep = negb (isNamed themeName s).
Proof.
  intros H. destruct s; try discriminate;
  (rewrite keepScheme_isNamed in H by reflexivity; congruence).
Qed.

Lemma filterSchemes_none_named (themeName : string) (l kept : list json) :
  Cli.filterSchemes themeName l = Some kept ->
  List.filter (isNamed themeName) kept = [].
Proof.
  revert kept. induction l as [| s rest IH]; intros kept H; cbn in H.
  - injection H as <-. reflexivity.
  - destruct (Cli.keepScheme themeName s) as [keep |] eqn:Hk; [| discriminate].
    destruct (Cli.filterSchemes themeName rest) as [rest' |]; [| discriminate].
    injection H as <-. apply keepScheme_some in Hk. specialize (IH _ eq_refl).
    destruct keep; [| exact IH]. cbn.
    destruct (isNamed themeName s); [discriminate | exact IH].
Qed.

Lemma filterSchemes_total (themeName : string) (l : list json) :
  forallb notNull l = true -> exists kept, Cli.filterSchemes themeName l = Some kept.
Proof.
  induction l as [| s rest IH]; cbn; intros H; [eexists; reflexivity |].
  apply andb_prop in H as [Hs Hrest]. destruct (IH Hrest) as [kept Hkept].
  rewrite (keepScheme_isNamed _ _ Hs), Hkept. eexists; reflexivity.
Qed.

Lemma colorScheme_named (colors : ThemeColors) (themeName : string) :
  isNamed themeName (Cli.colorScheme colors themeName) = true.
Proof. unfold isNamed. cbn. apply String.eqb_refl. Qed.

Lemma setDefaultScheme_schemes (themeName : string)
  (fields fields' : list (string * json)) (w w' : World) :
  Cli.setDefaultScheme themeName fields w = (Ret fields', w') ->
  w' = w /\ assoc "schemes" fields' = assoc "schemes" fields.
Proof.
  unfold Cli.setDefaultScheme, ret, throw. intros H.
  destruct (Cli.fieldOr "profiles" (JObj []) fields) as [| | | | l | pf];
    try discriminate.
  - injection H as <- <-. split; reflexivity.
  - destruct (Cli.fieldOr "defaults" (JObj []) pf) as [| | | | l | df];
      try discriminate; injection H as <- <-; split; try reflexivity.
    apply assoc_setField_ne. discriminate.
Qed.

Lemma setDefaultScheme_pure (themeName : string)
  (fields : list (string * json)) (w : World) :
  (Cli.setDefaultScheme themeName fields w).2 = w.
Proof.
  unfold Cli.setDefaultScheme, ret, throw.
  destruct (Cli.fieldOr "profiles" (JObj []) fields) as [| | | | l | pf];
    try reflexivity.
  destruct (Cli.fieldOr "defaults" (JObj []) pf); reflexivity.
Qed.

(** Whatever object the settings are, a document that comes out of
    [updateSettings] holds the new scheme and no other scheme of that
    name. *)
Lemma updateSettings_object (colors : ThemeColors) (themeName : string)
  (fields : list (string * json)) (doc : json) (w w' : World) :
  Cli.updateSettings colors themeName (JObj fields) w = (Ret doc, w') ->
  w' = w /\ isObject doc = true
  /\ schemesNamed themeName doc = [Cli.colorScheme colors themeName].
Proof.
  unfold Cli.updateSettings. intros H.
  destruct (Cli.fieldOr "schemes" (JArr []) fields) as [| | | | schemes |];
    try discriminate.
  destruct (Cli.filterSchemes themeName schemes) as [kept |] eqn:Hkept;
    [| discriminate].
  unfold bind in H.
  destruct (Cli.setDefaultScheme _ _ _) as [[fields2 | e] w2] eqn:Hset;
    [| discriminate].
  injection H as <- <-.
  apply setDefaultScheme_schemes in Hset as [-> Hschemes].
  split; [reflexivity |]. split; [reflexivity |].
  unfold schemesNamed. cbn [prop]. rewrite Hschemes, assoc_setField_eq.
  rewrite List.filter_app, (filterSchemes_none_named _ _ _ Hkept).
  cbn [List.filter app]. rewrite colorScheme_named. reflexivity.
Qed.

Lemma updateSettings_pure (colors : ThemeColors) (themeName : string)
  (settings : json) (w : World) :
  (Cli.updateSettings colors themeName settings w).2 = w.
Proof.
  unfold Cli.updateSettings.
  destruct settings as [| | | | items | fields]; try reflexivity.
  destruct (Cli.fieldOr "schemes" (JArr []) fields); try reflexivity.
  destruct (Cli.filterSchemes _ _); [| reflexivity].
  unfold bind. pose proof (setDefaultScheme_pure themeName
    (setField "schemes" (JArr (l ++ [Cli.colorScheme colors themeName])) fields) w) as Hp.
  destruct (Cli.setDefaultScheme _ _ _) as [[f | e] w2]; cbn in *; congruence.
Qed.

(** On a settings document [updateSettings] does not throw. *)
Lemma updateSettings_document (colors : ThemeColors) (themeName : string)
  (settings : json) (w : World) :
  isSettingsDocument settings = true ->
  exists doc, Cli.updateSettings colors themeName settings w = (Ret doc, w).
Proof.
  intros Hdoc. destruct settings as [| | | | | fields]; try discriminate.
  cbn [isSettingsDocument] in Hdoc. apply andb_prop in Hdoc as [Hs Hp].
  unfold Cli.updateSettings, Cli.fieldOr.
  destruct (jsOr (assoc "schemes" fields) (JArr [])) as [| | | | schemes |];
    try discriminate.
  destruct (filterSchemes_total themeName schemes Hs) as [kept ->].
  unfold bind, Cli.setDefaultScheme, Cli.fieldOr.
  rewrite assoc_setField_ne by discriminate.
  destruct (jsOr (assoc "profiles" fields) (JObj [])) as [| | | | l | pf];
    try discriminate.
  - eexists. reflexivity.
  - destruct (jsOr (assoc "defaults" pf) (JObj [])); try discriminate;
      eexists; reflexivity.
Qed.

Lemma setDefaultScheme_outcome (themeName : string)
  (fields : list (string * json)) :
  exists o, forall w, Cli.setDefaultScheme themeName fields w = (o, w).
Proof.
  unfold Cli.setDefaultScheme, ret, throw.
  destruct (Cli.fieldOr "profiles" (JObj []) fields) as [| | | | l | pf];
    try (eexists; intros; reflexivity).
  destruct (Cli.fieldOr "defaults" (JObj []) pf);
    eexists; intros; reflexivity.
Qed.

(** [updateSettings] computes on values only: its outcome does not depend
    on the world, which it leaves as it is. *)
Lemma updateSettings_outcome (colors : ThemeColors) (themeName : string)
  (settings : json) :
  exists o, forall w, Cli.updateSettings colors themeName settings w = (o, w).
Proof.
  unfold Cli.updateSettings, ret, throw.
  destruct settings as [| | | | items | fields];
    try (eexists; intros; reflexivity).
  destruct (Cli.fieldOr "schemes" (JArr []) fields) as [| | | | schemes |];
    try (eexists; intros; reflexivity).
  destruct (Cli.filterSchemes themeName schemes) as [kept |];
    [| eexists; intros; reflexivity].
  destruct (setDefaultScheme_outcome themeName
              (setField "schemes"
                 (JArr (kept ++ [Cli.colorScheme colors themeName])) fields))
    as [[fields2 | e] Ho];
    eexists; intros w; unfold bind; rewrite Ho; reflexivity.
Qed.

Lemma present_same (w w' : World) (p : string) :
  files w' = files w -> dirs w' = dirs w -> present w' p = present w p.
Proof. intros Hf Hd. unfold present. rewrite Hf, Hd. reflexivity. Qed.

Lemma findExisting_run (paths : list string) (w : World) :
  exists w',
    Cli.findExisting paths w = (Ret (List.find (present w) paths), w')
    /\ files w' = files w /\ dirs w' = dirs w.
Proof.
  revert w. induction paths as [| p rest IH]; intros w; cbn [Cli.findExisting List.find].
  - eexists. split; [reflexivity | split; reflexivity].
  - unfold bind, existsSync. fold (present w p).
    destruct (present w p) eqn:Hp.
    + eexists. split; [reflexivity | split; reflexivity].
    + destruct (IH (mkWorld (files w) (dirs w) (EvExists p :: trace w)))
        as (w' & Hrun & Hf & Hd).
      exists w'. rewrite Hrun. split; [reflexivity | split; assumption].
Qed.

Lemma wtSettingsPath_found (env : Env) (w : World) (path : string) :
  settingsFile env w = Some path ->
  exists w',
    Cli.wtSettingsPath env w = (Ret path, w')
    /\ files w' = files w /\ dirs w' = dirs w.
Proof.
  unfold settingsFile, Cli.wtSettingsPath, bind. intros Hfind.
  destruct (findExisting_run (Cli.wtPaths env) w) as (w' & Hrun & Hf & Hd).
  rewrite Hrun, Hfind. exists w'. split; [reflexivity | split; assumption].
Qed.

Lemma readSettings_file (env : Env) (path content : string) (w : World) :
  files w !! path = Some content ->
  exists w',
    Cli.readSettings env path w = (Ret (settingsOf env content), w')
    /\ files w' = files w /\ dirs w' = dirs w.
Proof.
  intros Hfile. unfold Cli.readSettings, bind, existsSync, readFileSync.
  rewrite Hfile.
  replace (bool_decide (is_Some (Some content))) with true
    by (symmetry; apply bool_decide_eq_true; eexists; reflexivity).
  cbn [orb files dirs trace]. rewrite Hfile.
  unfold tryCatch, parseJSON, settingsOf, ret, throw.
  destruct (JSON_parse env (Cli.stripComments content));
    eexists; (split; [reflexivity | split; reflexivity]).
Qed.

(** One run of [applyToWindowsTerminal] on an existing settings file that
    can be written. *)
Lemma applyToWindowsTerminal_run (env : Env) (colors : ThemeColors)
  (themeName : string) (w : World) (path content : string) :
  settingsFile env w = Some path ->
  files w !! path = Some content ->
  writeFileSync_error env path = None ->
  exists r w',
    Cli.applyToWindowsTerminal env colors themeName w = (Ret r, w')
    /\ dirs w' = dirs w
    /\ match (Cli.updateSettings colors themeName (settingsOf env content) w).1 with
       | Ret doc =>
           Cli.success r = true
           /\ files w' = <[path := JSON_stringify env 4 doc]> (files w)
       | Throw _ => Cli.success r = false /\ files w' = files w
       end.
Proof.
  intros Hpath Hfile Hwrite. unfold Cli.applyToWindowsTerminal.
  destruct (wtSettingsPath_found env w path Hpath) as (w1 & Hrun1 & Hf1 & Hd1).
  unfold bind at 1. rewrite Hrun1.
  assert (Hfile1 : files w1 !! path = Some content) by (rewrite Hf1; exact Hfile).
  destruct (readSettings_file env path content w1 Hfile1)
    as (w2 & Hrun2 & Hf2 & Hd2).
  unfold tryCatch, bind. rewrite Hrun2.
  destruct (updateSettings_outcome colors themeName (settingsOf env content))
    as [o Ho].
  rewrite (Ho w2), (Ho w). cbn [fst].
  destruct o as [doc | e].
  - unfold writeFileSync. rewrite Hwrite. eexists _, _.
    split; [reflexivity |]. cbn [dirs files Cli.success].
    rewrite Hd2, Hd1, Hf2, Hf1. repeat split.
  - eexists _, _. split; [reflexivity |]. cbn [Cli.success].
    rewrite Hd2, Hd1, Hf2, Hf1. repeat split.
Qed.

Lemma find_pointwise {A} (f g : A -> bool) (l : list A) :
  (forall x, f x = g x) -> List.find f l = List.find g l.
Proof.
  intros H. induction l as [| x rest IH]; [reflexivity |].
  cbn. rewrite H, IH. reflexivity.
Qed.

Lemma settingsFile_rewritten (env : Env) (w w1 : World) (path text : string) :
  settingsFile env w = Some path ->
  files w1 = <[path := text]> (files w) ->
  dirs w1 = dirs w ->
  settingsFile env w1 = Some path.
Proof.
  unfold settingsFile. intros Hfind Hf Hd. rewrite <- Hfind.
  apply find_pointwise. intros p. unfold present. rewrite Hf, Hd.
  destruct (decide (p = path)) as [-> | Hne].
  - apply List.find_some in Hfind as [_ Hp]. unfold present in Hp.
    rewrite Hp. rewrite lookup_insert_eq.
    replace (bool_decide (is_Some (Some text))) with true; [reflexivity |].
    symmetry. apply bool_decide_eq_true. eexists; reflexivity.
  - rewrite lookup_insert_ne by congruence. reflexivity.
Qed.

Lemma updateSettings_split (colors : ThemeColors) (themeName : string)
  (settings : json) (w : World) :
  Cli.updateSettings colors themeName settings w
  = ((Cli.updateSettings colors themeName settings w).1, w).
Proof.
  rewrite <- (updateSettings_pure colors themeName settings w) at 3.
  destruct (Cli.updateSettings colors themeName settings w); reflexivity.
Qed.

(** C5. Start from an existing settings file that can be written and
    whose content, when it parses, is a settings document. After two
    applications of the same theme the file holds a document in which
    exactly one scheme has the theme's name, and that scheme is the new
    one; it carries magenta and bright magenta under the keys [purple] and
    [brightPurple]. The second run reads what the first one wrote; all that
    is assumed of [JSON.stringify] and [JSON.parse] is that the serialised
    object, comments stripped, parses to an object if it parses at all. *)
Theorem windows_terminal_reinstall (env : Env) (colors : ThemeColors)
  (themeName : string) (w : World) (path content : string) :
  settingsFile env w = Some path ->
  files w !! path = Some content ->
  isSettingsDocument (settingsOf env content) = true ->
  (forall fields,
     isObject (settingsOf env (JSON_stringify env 4 (JObj fields))) = true) ->
  writeFileSync_error env path = None ->
  let first := Cli.applyToWindowsTerminal env colors themeName w in
  let second := Cli.applyToWindowsTerminal env colors themeName first.2 in
  applied first.1 = true
  /\ (exists r, second.1 = Ret r)
  /\ (exists doc,
        files second.2 !! path = Some (JSON_stringify env 4 doc)
        /\ schemesNamed themeName doc = [Cli.colorScheme colors themeName])
  /\ prop "purple" (Cli.colorScheme colors themeName)
     = Some (JStr (magenta (ansi colors)))
  /\ prop "brightPurple" (Cli.colorScheme colors themeName)
     = Some (JStr (brightMagenta (ansi colors)))
  /\ prop "magenta" (Cli.colorScheme colors themeName) = None
  /\ prop "brightMagenta" (Cli.colorScheme colors themeName) = None.
Proof.
  intros Hpath Hfile Hdoc Hreread Hwrite first second.
  destruct (applyToWindowsTerminal_run env colors themeName w path content
              Hpath Hfile Hwrite) as (r1 & w1 & Hrun1 & Hd1 & Hcase1).
  destruct (updateSettings_document colors themeName _ w Hdoc) as [doc1 Hupd1].
  rewrite Hupd1 in Hcase1. cbn [fst] in Hcase1. destruct Hcase1 as [Hs1 Hf1].
  assert (Hobj1 : isObject doc1 = true
                  /\ schemesNamed themeName doc1
                     = [Cli.colorScheme colors themeName]).
  { destruct (settingsOf env content) as [| | | | | fields] eqn:Hs;
      try discriminate.
    apply updateSettings_object in Hupd1. tauto. }
  destruct Hobj1 as [Hobj1 Hnamed1].
  destruct doc1 as [| | | | | fields1]; try discriminate.
  assert (Hpath1 : settingsFile env w1 = Some path)
    by (eapply settingsFile_rewritten; eassumption).
  assert (Hfile1 : files w1 !! path
                   = Some (JSON_stringify env 4 (JObj fields1)))
    by (rewrite Hf1; apply lookup_insert_eq).
  destruct (applyToWindowsTerminal_run env colors themeName w1 path _
              Hpath1 Hfile1 Hwrite) as (r2 & w2 & Hrun2 & Hd2 & Hcase2).
  subst first second. rewrite Hrun1. cbn [fst snd]. rewrite Hrun2.
  cbn [fst snd applied].
  split; [exact Hs1 |]. split; [eexists; reflexivity |].
  split; [| repeat split].
  specialize (Hreread fields1).
  destruct (settingsOf env (JSON_stringify env 4 (JObj fields1)))
    as [| | | | | fields2] eqn:Hs2; try discriminate.
  rewrite updateSettings_split in Hcase2.
  destruct (Cli.updateSettings colors themeName (JObj fields2) w1).1
    as [doc2 | e] eqn:Hupd2; cbn [fst] in Hcase2;
    destruct Hcase2 as [Hs2' Hf2].
  - exists doc2. split; [rewrite Hf2; apply lookup_insert_eq |].
    pose proof (updateSettings_split colors themeName (JObj fields2) w1) as Hsp.
    rewrite Hupd2 in Hsp. apply updateSettings_object in Hsp. tauto.
  - exists (JObj fields1). split; [rewrite Hf2; exact Hfile1 | exact Hnamed1].
Qed.

Lemma windows_terminal_reinstall_witness :
  exists doc,
    files (Cli.applyToWindowsTerminal wtEnv tokyoNight "Tokyo Night"
             (Cli.applyToWindowsTerminal wtEnv tokyoNight "Tokyo Night"
                wtWorld).2).2 !! wtFile
    = Some (JSON_stringify wtEnv 4 doc)
    /\ schemesNamed "Tokyo Night" doc
       = [Cli.colorScheme tokyoNight "Tokyo Night"].
Proof.
  destruct (windows_terminal_reinstall wtEnv tokyoNight "Tokyo Night" wtWorld
              wtFile "{}") as (_ & _ & Hdoc & _).
  - vm_compute. reflexivity.
  - vm_compute. reflexivity.
  - vm_compute. reflexivity.
  - intros fields. vm_compute. reflexivity.
  - reflexivity.
  - exact Hdoc.
Defined.

(** * Serialisers against parsers *)

Import Appliers TerminalApp Importing Session Shapes.

Lemma ascii_cases (P : ascii -> bool) :
  forallb (fun n => P (ascii_of_nat n)) (seq 0 256) = true ->
  forall c, P c = true.
Proof.
  intros H c. rewrite forallb_forall in H.
  rewrite <- (ascii_nat_embedding c). apply H. apply in_seq.
  pose proof (nat_ascii_bounded c). lia.
Qed.

Lemma lowerChar_hex (c : ascii) :
  isHexDigit c = true -> isLowerHexDigit (lowerChar c) = true.
Proof.
  revert c.
  assert (H : forall c, implb (isHexDigit c) (isLowerHexDigit (lowerChar c)) = true)
    by (apply ascii_cases; vm_compute; reflexivity).
  intros c Hc. specialize (H c). rewrite Hc in H. exact H.
Qed.

Lemma toLowerCase_length (s : string) :
  String.length (toLowerCase s) = String.length s.
Proof. induction s; cbn; congruence. Qed.

Lemma toLowerCase_hex (s : string) :
  allChars isHexDigit s = true -> allChars isLowerHexDigit (toLowerCase s) = true.
Proof.
  induction s as [| c r IH]; [reflexivity |]. cbn.
  intros H. apply andb_prop in H as [Hc Hr].
  rewrite (lowerChar_hex c Hc), (IH Hr). reflexivity.
Qed.

Lemma toLowerCase_color (v : string) :
  isValidHexColor v = true -> isLowerHexColor (toLowerCase v) = true.
Proof.
  destruct v as [| c r]; [discriminate |]. unfold isValidHexColor.
  destruct (Ascii.eqb_spec c "#") as [-> | Hne].
  - intros H. apply andb_prop in H as [Hl Hh]. cbn.
    rewrite toLowerCase_length, Hl, (toLowerCase_hex r Hh). reflexivity.
  - intros H. exfalso. destruct c as [[] [] [] [] [] [] [] []]; try discriminate.
    apply Hne. reflexivity.
Qed.

Lemma hex6_valid (t h : string) :
  h = take_string 6 t ->
  (String.length h =? 6)%nat && allChars isHexDigit h = true ->
  isValidHexColor ("#" +:+ h) = true.
Proof. intros _ H. cbn. exact H. Qed.

Lemma matchKittyLine_valid (trimmed key value : string) :
  matchKittyLine trimmed = Some (key, value) -> isValidHexColor value = true.
Proof.
  unfold matchKittyLine.
  destruct (span isWordChar trimmed) as [k r1].
  destruct (span isSpace r1) as [ws r2].
  destruct (isEmpty k || isEmpty ws); [discriminate |].
  destruct r2 as [| c r3]; [discriminate |].
  destruct (Ascii.eqb_spec c "#") as [-> | Hne].
  - destruct ((String.length (take_string 6 r3) =? 6)%nat
              && allChars isHexDigit (take_string 6 r3)) eqn:Hh; [| discriminate].
    intros H. injection H as _ <-. cbn. exact Hh.
  - intros H. exfalso. destruct c as [[] [] [] [] [] [] [] []]; try discriminate.
    apply Hne. reflexivity.
Qed.

Lemma kittyLine_values (m : gmap string string) (line : string) :
  lowerHexValues m -> lowerHexValues (kittyLine m line).
Proof.
  intros Hm. unfold kittyLine.
  destruct (isEmpty (trim line) || startsWith "#" (trim line)); [exact Hm |].
  destruct (matchKittyLine (trim line)) as [[key value] |] eqn:Hmatch;
    [| exact Hm].
  apply map_Forall_insert_2; [| exact Hm].
  apply toLowerCase_color. eapply matchKittyLine_valid. exact Hmatch.
Qed.

Lemma fold_values (step : gmap string string -> string -> gmap string string)
  (lines : list string) (m : gmap string string) :
  (forall m l, lowerHexValues m -> lowerHexValues (step m l)) ->
  lowerHexValues m -> lowerHexValues (fold_left step lines m).
Proof.
  intros Hstep. revert m. induction lines as [| l rest IH]; intros m Hm;
    [exact Hm |]. cbn. apply IH, Hstep, Hm.
Qed.

Lemma kittyMap_values (content : string) : lowerHexValues (kittyMap content).
Proof.
  unfold kittyMap. apply fold_values; [apply kittyLine_values |].
  apply map_Forall_empty.
Qed.

Lemma lowerHexColor_nonempty (v : string) :
  isLowerHexColor v = true -> isEmpty v = false.
Proof. destruct v; [discriminate | reflexivity]. Qed.

Lemma getOr_lowerHex (m : gmap string string) (k d : string) :
  lowerHexValues m -> isLowerHexColor d = true ->
  isLowerHexColor (getOr (m !! k) d) = true.
Proof.
  intros Hm Hd. destruct (m !! k) as [v |] eqn:Hk; [| exact Hd].
  cbn. pose proof (Hm k v Hk) as Hv. cbn in Hv.
  unfold strOr. rewrite (lowerHexColor_nonempty v Hv). exact Hv.
Qed.

(** X4. Whatever the file holds, each of the 22 colours [parseKitty]
    returns is [#] and six lower-case hexadecimal digits: a value taken
    from the file, or the built-in colour of the slot. *)
Lemma kittyColors_lowerHex (content : string) :
  Forall (fun s => isLowerHexColor s = true) (slots (kittyColors content)).
Proof.
  pose proof (kittyMap_values content) as Hm.
  unfold slots, kittyColors; cbn [background foreground cursor
    cursorText selection selectionText ansi black red green yellow blue
    magenta cyan white brightBlack brightRed brightGreen brightYellow
    brightBlue brightMagenta brightCyan brightWhite].
  repeat constructor;
    repeat (apply getOr_lowerHex; [exact Hm |]); reflexivity.
Qed.

Lemma hexDigit_not_special (c : ascii) :
  isHexDigit c = true -> Ascii.eqb "x" c = false /\ Ascii.eqb "#" c = false.
Proof.
  assert (H : forall c, implb (isHexDigit c)
                          (negb (Ascii.eqb "x" c) && negb (Ascii.eqb "#" c)) = true)
    by (apply ascii_cases; vm_compute; reflexivity).
  intros Hc. specialize (H c). rewrite Hc in H. cbn in H.
  apply andb_prop in H as [H1 H2].
  apply negb_true_iff in H1, H2. split; assumption.
Qed.

Lemma matchColorValue_normalised (s v : string) :
  matchColorValue s = Some v -> isLowerHexColor (normalised v) = true.
Proof.
  unfold matchColorValue.
  set (hex6 := fun t : string =>
         let h := take_string 6 t in
         if (String.length h =? 6)%nat && allChars isHexDigit h
         then Some h else None).
  assert (Hhex6 : forall t h, hex6 t = Some h ->
            (String.length h =? 6)%nat && allChars isHexDigit h = true).
  { intros t h. unfold hex6. cbv zeta.
    destruct ((String.length (take_string 6 t) =? 6)%nat
              && allChars isHexDigit (take_string 6 t)) eqn:E; [| discriminate].
    intros H. injection H as <-. exact E. }
  assert (Hsharp : forall h,
            (String.length h =? 6)%nat && allChars isHexDigit h = true ->
            isLowerHexColor (normalised ("#" +:+ h)) = true).
  { intros h Hh. unfold normalised. cbn. apply (toLowerCase_color ("#" +:+ h)).
    cbn. exact Hh. }
  assert (Hplain : forall h,
            (String.length h =? 6)%nat && allChars isHexDigit h = true ->
            isLowerHexColor (normalised h) = true).
  { intros h Hh. pose proof Hh as Hh'. apply andb_prop in Hh' as [Hl Ha].
    destruct h as [| c1 [| c2 r]]; try discriminate.
    cbn in Ha. apply andb_prop in Ha as [H1 Ha].
    apply andb_prop in Ha as [H2 _].
    destruct (hexDigit_not_special c1 H1) as [_ Hs1].
    destruct (hexDigit_not_special c2 H2) as [Hx2 _].
    assert (H0x : startsWith "0x" (String c1 (String c2 r)) = false).
    { cbn [startsWith]. rewrite Hx2. destruct (Ascii.eqb "0" c1); reflexivity. }
    assert (Hsh : startsWith "#" (String c1 (String c2 r)) = false).
    { cbn [startsWith]. rewrite Hs1. reflexivity. }
    unfold normalised. rewrite H0x. cbv zeta. rewrite Hsh.
    cbn [negb]. apply (toLowerCase_color ("#" +:+ String c1 (String c2 r))).
    cbn. exact Hh. }
  assert (Hbranch : forall s0,
    match hex6 s0 with
    | Some h => Some h
    | None =>
        if startsWith "0x" s0
        then match hex6 (drop_string 2 s0) with
             | Some h => Some ("0x" +:+ h)
             | None => None
             end
        else None
    end = Some v -> isLowerHexColor (normalised v) = true).
  { intros s0. destruct (hex6 s0) as [h |] eqn:Hh.
    - intros H. injection H as <-. apply Hplain, (Hhex6 _ _ Hh).
    - destruct (startsWith "0x" s0); [| discriminate].
      destruct (hex6 (drop_string 2 s0)) as [h |] eqn:Hh2; [| discriminate].
      intros H. injection H as <-.
      pose proof (Hhex6 _ _ Hh2) as Hv.
      unfold normalised. cbn.
      apply (toLowerCase_color ("#" +:+ h)). cbn. exact Hv. }
  destruct s as [| c r]; [apply Hbranch |].
  destruct (Ascii.eqb_spec c "#") as [-> | Hne].
  - lazy beta iota. fold (hex6 r).
    destruct (hex6 r) as [h |] eqn:Hh; [| discriminate].
    intros H. injection H as <-. apply Hsharp, (Hhex6 r), Hh.
  - intros H. apply (Hbranch (String c r)). rewrite <- H.
    destruct c as [[] [] [] [] [] [] [] []]; try reflexivity.
    exfalso. apply Hne. reflexivity.
Qed.

Lemma matchAlacrittyLine_normalised (trimmed key value0 : string) :
  matchAlacrittyLine trimmed = Some (key, value0) ->
  isLowerHexColor (normalised value0) = true.
Proof.
  unfold matchAlacrittyLine.
  destruct (span isWordChar trimmed) as [k r1].
  destruct (isEmpty k); [discriminate |].
  destruct r1 as [| c r2]; [discriminate |].
  destruct (Ascii.eqb_spec c ":") as [-> | Hne].
  - destruct (span isSpace r2) as [ws r3].
    destruct (matchColorValue _) as [v |] eqn:Hv; [| discriminate].
    intros H. injection H as _ <-. eapply matchColorValue_normalised, Hv.
  - intros H. exfalso. destruct c as [[] [] [] [] [] [] [] []]; try discriminate.
    apply Hne. reflexivity.
Qed.

Lemma alacrittyLine_values (st : AlacrittyState) (line : string) :
  lowerHexValues (alaColors st) -> lowerHexValues (alaColors (alacrittyLine st line)).
Proof.
  intros Hm. unfold alacrittyLine.
  destruct (isEmpty (trim line) || startsWith "#" (trim line)); [exact Hm |].
  destruct (String.eqb (trim line) "colors:"); [exact Hm |].
  destruct (negb (inColors st)); [exact Hm |].
  destruct (endsWith ":" (trim line) && _ && _); [exact Hm |].
  destruct (matchAlacrittyLine (trim line)) as [[key value0] |] eqn:Hmatch;
    [| exact Hm].
  cbn [alaColors]. apply map_Forall_insert_2; [| exact Hm].
  apply (matchAlacrittyLine_normalised _ _ _ Hmatch).
Qed.

Lemma alacrittyMap_values (content : string) :
  lowerHexValues (alacrittyMap content).
Proof.
  unfold alacrittyMap.
  assert (Hgen : forall lines st, lowerHexValues (alaColors st) ->
            lowerHexValues (alaColors (fold_left alacrittyLine lines st))).
  { induction lines as [| l rest IH]; intros st Hst; [exact Hst |].
    cbn. apply IH, alacrittyLine_values, Hst. }
  apply Hgen. apply map_Forall_empty.
Qed.

(** X5. The same for [parseAlacritty], whichever of the forms [0x...],
    [#...] or bare digits the file uses. *)
Lemma alacrittyColors_lowerHex (content : string) :
  Forall (fun s => isLowerHexColor s = true) (slots (alacrittyColors content)).
Proof.
  pose proof (alacrittyMap_values content) as Hm.
  unfold slots, alacrittyColors; cbn [background foreground cursor
    cursorText selection selectionText ansi black red green yellow blue
    magenta cyan white brightBlack brightRed brightGreen brightYellow
    brightBlue brightMagenta brightCyan brightWhite].
  repeat constructor;
    repeat (apply getOr_lowerHex; [exact Hm |]); reflexivity.
Qed.

(** *** Strings: append, split, trim *)

Lemma append_assoc (a b c : string) : (a +:+ b) +:+ c = a +:+ (b +:+ c).
Proof. induction a as [| x a IH]; cbn; [reflexivity | rewrite IH; reflexivity]. Qed.

Lemma append_empty_r (a : string) : a +:+ EmptyString = a.
Proof. induction a as [| x a IH]; cbn; [reflexivity | rewrite IH; reflexivity]. Qed.

Lemma splitOn_nonempty (sep : ascii) (s : string) : splitOn sep s <> [].
Proof.
  induction s as [| c r IH]; cbn; [discriminate |].
  destruct (Ascii.eqb c sep); [discriminate |].
  destruct (splitOn sep r); [contradiction | discriminate].
Qed.

Lemma splitOn_app (sep : ascii) (a b : string) :
  splitOn sep (a +:+ String sep b) = splitOn sep a ++ splitOn sep b.
Proof.
  induction a as [| c r IH]; cbn.
  - rewrite Ascii.eqb_refl. reflexivity.
  - destruct (Ascii.eqb c sep); [rewrite IH; reflexivity |].
    rewrite IH. pose proof (splitOn_nonempty sep r) as Hne.
    destruct (splitOn sep r) as [| h t]; [contradiction | reflexivity].
Qed.

Lemma splitOn_single (sep : ascii) (s : string) :
  includesChar sep s = false -> splitOn sep s = [s].
Proof.
  induction s as [| c r IH]; cbn; [reflexivity |].
  destruct (Ascii.eqb c sep); [discriminate |].
  intros H. rewrite (IH H). reflexivity.
Qed.

Lemma includesChar_app (c : ascii) (a b : string) :
  includesChar c (a +:+ b) = includesChar c a || includesChar c b.
Proof.
  induction a as [| x a IH]; cbn; [reflexivity |].
  destruct (Ascii.eqb x c); [reflexivity | exact IH].
Qed.

Lemma allChars_excludes (p : ascii -> bool) (c : ascii) (s : string) :
  p c = false -> allChars p s = true -> includesChar c s = false.
Proof.
  intros Hc. induction s as [| x r IH]; cbn; [reflexivity |].
  intros H. apply andb_prop in H as [Hx Hr].
  destruct (Ascii.eqb_spec x c) as [-> | _]; [congruence | exact (IH Hr)].
Qed.

Lemma rev_string_app (a b acc : string) :
  rev_string (a +:+ b) acc = rev_string b (rev_string a acc).
Proof. revert acc. induction a as [| x a IH]; intros acc; cbn; [reflexivity | apply IH]. Qed.

Lemma rev_string_acc (s acc : string) :
  rev_string s acc = rev_string s EmptyString +:+ acc.
Proof.
  revert acc. induction s as [| x s IH]; intros acc; cbn; [reflexivity |].
  rewrite (IH (String x acc)), (IH (String x EmptyString)), append_assoc.
  reflexivity.
Qed.

Lemma rev_string_involutive (s : string) :
  rev_string (rev_string s EmptyString) EmptyString = s.
Proof.
  induction s as [| x s IH]; cbn; [reflexivity |].
  rewrite (rev_string_acc s (String x EmptyString)), rev_string_app.
  cbn. rewrite IH. reflexivity.
Qed.

(** [trim] leaves a string alone when its first and last characters are
    not white space. *)
Lemma trim_id (x y : ascii) (mid : string) :
  isSpace x = false -> isSpace y = false ->
  trim (String x (mid +:+ str1 y)) = String x (mid +:+ str1 y).
Proof.
  intros Hx Hy. unfold trim. cbn [trimStart]. rewrite Hx.
  unfold trimEnd.
  change (String x (mid +:+ str1 y)) with (str1 x +:+ (mid +:+ str1 y)) at 1.
  rewrite <- append_assoc, rev_string_app. cbn [rev_string str1 trimStart].
  rewrite Hy.
  change (String y (rev_string (str1 x +:+ mid) EmptyString))
    with (rev_string (str1 y) (rev_string (str1 x +:+ mid) EmptyString)).
  rewrite <- rev_string_app, rev_string_involutive, append_assoc. reflexivity.
Qed.

Lemma span_app (p : ascii -> bool) (a : string) (x : ascii) (b : string) :
  allChars p a = true -> p x = false ->
  span p (a +:+ String x b) = (a, String x b).
Proof.
  intros Ha Hx. induction a as [| c r IH]; cbn.
  - rewrite Hx. reflexivity.
  - cbn in Ha. apply andb_prop in Ha as [Hc Hr]. rewrite Hc, (IH Hr).
    reflexivity.
Qed.

Lemma joinLines_cons (l l' : string) (ls : list string) :
  joinLines (l :: l' :: ls) = l +:+ String nl (joinLines (l' :: ls)).
Proof. reflexivity. Qed.

Lemma fold_joinLines {A} (f : A -> string -> A) (l l' : string)
  (ls : list string) (m : A) :
  fold_left f (splitOn nl (joinLines (l :: l' :: ls))) m
  = fold_left f (splitOn nl (joinLines (l' :: ls)))
      (fold_left f (splitOn nl l) m).
Proof. rewrite joinLines_cons, splitOn_app, fold_left_app. reflexivity. Qed.

Lemma wordChar_facts (c : ascii) :
  isWordChar c = true ->
  isSpace c = false /\ Ascii.eqb "#" c = false /\ Ascii.eqb c nl = false.
Proof.
  assert (H : forall c, implb (isWordChar c)
                (negb (isSpace c) && negb (Ascii.eqb "#" c)
                 && negb (Ascii.eqb c nl)) = true)
    by (apply ascii_cases; vm_compute; reflexivity).
  intros Hc. specialize (H c). rewrite Hc in H. cbn [implb] in H.
  apply andb_prop in H as [H H3]. apply andb_prop in H as [H1 H2].
  apply negb_true_iff in H1, H2, H3. tauto.
Qed.

Lemma hexDigit_facts (c : ascii) :
  isHexDigit c = true ->
  isSpace c = false /\ Ascii.eqb c nl = false /\ isWordChar c = true.
Proof.
  assert (H : forall c, implb (isHexDigit c)
                (negb (isSpace c) && negb (Ascii.eqb c nl) && isWordChar c) = true)
    by (apply ascii_cases; vm_compute; reflexivity).
  intros Hc. specialize (H c). rewrite Hc in H. cbn [implb] in H.
  apply andb_prop in H as [H H3]. apply andb_prop in H as [H1 H2].
  apply negb_true_iff in H1, H2. tauto.
Qed.

Lemma validHex_inv (c : string) :
  isValidHexColor c = true ->
  exists h1 h2 h3 h4 h5 h6,
    c = String "#" (String h1 (String h2 (String h3 (String h4 (String h5
          (String h6 EmptyString))))))
    /\ isHexDigit h1 = true /\ isHexDigit h2 = true /\ isHexDigit h3 = true
    /\ isHexDigit h4 = true /\ isHexDigit h5 = true /\ isHexDigit h6 = true.
Proof.
  destruct c as [| c0 r]; [discriminate |]. unfold isValidHexColor.
  destruct (Ascii.eqb_spec c0 "#") as [-> | Hne].
  - intros H. apply andb_prop in H as [Hl Hh].
    destruct r as [| h1 [| h2 [| h3 [| h4 [| h5 [| h6 [| h7 r]]]]]]];
      try discriminate.
    cbn in Hh. repeat (apply andb_prop in Hh as [? Hh]).
    exists h1, h2, h3, h4, h5, h6. tauto.
  - intros H. exfalso. destruct c0 as [[] [] [] [] [] [] [] []]; try discriminate.
    apply Hne. reflexivity.
Qed.

(** A line [key value] of a Kitty file, with a word for key and a valid
    colour for value, sets that key to the lower-cased colour. *)
Lemma kitty_entry_line (line : string) (k0 : ascii) (krest c : string)
  (m : gmap string string) :
  line = String k0 krest +:+ String " " c ->
  allChars isWordChar (String k0 krest) = true ->
  isValidHexColor c = true ->
  fold_left kittyLine (splitOn nl line) m
  = <[String k0 krest := toLowerCase c]> m.
Proof.
  intros -> Hkey Hc.
  destruct (validHex_inv c Hc)
    as (h1 & h2 & h3 & h4 & h5 & h6 & -> & H1 & H2 & H3 & H4 & H5 & H6).
  destruct (hexDigit_facts _ H1) as (S1 & N1 & _).
  destruct (hexDigit_facts _ H2) as (S2 & N2 & _).
  destruct (hexDigit_facts _ H3) as (S3 & N3 & _).
  destruct (hexDigit_facts _ H4) as (S4 & N4 & _).
  destruct (hexDigit_facts _ H5) as (S5 & N5 & _).
  destruct (hexDigit_facts _ H6) as (S6 & N6 & _).
  pose proof Hkey as Hkey'. cbn [allChars] in Hkey'.
  apply andb_prop in Hkey' as [Hk0 Hkrest].
  destruct (wordChar_facts _ Hk0) as (Sk0 & Pk0 & Nk0).
  set (key := String k0 krest) in *.
  set (line := key +:+ String " " _).
  assert (Hsingle : splitOn nl line = [line]).
  { apply splitOn_single. unfold line. rewrite includesChar_app.
    rewrite (allChars_excludes isWordChar nl key eq_refl Hkey).
    cbn. rewrite N1, N2, N3, N4, N5, N6. reflexivity. }
  rewrite Hsingle. cbn [fold_left]. unfold kittyLine.
  assert (Htrim : trim line = line).
  { unfold line, key.
    change (String k0 krest +:+ ?t) with (String k0 (krest +:+ t)).
    match goal with
    | |- trim (String k0 (krest +:+ ?t)) = _ =>
        replace (krest +:+ t)
          with ((krest +:+ String " " (String "#" (String h1 (String h2
                  (String h3 (String h4 (String h5 EmptyString)))))))
                +:+ str1 h6)
          by (rewrite append_assoc; reflexivity)
    end.
    apply trim_id; assumption. }
  rewrite Htrim.
  assert (Hhead : isEmpty line || startsWith "#" line = false).
  { unfold line, key. cbn [String.append isEmpty startsWith orb].
    rewrite Pk0. reflexivity. }
  rewrite Hhead.
  assert (Hmatch : matchKittyLine line
                   = Some (key, String "#" (String h1 (String h2 (String h3
                       (String h4 (String h5 (String h6 EmptyString)))))))).
  { unfold matchKittyLine, line.
    rewrite (span_app isWordChar key " " _ Hkey eq_refl).
    change (String " " ?t) with (" " +:+ t).
    rewrite (span_app isSpace " " "#" _ eq_refl eq_refl).
    cbn -[isHexDigit]. rewrite H1, H2, H3, H4, H5, H6. reflexivity. }
  rewrite Hmatch. reflexivity.
Qed.

Lemma kitty_skip_line (line : string) (m : gmap string string) :
  includesChar nl line = false ->
  isEmpty (trim line) || startsWith "#" (trim line) = true ->
  fold_left kittyLine (splitOn nl line) m = m.
Proof.
  intros Hnl Hskip. rewrite (splitOn_single nl line Hnl). cbn [fold_left].
  unfold kittyLine. rewrite Hskip. reflexivity.
Qed.

Lemma validHex_lower_nonempty (c : string) :
  isValidHexColor c = true -> isEmpty (toLowerCase c) = false.
Proof. destruct c; [discriminate | reflexivity]. Qed.

Ltac split_valid H :=
  unfold validColors, slots in H;
  repeat match type of H with
         | Forall _ (_ :: _) =>
             let Hx := fresh "Hv" in apply Forall_cons in H as [Hx H]
         end.

Ltac kitty_lookup :=
  repeat (rewrite lookup_insert_ne by discriminate);
  rewrite lookup_insert_eq; cbn [getOr]; unfold strOr;
  rewrite validHex_lower_nonempty by assumption.

Theorem kitty_write_then_parse (colors : ThemeColors) (themeName : string) :
  validColors colors ->
  kittyColors (kittyTheme colors themeName) = lowerColors colors.
Proof.
  intros Hvalid. split_valid Hvalid.
  assert (Hmap : exists m0,
    kittyMap (kittyTheme colors themeName)
    = <["color15" := toLowerCase (brightWhite (ansi colors))]>
      (<["color14" := toLowerCase (brightCyan (ansi colors))]>
      (<["color13" := toLowerCase (brightMagenta (ansi colors))]>
      (<["color12" := toLowerCase (brightBlue (ansi colors))]>
      (<["color11" := toLowerCase (brightYellow (ansi colors))]>
      (<["color10" := toLowerCase (brightGreen (ansi colors))]>
      (<["color9" := toLowerCase (brightRed (ansi colors))]>
      (<["color8" := toLowerCase (brightBlack (ansi colors))]>
      (<["color7" := toLowerCase (white (ansi colors))]>
      (<["color6" := toLowerCase (cyan (ansi colors))]>
      (<["color5" := toLowerCase (magenta (ansi colors))]>
      (<["color4" := toLowerCase (blue (ansi colors))]>
      (<["color3" := toLowerCase (yellow (ansi colors))]>
      (<["color2" := toLowerCase (green (ansi colors))]>
      (<["color1" := toLowerCase (red (ansi colors))]>
      (<["color0" := toLowerCase (black (ansi colors))]>
      (<["selection_background" := toLowerCase (selection colors)]>
      (<["selection_foreground" := toLowerCase (selectionText colors)]>
      (<["cursor_text_color" := toLowerCase (cursorText colors)]>
      (<["cursor" := toLowerCase (cursor colors)]>
      (<["background" := toLowerCase (background colors)]>
      (<["foreground" := toLowerCase (foreground colors)]> m0)))))))))))))))))))))).
  { unfold kittyMap, kittyTheme. rewrite !fold_joinLines.
    change (joinLines [EmptyString]) with EmptyString.
    eexists.
    repeat first
      [ rewrite (kitty_skip_line EmptyString) by reflexivity
      | rewrite (kitty_skip_line "# Normal colors") by reflexivity
      | rewrite (kitty_skip_line "# Bright colors") by reflexivity
      | match goal with
        | |- context [fold_left kittyLine
                        (splitOn nl (String ?k0 ?kr +:+ ?c)) ?m] => idtac
        end; fail
      ].
    repeat match goal with
    | |- context [fold_left kittyLine (splitOn nl (?k +:+ ?c)) ?m] =>
        lazymatch k with
        | context [" - Generated"] => fail
        | _ =>
          let key := eval vm_compute in (take_string (String.length k - 1) k) in
          lazymatch key with
          | String ?k0 ?kr =>
              rewrite (kitty_entry_line (k +:+ c) k0 kr c m eq_refl eq_refl)
                by assumption
          end
        end
    end.
    reflexivity. }
  destruct Hmap as [m0 Hmap].
  unfold kittyColors, lowerColors. rewrite Hmap.
  repeat kitty_lookup. reflexivity.
Qed.

Lemma digitsSurvive_all (a b : ascii) : digitsSurvive a b = true.
Proof.
  revert b. revert a.
  assert (H : forall a,
             forallb (fun j => digitsSurvive a (ascii_of_nat j)) (seq 0 256)
             = true).
  { apply (ascii_cases (fun a => forallb (fun j => digitsSurvive a (ascii_of_nat j))
                                   (seq 0 256))).
    vm_compute. reflexivity. }
  intros a. apply ascii_cases. apply H.
Qed.

(** What [writeThemeFile] does once its directory is there. *)
Lemma writeThemeFile_run (env : Env) (dir themePath content done : string)
  (w : World) :
  dirAvailable env w dir ->
  writeThemeFile env dir themePath content done w
  = match writeFileSync_error env themePath with
    | None =>
        (Ret (Cli.mkApply true done),
         mkWorld (<[themePath := content]> (files (withDir w dir)))
                 (dirs (withDir w dir))
                 (EvWrite themePath content :: trace (withDir w dir)))
    | Some _ =>
        (Ret (Cli.mkApply false "Failed to write theme file."), withDir w dir)
    end.
Proof.
  intros Hdir. unfold writeThemeFile. rewrite (ensure_dir env w dir _ Hdir).
  unfold tryCatch, bind, writeFileSync.
  destruct (writeFileSync_error env themePath); reflexivity.
Qed.

(** A theme written by [applyToKitty] and read back by [parseKitty]
    from the same path has the colours that were written, in lower case. *)
Theorem kitty_apply_then_import (env : Env) (colors : ThemeColors)
  (themeName : string) (w : World) :
  dirAvailable env w (join (homedir env) ".config/kitty/themes") ->
  writeFileSync_error env (kittyPath env themeName) = None ->
  validColors colors ->
  let p := kittyPath env themeName in
  let w1 := (applyToKitty env colors themeName w).2 in
  (parseKitty p w1).1
  = Ret (parsed (basename p (extname p)) (lowerColors colors)).
Proof.
  intros Hdir Hw Hvalid p w1. subst w1 p. unfold applyToKitty.
  rewrite (writeThemeFile_run _ _ _ _ _ _ Hdir), Hw.
  unfold parseKitty, bind, readFileSync. cbn [snd files].
  rewrite lookup_insert_eq. cbn [fst ret].
  rewrite (kitty_write_then_parse colors themeName Hvalid). reflexivity.
Qed.

Lemma tokyoNight_valid : validColors tokyoNight.
Proof. unfold validColors. vm_compute slots. repeat constructor. Qed.

Lemma kitty_apply_then_import_witness :
  let p := kittyPath psEnv "Tokyo Night" in
  (parseKitty p (applyToKitty psEnv tokyoNight "Tokyo Night" emptyWorld).2).1
  = Ret (parsed (basename p (extname p)) (lowerColors tokyoNight)).
Proof.
  apply (kitty_apply_then_import psEnv tokyoNight "Tokyo Night"
           emptyWorld).
  - right. reflexivity.
  - reflexivity.
  - exact tokyoNight_valid.
Defined.

(** *** iTerm2 profiles *)

Lemma Math_round_byte (n : Z) : Math_round ((n # 255) * 255)%Q = n.
Proof.
  unfold Math_round, Qfloor, Qplus, Qmult. cbn [Qnum Qden].
  symmetry. apply (Z.div_unique_pos _ _ n 255); lia.
Qed.

Lemma byteSurvives_all (n : Z) : 0 <= n <= 255 -> byteSurvives n = true.
Proof.
  intros Hn.
  assert (Hall : forallb (fun k => byteSurvives (Z.of_nat k)) (seq 0 256)
                 = true) by (vm_compute; reflexivity).
  rewrite forallb_forall in Hall. specialize (Hall (Z.to_nat n)).
  cbv beta in Hall. rewrite Z2Nat.id in Hall by lia.
  apply Hall. apply in_seq. lia.
Qed.

(** A channel written from two hexadecimal digits is read back as these
    digits, in lower case. *)
Lemma channel_digits (c : string) (a b : Z) (x y : ascii) :
  slice a b c = String x (String y EmptyString) ->
  isHexDigit x = true -> isHexDigit y = true ->
  hex2N (Math_roundN
           (timesLiteral (numberOr0 (Some (Installer.channel c a b))) 255))
  = String (lowerChar x) (String (lowerChar y) EmptyString).
Proof.
  intros Hs Hx Hy. unfold Installer.channel. rewrite Hs.
  pose proof (digitsSurvive_all x y) as H. unfold digitsSurvive in H.
  rewrite Hx, Hy in H. cbn [andb implb] in H.
  destruct (Installer.parseInt16 (String x (String y EmptyString))) as [n |];
    [| discriminate].
  apply andb_prop in H as [Hr H]. apply andb_prop in Hr as [H0 H255].
  apply String.eqb_eq in H. rewrite Math_round_byte in H.
  pose proof (byteSurvives_all n ltac:(lia)) as Hb. unfold byteSurvives in Hb.
  destruct (Math_roundN _) as [m | |]; try discriminate.
  apply Z.eqb_eq in Hb. subst m. exact H.
Qed.

(** [getColor] on an entry written by [hexToItermColorDict]. *)
Lemma getColor_written (doc : json) (key c : string) :
  prop key doc = Some (Installer.hexToItermColorDict c) ->
  isValidHexColor c = true ->
  getColor doc key = toLowerCase c.
Proof.
  intros Hp Hv.
  destruct (validHex_inv c Hv) as (h1 & h2 & h3 & h4 & h5 & h6 & -> & H1 & H2
                                    & H3 & H4 & H5 & H6).
  unfold getColor. rewrite Hp.
  set (c := String "#" _).
  change (truthy (Installer.hexToItermColorDict c)) with true.
  cbn [negb]. unfold component.
  change (prop "Red Component" (Installer.hexToItermColorDict c))
    with (Some (Installer.channel c 1 3)).
  change (prop "Green Component" (Installer.hexToItermColorDict c))
    with (Some (Installer.channel c 3 5)).
  change (prop "Blue Component" (Installer.hexToItermColorDict c))
    with (Some (Installer.channel c 5 7)).
  cbv zeta.
  rewrite (channel_digits c 1 3 h1 h2 eq_refl H1 H2).
  rewrite (channel_digits c 3 5 h3 h4 eq_refl H3 H4).
  rewrite (channel_digits c 5 7 h5 h6 eq_refl H5 H6).
  reflexivity.
Qed.

Ltac written_slot :=
  match goal with
  | |- context [getColor ?d ?k] =>
      rewrite (getColor_written d k _ eq_refl) by assumption
  end.

(** The colours read from a profile written by [itermProfile]. *)
Lemma componentColors_written (themeName themeId : string)
  (colors : ThemeColors) (profile : json) (rest : list json) :
  validColors colors ->
  prop "Profiles"
    (Installer.itermProfile Installer.hexToItermColorDict themeName themeId
       colors) = Some (JArr (profile :: rest)) ->
  componentColors profile = lowerColors colors.
Proof.
  intros Hvalid Hp. injection Hp as <- _. split_valid Hvalid.
  unfold componentColors.
  repeat written_slot.
  unfold strOr.
  rewrite !validHex_lower_nonempty by assumption.
  reflexivity.
Qed.

(** The profile document read by the profile branch of [parseJson]. *)
Lemma parseJsonProfiles_written (base themeName themeId : string)
  (colors : ThemeColors) (w : World) :
  validColors colors ->
  parseJsonProfiles base
    (Installer.itermProfile Installer.hexToItermColorDict themeName themeId
       colors) w
  = (Ret (mkParsed (JStr (strOr themeName base))
            (colorsToJson (lowerColors colors))), w).
Proof.
  intros Hvalid. unfold parseJsonProfiles.
  set (doc := Installer.itermProfile _ _ _ _).
  assert (Hp : exists profile,
             prop "Profiles" doc = Some (JArr [profile])
             /\ prop "Name" profile = Some (JStr themeName)
             /\ profile <> JNull
             /\ componentColors profile = lowerColors colors).
  { eexists. split; [reflexivity |]. split; [reflexivity |].
    split; [discriminate |].
    apply (componentColors_written themeName themeId colors _ [] Hvalid).
    reflexivity. }
  destruct Hp as (profile & -> & Hname & Hnn & ->).
  rewrite Hname.
  assert (Hor : jsOr (Some (JStr themeName)) (JStr base)
                = JStr (strOr themeName base)).
  { unfold jsOr, strOr, truthy. destruct (isEmpty themeName); reflexivity. }
  rewrite Hor. destruct profile; try reflexivity. congruence.
Qed.

(** [parseJson] on a file holding a written profile. *)
Lemma parseJson_written (env : Env) (path text themeName themeId : string)
  (colors : ThemeColors) (w : World) :
  files w !! path = Some text ->
  JSON_parse env text
  = Some (Installer.itermProfile Installer.hexToItermColorDict themeName
            themeId colors) ->
  validColors colors ->
  (parseJson env path w).1
  = Ret (mkParsed (JStr (strOr themeName (basename path ".json")))
           (colorsToJson (lowerColors colors))).
Proof.
  intros Hfile Hparse Hvalid. unfold parseJson, bind, readFileSync.
  rewrite Hfile. unfold parseJSON. rewrite Hparse. cbn [ret].
  set (doc := Installer.itermProfile _ _ _ _).
  change (prop "colors" doc) with (@None json).
  replace (match doc with JNull => _ | _ => _ end)
    with (parseJsonProfiles (basename path ".json") doc)
    by reflexivity.
  unfold doc. rewrite parseJsonProfiles_written by exact Hvalid. reflexivity.
Qed.

(** The profile [installToIterm2] writes is a theme file of the import
    side: [parseJson] reads from it the theme's name and the colours that
    were installed, in lower case. *)
Theorem iterm2_install_then_import (env : Env) (db : Database)
  (themeId : string) (c : ThemeColors) (w : World) :
  Installer.getThemeColors db themeId = Some c ->
  validColors c ->
  dirAvailable env w (Installer.dynamicProfilesDir env) ->
  writeFileSync_error env (guiProfilePath env db themeId) = None ->
  (let doc := Installer.itermProfile Installer.hexToItermColorDict
                (Installer.getThemeName db themeId) themeId c in
   JSON_parse env (JSON_stringify env 2 doc) = Some doc) ->
  let w1 := (Installer.installToIterm2 env db themeId w).2 in
  (parseJson env (guiProfilePath env db themeId) w1).1
  = Ret (mkParsed (JStr (Installer.getThemeName db themeId))
           (colorsToJson (lowerColors c))).
Proof.
  intros Hc Hvalid Hdir Hw Hjson w1.
  assert (Hname : strOr (Installer.getThemeName db themeId)
                    (basename (guiProfilePath env db themeId) ".json")
                  = Installer.getThemeName db themeId).
  { unfold Installer.getThemeName, strOr.
    destruct (Store.selectName db themeId) as [n |]; [| reflexivity].
    destruct (isEmpty n) eqn:Hn; [reflexivity |]. rewrite Hn. reflexivity. }
  rewrite <- Hname.
  apply (parseJson_written env _
           (JSON_stringify env 2
              (Installer.itermProfile Installer.hexToItermColorDict
                 (Installer.getThemeName db themeId) themeId c))
           _ themeId c); [| exact Hjson | exact Hvalid].
  subst w1. rewrite (gui_install_found env db themeId c w Hc Hdir), Hw.
  destruct (exec_error env _); cbn [snd files]; apply lookup_insert_eq.
Qed.

(** The same for the profile written by the CLI's [applyToIterm2];
    an empty theme name is replaced by the file's base name. *)
Theorem iterm2_apply_then_import (env : Env) (colors : ThemeColors)
  (themeName themeId : string) (w : World) :
  validColors colors ->
  dirAvailable env w (Installer.dynamicProfilesDir env) ->
  writeFileSync_error env (cliProfilePath env themeName) = None ->
  (let doc := Installer.itermProfile Cli.hexToItermColor themeName themeId
                colors in
   JSON_parse env (JSON_stringify env 2 doc) = Some doc) ->
  let p := cliProfilePath env themeName in
  let w1 := (Cli.applyToIterm2 env colors themeName themeId w).2 in
  (parseJson env p w1).1
  = Ret (mkParsed (JStr (strOr themeName (basename p ".json")))
           (colorsToJson (lowerColors colors))).
Proof.
  intros Hvalid Hdir Hw Hjson p w1.
  apply (parseJson_written env _
           (JSON_stringify env 2
              (Installer.itermProfile Cli.hexToItermColor themeName themeId
                 colors))
           _ themeId colors); [| exact Hjson | exact Hvalid].
  subst w1 p. rewrite (cli_apply_run env colors themeName themeId w Hdir), Hw.
  destruct (exec_error env _); cbn [snd files]; apply lookup_insert_eq.
Qed.

Lemma oneRowColors_valid : validColors oneRowColors.
Proof. unfold validColors. vm_compute slots. repeat constructor. Qed.

Lemma iterm2_install_then_import_witness :
  (parseJson guiProfileEnv (guiProfilePath guiProfileEnv oneRowDb "t1")
     (Installer.installToIterm2 guiProfileEnv oneRowDb "t1" emptyWorld).2).1
  = Ret (mkParsed (JStr (Installer.getThemeName oneRowDb "t1"))
           (colorsToJson (lowerColors oneRowColors))).
Proof.
  apply (iterm2_install_then_import guiProfileEnv oneRowDb "t1" oneRowColors
           emptyWorld).
  - reflexivity.
  - exact oneRowColors_valid.
  - right. reflexivity.
  - reflexivity.
  - reflexivity.
Defined.

Lemma iterm2_apply_then_import_witness :
  let p := cliProfilePath cliProfileEnv "Tokyo Night" in
  (parseJson cliProfileEnv p
     (Cli.applyToIterm2 cliProfileEnv tokyoNight "Tokyo Night" "t1"
        emptyWorld).2).1
  = Ret (mkParsed (JStr (strOr "Tokyo Night" (basename p ".json")))
           (colorsToJson (lowerColors tokyoNight))).
Proof.
  apply (iterm2_apply_then_import cliProfileEnv tokyoNight "Tokyo Night" "t1"
           emptyWorld).
  - exact tokyoNight_valid.
  - right. reflexivity.
  - reflexivity.
  - reflexivity.
Defined.

(** *** The property-list parser and its temporary file *)

(** The outer [catch] of [parseItermColors]. *)
Lemma iterm_cleanup (env : Env) (err : Error) (w : World) :
  let temp := tempJsonPath env in
  let handler :=
    bind (existsSync temp)
      (fun found =>
         bind (if found then unlinkSync temp else ret tt)
           (fun _ => @throw ParsedTheme (itermFailure err))) in
  files (handler w).2 = delete temp (files w)
  /\ dirs (handler w).2 = dirs w
  /\ (temp ∉ dirs w -> (handler w).1 = Throw (itermFailure err))
  /\ exists e, (handler w).1 = Throw e.
Proof.
  intros temp handler. subst handler. clearbody temp.
  unfold bind, existsSync, unlinkSync.
  cbn [files dirs trace].
  destruct (files w !! temp) as [t |] eqn:Ht.
  - rewrite bool_decide_eq_true_2 by eauto.
    cbn [orb files dirs trace]. rewrite Ht. cbn.
    split; [reflexivity |]. split; [reflexivity |]. split; [reflexivity |].
    eauto.
  - rewrite bool_decide_eq_false_2 by (intros [? ?]; discriminate).
    cbn [orb files dirs trace]. rewrite (delete_id _ _ Ht).
    destruct (bool_decide (temp ∈ dirs w)) eqn:Hd.
    + cbn [files dirs trace]. rewrite Ht. cbn.
      split; [reflexivity |]. split; [reflexivity |].
      split; [| eauto].
      intros Hn. apply bool_decide_eq_true_1 in Hd. contradiction.
    + cbn. split; [reflexivity |]. split; [reflexivity |].
      split; [reflexivity |]. eauto.
Qed.

Lemma parseItermColors_split (env : Env) (filePath : string) (w : World) :
  exists (body : M ParsedTheme),
    parseItermColors env filePath w
    = tryCatch body
        (fun err =>
           bind (existsSync (tempJsonPath env))
             (fun found =>
                bind (if found then unlinkSync (tempJsonPath env) else ret tt)
                  (fun _ => throw (itermFailure err)))) w
    /\ bodyLeaves (tempJsonPath env) w (body w)
    /\ forall t, (body w).1 = Ret t <-> converts env filePath w t.
Proof.
  unfold parseItermColors. fold (tempJsonPath env).
  generalize (tempJsonPath env) as temp. intros temp.
  eexists. split; [reflexivity |].
  unfold bodyLeaves, converts, bind, tryCatch, existsSync, readFileSync,
    plutil, parseJSON, unlinkSync, throw, ret.
  cbn [files dirs trace].
  destruct (files w !! filePath) as [content |] eqn:Hf.
  2:{ destruct (bool_decide (is_Some (@None string)) || _);
      cbn [negb files dirs trace]; rewrite ?Hf; cbn;
      (split; [split; reflexivity |]); intros t;
      (split; [discriminate | intros (? & ? & ? & [=] & _)]). }
  rewrite bool_decide_eq_true_2 by eauto. cbn [orb negb files dirs trace].
  rewrite Hf. cbn [files dirs trace]. rewrite ?Hf.
  destruct (plutil_convert env content) as [text |] eqn:Hc.
  2:{ cbn. split; [split; reflexivity |]. intros t.
      split; [discriminate |].
      intros (? & ? & ? & [= <-] & Hc' & _). congruence. }
  cbn [files dirs trace]. rewrite lookup_insert_eq.
  destruct (JSON_parse env text) as [plist |] eqn:Hj.
  2:{ cbn [fst snd files dirs]. split; [split; [reflexivity |] |].
      - apply delete_insert_eq.
      - intros t. split; [discriminate |].
        intros (? & ? & ? & [= <-] & Hc' & Hj' & _). congruence. }
  cbn [files dirs trace]. rewrite lookup_insert_eq.
  assert (Hgone : delete temp (<[temp := text]> (files w))
                  = delete temp (files w)) by apply delete_insert_eq.
  destruct plist; cbn [fst snd files dirs]; rewrite ?Hgone;
    (split; [split; [reflexivity |]; rewrite ?delete_delete_eq;
             reflexivity |]);
    intros t; split;
    try discriminate;
    try (intros [= <-]; eexists _, _, _; repeat split; eauto; discriminate);
    intros (c1 & t1 & p1 & [= <-] & Hc' & Hj' & Hnn & ->);
    rewrite Hc in Hc'; injection Hc' as <-;
    rewrite Hj in Hj'; injection Hj' as <-;
    try reflexivity; congruence.
Qed.

(** X6. For a path the shell hands to [plutil] as it is written (no
    dollar sign, backquote, backslash or double quote in it), whatever
    the file holds and whatever goes wrong, [parseItermColors] leaves no
    temporary file behind and changes no other file and no directory. *)
Theorem parseItermColors_cleans_up (env : Env) (filePath : string)
  (w : World) :
  shellSafe filePath = true ->
  files (parseItermColors env filePath w).2
  = delete (tempJsonPath env) (files w)
  /\ dirs (parseItermColors env filePath w).2 = dirs w.
Proof.
  intros _.
  destruct (parseItermColors_split env filePath w) as (body & -> & (Hd & Hf) & _).
  unfold tryCatch.
  destruct (body w) as [[a | e] w1]; cbn [fst snd] in *.
  - split; assumption.
  - destruct (iterm_cleanup env e w1) as (Hfiles & Hdirs & _).
    cbv zeta in Hfiles, Hdirs. rewrite Hfiles, Hdirs. split; assumption.
Qed.

Lemma parseItermColors_cleans_up_witness :
  files (parseItermColors (envWith "{}" lightDoc) "light.itermcolors"
           lightWorld).2
  = delete (tempJsonPath (envWith "{}" lightDoc)) (files lightWorld)
  /\ dirs (parseItermColors (envWith "{}" lightDoc) "light.itermcolors"
             lightWorld).2
     = dirs lightWorld.
Proof.
  apply (parseItermColors_cleans_up (envWith "{}" lightDoc)
           "light.itermcolors" lightWorld).
  reflexivity.
Defined.

(** X7. Every error that leaves [parseItermColors] is a plain [Error] whose
    message starts with the parser's own prefix, provided the temporary
    path is not a directory. *)
Theorem parseItermColors_errors (env : Env) (filePath : string) (w : World)
  (e : Error) :
  tempJsonPath env ∉ dirs w ->
  (parseItermColors env filePath w).1 = Throw e ->
  ename e = "Error"
  /\ startsWith "Failed to parse iTerm colors file: " (emessage e) = true.
Proof.
  intros Hn.
  destruct (parseItermColors_split env filePath w) as (body & -> & (Hd & _) & _).
  unfold tryCatch.
  destruct (body w) as [[a | err] w1]; cbn [fst snd] in *; [discriminate |].
  destruct (iterm_cleanup env err w1) as (_ & _ & Hthrow & _).
  cbv zeta in Hthrow. rewrite Hthrow by (rewrite Hd; exact Hn).
  intros [= <-]. split; reflexivity.
Qed.

Lemma parseItermColors_errors_witness :
  ename (itermFailure (plainError "File not found: missing.itermcolors"))
  = "Error"
  /\ startsWith "Failed to parse iTerm colors file: "
       (emessage
          (itermFailure (plainError "File not found: missing.itermcolors")))
     = true.
Proof.
  apply (parseItermColors_errors psEnv "missing.itermcolors" emptyWorld).
  - apply not_elem_of_empty.
  - reflexivity.
Defined.



(** *** Comments in the settings of Windows Terminal *)

Lemma append_nonempty (a : string) (c : ascii) (b : string) :
  a +:+ String c b <> EmptyString.
Proof. destruct a; discriminate. Qed.

Lemma stripLineComments_step (c : ascii) (s : string) :
  Ascii.eqb c "/" = false -> s <> EmptyString ->
  Cli.stripLineComments false (String c s)
  = String c (Cli.stripLineComments false s).
Proof.
  intros Hc Hs. destruct s as [| d r]; [congruence |].
  simpl. rewrite Hc. reflexivity.
Qed.

Lemma stripBlockComments_step (c : ascii) (s : string) :
  Ascii.eqb c "/" = false -> s <> EmptyString ->
  Cli.stripBlockComments false (String c s)
  = String c (Cli.stripBlockComments false s).
Proof.
  intros Hc Hs. destruct s as [| d r]; [congruence |].
  simpl. rewrite Hc. reflexivity.
Qed.

Lemma stripLineComments_plain (a rest : string) :
  includesChar "/" a = false ->
  Cli.stripLineComments false (a +:+ String nl rest)
  = a +:+ String nl (Cli.stripLineComments false rest).
Proof.
  induction a as [| c a IH]; intros Ha.
  - cbn [String.append]. destruct rest as [| d r]; [reflexivity |].
    apply stripLineComments_step; [reflexivity | discriminate].
  - cbn [includesChar] in Ha.
    destruct (Ascii.eqb c "/") eqn:Hc; [discriminate |].
    cbn [String.append].
    rewrite stripLineComments_step, IH;
      [reflexivity | exact Ha | exact Hc | apply append_nonempty].
Qed.

Lemma stripLineComments_comment (b rest : string) :
  oneLine b = true ->
  Cli.stripLineComments true (b +:+ String nl rest)
  = String nl (Cli.stripLineComments false rest).
Proof.
  induction b as [| c b IH]; intros Hb.
  - reflexivity.
  - cbn [oneLine allChars] in Hb. apply andb_prop in Hb as [Hc Hb].
    apply negb_true_iff in Hc.
    cbn [String.append Cli.stripLineComments]. rewrite Hc.
    apply IH. exact Hb.
Qed.

Lemma stripLineComments_cut (a b rest : string) :
  includesChar "/" a = false ->
  oneLine b = true ->
  Cli.stripLineComments false
    (a +:+ String "/" (String "/" (b +:+ String nl rest)))
  = a +:+ String nl (Cli.stripLineComments false rest).
Proof.
  intros Ha Hb. induction a as [| c a IH].
  - cbn [Cli.stripLineComments String.append].
    change (Ascii.eqb "/" "/") with true. cbn [andb].
    apply stripLineComments_comment. exact Hb.
  - cbn [includesChar] in Ha.
    destruct (Ascii.eqb c "/") eqn:Hc; [discriminate |].
    cbn [String.append].
    rewrite stripLineComments_step, IH;
      [reflexivity | exact Ha | exact Hc | apply append_nonempty].
Qed.

Lemma stripBlockComments_plain (a rest : string) :
  includesChar "/" a = false ->
  Cli.stripBlockComments false (a +:+ String nl rest)
  = a +:+ String nl (Cli.stripBlockComments false rest).
Proof.
  induction a as [| c a IH]; intros Ha.
  - cbn [String.append]. destruct rest as [| d r]; [reflexivity |].
    apply stripBlockComments_step; [reflexivity | discriminate].
  - cbn [includesChar] in Ha.
    destruct (Ascii.eqb c "/") eqn:Hc; [discriminate |].
    cbn [String.append].
    rewrite stripBlockComments_step, IH;
      [reflexivity | exact Ha | exact Hc | apply append_nonempty].
Qed.

Lemma stripLineComments_id (s : string) :
  includesChar "/" s = false -> Cli.stripLineComments false s = s.
Proof.
  induction s as [| c s IH]; intros Hs; [reflexivity |].
  cbn [includesChar] in Hs.
  destruct (Ascii.eqb c "/") eqn:Hc; [discriminate |].
  destruct s as [| d r]; [reflexivity |].
  rewrite stripLineComments_step, IH;
    [reflexivity | exact Hs | exact Hc | discriminate].
Qed.

Lemma stripBlockComments_id (s : string) :
  includesChar "/" s = false -> Cli.stripBlockComments false s = s.
Proof.
  induction s as [| c s IH]; intros Hs; [reflexivity |].
  cbn [includesChar] in Hs.
  destruct (Ascii.eqb c "/") eqn:Hc; [discriminate |].
  destruct s as [| d r]; [reflexivity |].
  rewrite stripBlockComments_step, IH;
    [reflexivity | exact Hs | exact Hc | discriminate].
Qed.

(** X9. The comment removal of [applyToWindowsTerminal] leaves a text
    without [/] as it is, and cuts a line at its first [//] wherever that
    stands, also inside a string value such as a URL. *)
Theorem stripComments_lines (a b rest : string) :
  includesChar "/" a = false ->
  oneLine b = true ->
  Cli.stripComments a = a
  /\ Cli.stripComments (a +:+ "//" +:+ b +:+ String nl rest)
     = a +:+ String nl (Cli.stripComments rest).
Proof.
  intros Ha Hb. unfold Cli.stripComments. split.
  - rewrite stripLineComments_id, stripBlockComments_id by exact Ha.
    reflexivity.
  - change ("//" +:+ b +:+ String nl rest)
      with (String "/" (String "/" (b +:+ String nl rest))).
    rewrite stripLineComments_cut by assumption.
    apply stripBlockComments_plain. exact Ha.
Qed.

Lemma stripComments_lines_witness :
  Cli.stripComments "{ schema: https:" = "{ schema: https:"
  /\ Cli.stripComments
       ("{ schema: https:" +:+ "//" +:+ "aka.ms/terminal-profiles-schema,"
        +:+ String nl "}")
     = "{ schema: https:" +:+ String nl (Cli.stripComments "}").
Proof.
  apply (stripComments_lines "{ schema: https:"
           "aka.ms/terminal-profiles-schema," "}"); reflexivity.
Defined.

Lemma updateSettings_default (colors : ThemeColors) (themeName : string)
  (w : World) :
  Cli.updateSettings colors themeName Cli.defaultSettings w
  = (Ret (freshSettings colors themeName), w).
Proof. reflexivity. Qed.

(** X10. When the settings file cannot be parsed once its comments are
    removed, [applyToWindowsTerminal] starts from the built-in settings:
    it reports success and replaces the file by a document that holds the
    new scheme and nothing of the previous content. *)
Theorem windows_terminal_starts_fresh (env : Env) (colors : ThemeColors)
  (themeName : string) (w : World) (path content : string) :
  settingsFile env w = Some path ->
  files w !! path = Some content ->
  writeFileSync_error env path = None ->
  JSON_parse env (Cli.stripComments content) = None ->
  exists r w',
    Cli.applyToWindowsTerminal env colors themeName w = (Ret r, w')
    /\ Cli.success r = true
    /\ files w'
       = <[path := JSON_stringify env 4 (freshSettings colors themeName)]>
           (files w)
    /\ dirs w' = dirs w.
Proof.
  intros Hpath Hfile Hwrite Hparse.
  destruct (applyToWindowsTerminal_run env colors themeName w path content
              Hpath Hfile Hwrite) as (r & w' & Hrun & Hdirs & Hres).
  unfold settingsOf in Hres. rewrite Hparse, updateSettings_default in Hres.
  cbn [fst] in Hres. destruct Hres as [Hs Hf].
  exists r, w'. repeat split; assumption.
Qed.

Lemma windows_terminal_starts_fresh_witness :
  exists r w',
    Cli.applyToWindowsTerminal wtEnv tokyoNight "Tokyo Night" urlWorld
    = (Ret r, w')
    /\ Cli.success r = true
    /\ files w'
       = <[wtFile := JSON_stringify wtEnv 4
                       (freshSettings tokyoNight "Tokyo Night")]>
           (files urlWorld)
    /\ dirs w' = dirs urlWorld.
Proof.
  apply (windows_terminal_starts_fresh wtEnv tokyoNight "Tokyo Night" urlWorld
           wtFile "{ schema: https://aka.ms/terminal-profiles-schema }").
  - vm_compute. reflexivity.
  - reflexivity.
  - reflexivity.
  - reflexivity.
Defined.

Lemma length_append (a b : string) :
  String.length (a +:+ b) = (String.length a + String.length b)%nat.
Proof. induction a as [| c a IH]; cbn; [reflexivity | rewrite IH; reflexivity]. Qed.

Lemma join_join (a b c : string) :
  b <> EmptyString ->
  join (join a b) c = join a (b +:+ str1 slash +:+ c).
Proof.
  intros Hb. unfold join. destruct a as [| x a]; cbn [isEmpty].
  - destruct b; [congruence | reflexivity].
  - cbn [String.append isEmpty]. rewrite append_assoc. reflexivity.
Qed.

Lemma join_longer (a b : string) :
  b <> EmptyString -> join a b <> a.
Proof.
  intros Hb Heq. unfold join in Heq. destruct a as [| x a]; cbn [isEmpty] in Heq.
  - congruence.
  - apply (f_equal String.length) in Heq. rewrite !length_append in Heq.
    cbn in Heq. lia.
Qed.

Lemma present_withDir (w : World) (dir p : string) :
  p <> dir -> present (withDir w dir) p = present w p.
Proof.
  intros Hne. unfold withDir, present.
  destruct (bool_decide (is_Some (files w !! dir)) || bool_decide (dir ∈ dirs w));
    cbn [files dirs]; [reflexivity |].
  f_equal. apply bool_decide_ext.
  rewrite elem_of_union, elem_of_singleton. tauto.
Qed.

Lemma present_same_files (w w' : World) (p : string) :
  files w' = files w -> dirs w' = dirs w -> present w' p = present w p.
Proof. intros Hf Hd. unfold present. rewrite Hf, Hd. reflexivity. Qed.

(** X11. When neither settings file exists, [applyToWindowsTerminal]
    creates the directory of the preview version when it is missing and
    writes there a document that holds only the new scheme. *)
Theorem windows_terminal_first_install (env : Env) (colors : ThemeColors)
  (themeName : string) (w : World) :
  settingsFile env w = None ->
  dirAvailable env w (previewDir env) ->
  writeFileSync_error env (previewSettings env) = None ->
  exists r w',
    Cli.applyToWindowsTerminal env colors themeName w = (Ret r, w')
    /\ Cli.success r = true
    /\ files w'
       = <[previewSettings env
             := JSON_stringify env 4 (freshSettings colors themeName)]>
           (files w)
    /\ dirs w' = dirs (withDir w (previewDir env)).
Proof.
  intros Hnone Hdir Hwrite.
  assert (Habsent : present w (previewSettings env) = false).
  { unfold settingsFile, Cli.wtPaths in Hnone. cbn [List.find] in Hnone.
    destruct (present w (join (Cli.localAppData env) _)); [discriminate |].
    unfold previewSettings, previewDir. rewrite join_join by discriminate.
    change ("Microsoft/Windows Terminal" +:+ str1 slash +:+ "settings.json")
      with "Microsoft/Windows Terminal/settings.json".
    destruct (present w _); [discriminate | reflexivity]. }
  unfold Cli.applyToWindowsTerminal, Cli.wtSettingsPath.
  destruct (findExisting_run (Cli.wtPaths env) w) as (w1 & Hrun & Hf1 & Hd1).
  fold (settingsFile env w) in Hrun. rewrite Hnone in Hrun.
  fold (previewDir env). fold (previewSettings env).
  assert (Hdir1 : dirAvailable env w1 (previewDir env)).
  { destruct Hdir as [Hp | Hm]; [left | right; exact Hm].
    rewrite (present_same_files w w1) by assumption. exact Hp. }
  unfold bind at 1. unfold bind at 1. rewrite Hrun.
  rewrite (ensure_dir env w1 (previewDir env) _ Hdir1).
  set (w2 := withDir w1 (previewDir env)).
  assert (Hp2 : present w2 (previewSettings env) = false).
  { unfold w2. rewrite present_withDir
      by (apply join_longer; discriminate).
    rewrite (present_same_files w w1) by assumption. exact Habsent. }
  unfold ret at 1. unfold Cli.readSettings. unfold tryCatch, bind, existsSync.
  fold (present w2 (previewSettings env)). rewrite Hp2.
  unfold bind, ret. rewrite updateSettings_default.
  unfold writeFileSync. rewrite Hwrite.
  eexists _, _. split; [reflexivity |]. cbn [Cli.success files dirs].
  split; [reflexivity |].
  assert (Hw2 : files w2 = files w /\ dirs w2 = dirs (withDir w (previewDir env))).
  { unfold w2, withDir. rewrite (present_same_files w w1) by assumption.
    destruct (present w (previewDir env)); cbn [files dirs];
      rewrite Hf1, Hd1; split; reflexivity. }
  destruct Hw2 as [-> ->]. split; reflexivity.
Qed.

Lemma windows_terminal_first_install_witness :
  exists r w',
    Cli.applyToWindowsTerminal wtEnv tokyoNight "Tokyo Night" emptyWorld
    = (Ret r, w')
    /\ Cli.success r = true
    /\ files w'
       = <[previewSettings wtEnv
             := JSON_stringify wtEnv 4 (freshSettings tokyoNight "Tokyo Night")]>
           (files emptyWorld)
    /\ dirs w' = dirs (withDir emptyWorld (previewDir wtEnv)).
Proof.
  apply (windows_terminal_first_install wtEnv tokyoNight "Tokyo Night"
           emptyWorld).
  - vm_compute. reflexivity.
  - right. reflexivity.
  - reflexivity.
Defined.

(** *** The appliers that write a theme file *)

Lemma writeFile_writesOnly (env : Env) (w : World)
  (dir path content done failed : string) :
  writesOnly env w
    (dir, path, content,
     bind (existsSync dir)
       (fun found =>
          bind (if negb found then mkdirSync env dir else ret tt)
            (fun _ =>
               tryCatch
                 (bind (writeFileSync env path content)
                    (fun _ => ret (Cli.mkApply true done)))
                 (fun _ => ret (Cli.mkApply false failed))))).
Proof.
  unfold writesOnly, noExecSince, bind, tryCatch, existsSync, mkdirSync,
    writeFileSync, ret.
  fold (present w dir). destruct (present w dir) eqn:Hp; cbn [negb].
  - cbn [files dirs trace].
    destruct (writeFileSync_error env path) as [msg |] eqn:Hw; cbn.
    + split; [exists [EvExists dir]; split; reflexivity |].
      split; [eauto | reflexivity].
    + split; [exists [EvWrite path content; EvExists dir]; split; reflexivity |].
      split; reflexivity.
  - cbn [files dirs trace].
    destruct (mkdirSync_error env dir) as [msg |] eqn:Hm.
    + cbn. split; [exists [EvExists dir]; split; reflexivity |].
      repeat split.
    + cbn [files dirs trace].
      destruct (writeFileSync_error env path) as [msg |] eqn:Hw; cbn.
      * split; [exists [EvMkdir dir; EvExists dir]; split; reflexivity |].
        split; [eauto | reflexivity].
      * split; [exists [EvWrite path content; EvMkdir dir; EvExists dir];
                split; reflexivity |].
        split; reflexivity.
Qed.

(** X12. The appliers of Warp, Alacritty, Kitty and Konsole start no
    process; they report success exactly when they wrote their theme
    file, report a failed write without having changed a file, and throw
    only when the missing theme directory cannot be created. *)
Theorem theme_file_appliers (env : Env) (pf : Platform)
  (colors : ThemeColors) (themeName : string) (w : World) :
  Forall (writesOnly env w) (themeFileAppliers env pf colors themeName).
Proof.
  unfold themeFileAppliers.
  pose proof (writeFile_writesOnly env w) as H.
  apply Forall_cons; split; [apply H |].
  apply Forall_cons; split; [apply H |].
  apply Forall_cons; split; [apply H |].
  apply Forall_cons; split; [apply H |].
  apply Forall_nil_2.
Qed.

(** *** GNOME Terminal *)



(** *** The unified apply function *)

(** X14. [applyTheme] refuses without any effect: a theme without colour
    rows is [Theme not found] whatever the terminal, and a terminal that
    is none of the nine [case] labels is [Unsupported terminal]. *)
Theorem applyTheme_refusals (env : Env) (pf : Platform) (db : Database)
  (themeId themeName terminal : string) (w : World) :
  (selectColors db themeId = [] ->
   applyTheme env pf db themeId themeName terminal w
   = (Ret (Cli.mkApply false "Theme not found"), w))
  /\ (selectColors db themeId <> [] ->
      terminal ∉ supportedTerminals ->
      applyTheme env pf db themeId themeName terminal w
      = (Ret (Cli.mkApply false "Unsupported terminal"), w)).
Proof.
  unfold applyTheme, Cli.getFullThemeColors. split.
  - intros ->. reflexivity.
  - intros Hrows Hterm.
    destruct (selectColors db themeId) as [| row rows]; [congruence |].
    cbn [List.length Nat.eqb].
    unfold supportedTerminals in Hterm.
    rewrite !not_elem_of_cons in Hterm.
    destruct Hterm as (H1 & H2 & H3 & H4 & H5 & H6 & H7 & H8 & H9 & _).
    apply String.eqb_neq in H1, H2, H3, H4, H5, H6, H7, H8, H9.
    rewrite H1, H2, H3, H4, H5, H6, H7, H8, H9. reflexivity.
Qed.

Lemma applyTheme_refusals_witness :
  applyTheme psEnv linuxPlatform oneRowDb "t1" "Tokyo Night" "hyper" emptyWorld
  = (Ret (Cli.mkApply false "Unsupported terminal"), emptyWorld).
Proof.
  apply (applyTheme_refusals psEnv linuxPlatform oneRowDb "t1" "Tokyo Night"
           "hyper" emptyWorld).
  - discriminate.
  - unfold supportedTerminals. rewrite !not_elem_of_cons.
    repeat split; try discriminate. apply not_elem_of_nil.
Defined.

(** *** File names made from theme names *)

Lemma slugChar_lower (c : ascii) :
  implb (Installer.isSlugChar c) (Ascii.eqb (lowerChar c) c) = true.
Proof.
  revert c. apply ascii_cases. vm_compute. reflexivity.
Qed.

Lemma lowerChar_idempotent (c : ascii) :
  Ascii.eqb (lowerChar (lowerChar c)) (lowerChar c) = true.
Proof.
  revert c. apply ascii_cases. vm_compute. reflexivity.
Qed.

Lemma toLowerCase_idempotent (s : string) :
  toLowerCase (toLowerCase s) = toLowerCase s.
Proof.
  induction s as [| c s IH]; [reflexivity |]. cbn [toLowerCase].
  rewrite IH. f_equal. apply Ascii.eqb_eq, lowerChar_idempotent.
Qed.

Lemma dashRuns_charset (b : bool) (s : string) :
  allChars (isSlugOr "-") (Installer.dashRuns b s) = true.
Proof.
  revert b. induction s as [| c s IH]; intros b; [reflexivity |].
  cbn [Installer.dashRuns].
  destruct (Installer.isSlugChar c) eqn:Hc.
  - cbn [allChars]. unfold isSlugOr at 1. rewrite Hc. apply IH.
  - destruct b; [apply IH |]. cbn [allChars]. rewrite IH. reflexivity.
Qed.

Lemma underscoreRuns_charset (b : bool) (s : string) :
  allChars (isSlugOr "_") (underscoreRuns b s) = true.
Proof.
  revert b. induction s as [| c s IH]; intros b; [reflexivity |].
  cbn [underscoreRuns].
  destruct (Installer.isSlugChar c) eqn:Hc.
  - cbn [allChars]. unfold isSlugOr at 1. rewrite Hc. apply IH.
  - destruct b; [apply IH |]. cbn [allChars]. rewrite IH. reflexivity.
Qed.

Lemma dashRuns_again (s : string) :
  (forall b, Installer.dashRuns false (Installer.dashRuns b s)
             = Installer.dashRuns b s)
  /\ Installer.dashRuns true (Installer.dashRuns true s)
     = Installer.dashRuns true s.
Proof.
  induction s as [| c s [IH1 IH2]]; [split; [intros [] |]; reflexivity |].
  split.
  - intros b. cbn [Installer.dashRuns].
    destruct (Installer.isSlugChar c) eqn:Hc.
    + cbn [Installer.dashRuns]. rewrite Hc, IH1. reflexivity.
    + destruct b; [apply IH1 |].
      cbn [Installer.dashRuns]. change (Installer.isSlugChar "-") with false.
      cbn iota. rewrite IH2. reflexivity.
  - cbn [Installer.dashRuns].
    destruct (Installer.isSlugChar c) eqn:Hc.
    + cbn [Installer.dashRuns]. rewrite Hc, IH1. reflexivity.
    + apply IH2.
Qed.

Lemma underscoreRuns_again (s : string) :
  (forall b, underscoreRuns false (underscoreRuns b s) = underscoreRuns b s)
  /\ underscoreRuns true (underscoreRuns true s) = underscoreRuns true s.
Proof.
  induction s as [| c s [IH1 IH2]]; [split; [intros [] |]; reflexivity |].
  split.
  - intros b. cbn [underscoreRuns].
    destruct (Installer.isSlugChar c) eqn:Hc.
    + cbn [underscoreRuns]. rewrite Hc, IH1. reflexivity.
    + destruct b; [apply IH1 |].
      cbn [underscoreRuns]. change (Installer.isSlugChar "_") with false.
      cbn iota. rewrite IH2. reflexivity.
  - cbn [underscoreRuns].
    destruct (Installer.isSlugChar c) eqn:Hc.
    + cbn [underscoreRuns]. rewrite Hc, IH1. reflexivity.
    + apply IH2.
Qed.

Lemma toLowerCase_slug (sep : ascii) (s : string) :
  lowerChar sep = sep ->
  allChars (isSlugOr sep) s = true -> toLowerCase s = s.
Proof.
  intros Hsep. induction s as [| c s IH]; [reflexivity |].
  cbn [allChars toLowerCase]. intros H. apply andb_prop in H as [Hc Hs].
  rewrite IH by exact Hs. f_equal.
  unfold isSlugOr in Hc. apply orb_prop in Hc as [Hc | Hc].
  - pose proof (slugChar_lower c) as Hl. rewrite Hc in Hl.
    apply Ascii.eqb_eq. exact Hl.
  - apply Ascii.eqb_eq in Hc. subst c. exact Hsep.
Qed.

Lemma slug_excludes (sep x : ascii) (s : string) :
  isSlugOr sep x = false ->
  allChars (isSlugOr sep) s = true -> includesChar x s = false.
Proof.
  intros Hx. induction s as [| c s IH]; [reflexivity |].
  cbn [allChars includesChar]. intros H. apply andb_prop in H as [Hc Hs].
  destruct (Ascii.eqb_spec c x) as [-> | _]; [congruence | apply IH, Hs].
Qed.

(** X15. The file name [installToIterm2], [applyToIterm2] and
    [applyToGnomeTerminal] make from a theme name consists of [a-z0-9-]
    only, so it holds no path separator and no dot; names that differ in
    letter case only give the same file name; and a name that is already
    such a file name is kept. *)
Theorem slugOf_file_name (themeName : string) :
  allChars (isSlugOr "-") (Installer.slugOf themeName) = true
  /\ includesChar "/" (Installer.slugOf themeName) = false
  /\ includesChar "." (Installer.slugOf themeName) = false
  /\ Installer.slugOf (toLowerCase themeName) = Installer.slugOf themeName
  /\ Installer.slugOf (Installer.slugOf themeName) = Installer.slugOf themeName.
Proof.
  pose proof (dashRuns_charset false (toLowerCase themeName)) as Hc.
  fold (Installer.slugOf themeName) in Hc.
  split; [exact Hc |].
  split; [apply (slug_excludes "-"); [reflexivity | exact Hc] |].
  split; [apply (slug_excludes "-"); [reflexivity | exact Hc] |].
  split.
  - unfold Installer.slugOf. rewrite toLowerCase_idempotent. reflexivity.
  - unfold Installer.slugOf at 1.
    rewrite (toLowerCase_slug "-" _ eq_refl Hc).
    apply (proj1 (dashRuns_again _)).
Qed.

(** X16. The same for the file name with underscores that [applyToWarp],
    [applyToAlacritty], [applyToKitty] and [applyToKonsole] use. *)
Theorem slugUnderscore_file_name (themeName : string) :
  allChars (isSlugOr "_") (slugUnderscore themeName) = true
  /\ includesChar "/" (slugUnderscore themeName) = false
  /\ includesChar "." (slugUnderscore themeName) = false
  /\ slugUnderscore (toLowerCase themeName) = slugUnderscore themeName
  /\ slugUnderscore (slugUnderscore themeName) = slugUnderscore themeName.
Proof.
  pose proof (underscoreRuns_charset false (toLowerCase themeName)) as Hc.
  fold (slugUnderscore themeName) in Hc.
  split; [exact Hc |].
  split; [apply (slug_excludes "_"); [reflexivity | exact Hc] |].
  split; [apply (slug_excludes "_"); [reflexivity | exact Hc] |].
  split.
  - unfold slugUnderscore. rewrite toLowerCase_idempotent. reflexivity.
  - unfold slugUnderscore at 1.
    rewrite (toLowerCase_slug "_" _ eq_refl Hc).
    apply (proj1 (underscoreRuns_again _)).
Qed.

(** *** Unique slugs and names for imported themes *)

Lemma toString10_inj (a b : Z) : toString10 a = toString10 b -> a = b.
Proof.
  unfold toString10. intros H.
  assert (Hn : forall z, Z.to_int z <> Decimal.Pos Decimal.Nil
                         /\ Z.to_int z <> Decimal.Neg Decimal.Nil).
  { intros z. split; intros Hz; pose proof (f_equal Z.of_int Hz) as Hz';
      rewrite DecimalZ.of_to in Hz'; cbn in Hz'; subst z; discriminate Hz. }
  apply (f_equal DecimalString.NilZero.int_of_string) in H.
  rewrite !DecimalString.NilZero.isi in H by apply Hn.
  injection H as H. apply DecimalZ.to_int_inj. exact H.
Qed.

Lemma append_inj_l (p a b : string) : p +:+ a = p +:+ b -> a = b.
Proof.
  induction p as [| c p IH]; cbn [String.append]; [tauto |].
  intros [= H]. apply IH, H.
Qed.

Lemma whileTaken_find (count : string -> nat) (next : Z -> string)
  (cur : string) (fuel k : nat) :
  whileTaken fuel count next (candidate next cur k) (Z.of_nat k + 1)
  = option_map (candidate next cur)
      (List.find (fun i => (count (candidate next cur i) =? 0)%nat)
         (seq k fuel)).
Proof.
  revert k. induction fuel as [| fuel IH]; intros k; [reflexivity |].
  cbn [whileTaken seq List.find].
  destruct (count (candidate next cur k)) as [| n] eqn:Hc.
  - reflexivity.
  - cbn [Nat.ltb Nat.leb Nat.eqb].
    replace (next (Z.of_nat k + 1)) with (candidate next cur (S k))
      by (cbn [candidate]; f_equal; lia).
    replace (Z.of_nat k + 1 + 1) with (Z.of_nat (S k) + 1) by lia.
    apply IH.
Qed.

(** Pigeon holes: among more candidates than rows, one is free. *)
Lemma free_candidate (count : string -> nat) (cand : nat -> string)
  (column : list string) (n : nat) :
  (forall i j, cand i = cand j -> i = j) ->
  (forall s, (0 < count s)%nat -> In s column) ->
  (List.length column <= n)%nat ->
  exists i, List.find (fun i => (count (cand i) =? 0)%nat) (seq 0 (S n))
            = Some i
            /\ count (cand i) = 0%nat.
Proof.
  intros Hinj Hcol Hlen.
  destruct (List.find _ (seq 0 (S n))) as [i |] eqn:Hfind.
  - exists i. split; [reflexivity |].
    apply find_some in Hfind as [_ Hi]. apply Nat.eqb_eq, Hi.
  - exfalso.
    assert (Hall : forall i, In i (seq 0 (S n)) -> In (cand i) column).
    { intros i Hi. apply Hcol.
      pose proof (find_none _ _ Hfind i Hi) as Hz.
      apply Nat.eqb_neq in Hz. lia. }
    assert (Hnd : NoDup (cand <$> seq 0 (S n))).
    { apply NoDup_fmap_2; [exact Hinj | apply NoDup_ListNoDup, seq_NoDup]. }
    assert (Hincl : incl (cand <$> seq 0 (S n)) column).
    { intros s Hs. apply list_elem_of_In, list_elem_of_fmap in Hs
        as (i & -> & Hi).
      apply Hall, list_elem_of_In, Hi. }
    apply NoDup_ListNoDup in Hnd.
    pose proof (NoDup_incl_length Hnd Hincl) as Hle.
    rewrite length_fmap, length_seq in Hle. lia.
Qed.

Lemma find_seq_first (f : nat -> bool) (n k i : nat) :
  List.find f (seq k n) = Some i ->
  f i = true /\ (k <= i < k + n)%nat
  /\ forall j, (k <= j < i)%nat -> f j = false.
Proof.
  revert k. induction n as [| n IH]; intros k; [discriminate |].
  cbn [seq List.find]. destruct (f k) eqn:Hk.
  - intros [= <-]. split; [exact Hk |]. split; [lia |]. intros j Hj. lia.
  - intros H. apply IH in H as (Hi & Hr & Hfirst).
    split; [exact Hi |]. split; [lia |].
    intros j Hj. destruct (Nat.eq_dec j k) as [-> | Hne]; [exact Hk |].
    apply Hfirst. lia.
Qed.

Lemma append_inj_r (a b s : string) : a +:+ s = b +:+ s -> a = b.
Proof.
  intros H.
  assert (Hlen : String.length a = String.length b).
  { apply (f_equal String.length) in H. rewrite !length_append in H. lia. }
  revert b H Hlen. induction a as [| c a IH]; intros [| d b] H Hlen;
    try discriminate; [reflexivity |].
  cbn [String.append] in H. injection H as -> H.
  f_equal. apply IH; [exact H | cbn in Hlen; lia].
Qed.

Lemma append_longer (a : string) (c : ascii) (b : string) :
  a <> a +:+ String c b.
Proof.
  intros H. apply (f_equal String.length) in H.
  rewrite length_append in H. cbn in H. lia.
Qed.

(** The loop returns the first free candidate, and there is one among
    the first [n + 1] when at most [n] values are taken. *)
Lemma whileTaken_fresh (count : string -> nat) (next : Z -> string)
  (cur : string) (column : list string) (fuel : nat) :
  (forall i j, candidate next cur i = candidate next cur j -> i = j) ->
  (forall s, (0 < count s)%nat -> In s column) ->
  (List.length column < fuel)%nat ->
  exists i,
    whileTaken fuel count next cur 1 = Some (candidate next cur i)
    /\ count (candidate next cur i) = 0%nat
    /\ (i <= List.length column)%nat
    /\ forall j, (j < i)%nat -> (0 < count (candidate next cur j))%nat.
Proof.
  intros Hinj Hcol Hfuel.
  pose proof (whileTaken_find count next cur fuel 0) as Hrun.
  change (Z.of_nat 0 + 1) with 1 in Hrun. cbn [candidate] in Hrun.
  rewrite Hrun. clear Hrun.
  destruct (free_candidate count (candidate next cur) column
              (List.length column) Hinj Hcol (le_n _)) as (i0 & Hfind0 & _).
  apply find_seq_first in Hfind0 as (Hfree0 & Hrange0 & _).
  destruct (List.find _ (seq 0 fuel)) as [i |] eqn:Hfind.
  - apply find_seq_first in Hfind as (Hfree & Hrange & Hfirst).
    exists i. split; [reflexivity |]. split; [apply Nat.eqb_eq, Hfree |].
    split.
    + destruct (Nat.le_gt_cases i i0) as [Hle | Hgt]; [lia |].
      rewrite (Hfirst i0) in Hfree0 by lia. discriminate.
    + intros j Hj. specialize (Hfirst j ltac:(lia)).
      apply Nat.eqb_neq in Hfirst. lia.
  - exfalso. pose proof (find_none _ _ Hfind i0) as Hn.
    rewrite Hn in Hfree0; [discriminate |]. apply in_seq. lia.
Qed.

(** X17. Given more tests than the table has rows, [generateUniqueSlug]
    returns, and what it returns is a slug no row has: the first of the
    base slug and the base slug with suffix [-1], [-2], ... that is
    free. *)
Theorem generateUniqueSlug_fresh (themes : list ThemeEntry)
  (baseName : string) (fuel : nat) :
  (List.length themes < fuel)%nat ->
  exists k,
    generateUniqueSlug fuel themes baseName
    = Some (slugCandidate (baseSlugOf baseName) k)
    /\ countSlug themes (slugCandidate (baseSlugOf baseName) k) = 0%nat
    /\ (k <= List.length themes)%nat
    /\ forall j, (j < k)%nat ->
         (0 < countSlug themes (slugCandidate (baseSlugOf baseName) j))%nat.
Proof.
  intros Hfuel. unfold generateUniqueSlug, slugCandidate.
  set (base := baseSlugOf baseName).
  set (next := fun counter : Z => base +:+ "-" +:+ toString10 counter).
  destruct (whileTaken_fresh (countSlug themes) next base
              (map entry_slug themes) fuel) as (i & Hrun & Hfree & Hle & Hfirst).
  - intros [| i] [| j] H; cbn [candidate] in H; unfold next in H.
    + reflexivity.
    + exfalso. exact (append_longer _ _ _ H).
    + exfalso. symmetry in H. exact (append_longer _ _ _ H).
    + apply append_inj_l, (append_inj_l "-"), toString10_inj in H. lia.
  - intros s Hs. unfold countSlug in Hs.
    destruct (List.filter _ themes) as [| r rest] eqn:Hf; [cbn in Hs; lia |].
    assert (Hr : In r (r :: rest)) by (left; reflexivity).
    rewrite <- Hf in Hr.
    apply filter_In in Hr as [Hin Heq]. apply String.eqb_eq in Heq.
    subst s. apply in_map, Hin.
  - rewrite length_map. exact Hfuel.
  - rewrite length_map in Hle. exists i. repeat split; assumption.
Qed.

Lemma generateUniqueSlug_fresh_witness :
  exists k,
    generateUniqueSlug 2 oneTheme "Tokyo Night"
    = Some (slugCandidate (baseSlugOf "Tokyo Night") k)
    /\ countSlug oneTheme (slugCandidate (baseSlugOf "Tokyo Night") k) = 0%nat
    /\ (k <= List.length oneTheme)%nat
    /\ forall j, (j < k)%nat ->
         (0 < countSlug oneTheme
                (slugCandidate (baseSlugOf "Tokyo Night") j))%nat.
Proof.
  apply (generateUniqueSlug_fresh oneTheme "Tokyo Night" 2). cbn. lia.
Defined.

(** X18. Likewise [generateUniqueName] returns a name that no theme of the
    author has: the first of the base name and the base name followed by
    [(1)], [(2)], ... that is free. *)
Theorem generateUniqueName_fresh (themes : list ThemeEntry)
  (baseName author : string) (fuel : nat) :
  (List.length themes < fuel)%nat ->
  exists k,
    generateUniqueName fuel themes baseName author
    = Some (nameCandidate baseName k)
    /\ countName themes author (nameCandidate baseName k) = 0%nat
    /\ (k <= List.length themes)%nat
    /\ forall j, (j < k)%nat ->
         (0 < countName themes author (nameCandidate baseName j))%nat.
Proof.
  intros Hfuel. unfold generateUniqueName, nameCandidate.
  set (next := fun counter : Z =>
                 baseName +:+ " (" +:+ toString10 counter +:+ ")").
  destruct (whileTaken_fresh (countName themes author) next baseName
              (map entry_name themes) fuel) as (i & Hrun & Hfree & Hle & Hfirst).
  - intros [| i] [| j] H; cbn [candidate] in H; unfold next in H.
    + reflexivity.
    + exfalso. exact (append_longer _ _ _ H).
    + exfalso. symmetry in H. exact (append_longer _ _ _ H).
    + apply append_inj_l, (append_inj_l " ("), append_inj_r,
        toString10_inj in H. lia.
  - intros s Hs. unfold countName in Hs.
    destruct (List.filter _ themes) as [| r rest] eqn:Hf; [cbn in Hs; lia |].
    assert (Hr : In r (r :: rest)) by (left; reflexivity).
    rewrite <- Hf in Hr.
    apply filter_In in Hr as [Hin Heq]. apply andb_prop in Heq as [Heq _].
    apply String.eqb_eq in Heq. subst s. apply in_map, Hin.
  - rewrite length_map. exact Hfuel.
  - rewrite length_map in Hle. exists i. repeat split; assumption.
Qed.

Lemma generateUniqueName_fresh_witness :
  exists k,
    generateUniqueName 2 oneTheme "Tokyo Night" "Imported"
    = Some (nameCandidate "Tokyo Night" k)
    /\ countName oneTheme "Imported" (nameCandidate "Tokyo Night" k) = 0%nat
    /\ (k <= List.length oneTheme)%nat
    /\ forall j, (j < k)%nat ->
         (0 < countName oneTheme "Imported" (nameCandidate "Tokyo Night" j))%nat.
Proof.
  apply (generateUniqueName_fresh oneTheme "Tokyo Night" "Imported" 2).
  cbn. lia.
Defined.

(** *** What an import stores is what an installation reads *)

Lemma selectColors_app (db : Database) (rows : list ColorRow)
  (themeId : string) :
  selectColors (mkDb (theme_colors db ++ rows) (themes db)) themeId
  = selectColors db themeId
    ++ selectColors (mkDb rows (themes db)) themeId.
Proof.
  unfold selectColors. cbn [theme_colors].
  rewrite filter_app, map_app. reflexivity.
Qed.

Lemma existsb_key (key : string) (l : list (string * string)) :
  existsb (fun kv => String.eqb kv.1 key) l = false <-> key ∉ l.*1.
Proof.
  induction l as [| [k v] l IH]; cbn [existsb fst].
  - split; [intros _; apply not_elem_of_nil | reflexivity].
  - rewrite fmap_cons, not_elem_of_cons, orb_false_iff, IH.
    cbn [fst]. rewrite String.eqb_neq. split; intros [H1 H2]; split; auto.
Qed.

Lemma insertColors_rows (db : Database) (themeId : string)
  (entries : list (string * string)) :
  NoDup entries.*1 ->
  (forall k, k ∈ entries.*1 -> k ∉ (selectColors db themeId).*1) ->
  exists db',
    insertColors db themeId entries = Ret db'
    /\ themes db' = themes db
    /\ theme_colors db'
       = theme_colors db
         ++ map (fun kv => mkColorRow themeId kv.1 kv.2) entries.
Proof.
  revert db. induction entries as [| [k v] rest IH]; intros db Hnd Hfree.
  - exists db. cbn. rewrite app_nil_r. repeat split.
  - rewrite fmap_cons in Hnd. apply NoDup_cons in Hnd as [Hk Hnd].
    cbn [insertColors]. unfold insertColor.
    assert (Hnew : existsb (fun kv => String.eqb kv.1 k)
                     (selectColors db themeId) = false).
    { apply existsb_key, Hfree. rewrite fmap_cons. left. }
    rewrite Hnew.
    set (db1 := mkDb (theme_colors db ++ [mkColorRow themeId k v]) (themes db)).
    destruct (IH db1 Hnd) as (db' & Hrun & Ht & Hc).
    + intros k' Hk'. unfold db1. rewrite selectColors_app, fmap_app.
      apply not_elem_of_app. split.
      * apply Hfree. rewrite fmap_cons. right. exact Hk'.
      * unfold selectColors. cbn [theme_colors].
        rewrite filter_cons_True by reflexivity. rewrite filter_nil.
        cbn. rewrite not_elem_of_cons. split; [| apply not_elem_of_nil].
        intros ->. contradiction.
    + exists db'. split; [exact Hrun |]. split; [exact Ht |].
      rewrite Hc. unfold db1. cbn [theme_colors map fst snd].
      rewrite <- app_assoc. reflexivity.
Qed.

Lemma selectColors_inserted (db : Database) (themeId other : string)
  (entries : list (string * string)) :
  selectColors
    (mkDb (map (fun kv => mkColorRow themeId kv.1 kv.2) entries) (themes db))
    other
  = if decide (themeId = other) then entries else [].
Proof.
  unfold selectColors. cbn [theme_colors].
  induction entries as [| [k v] rest IH]; [destruct (decide _); reflexivity |].
  cbn [map fst snd]. destruct (decide (themeId = other)) as [Heq | Hne].
  - rewrite filter_cons_True by exact Heq. cbn [map color_key hex_value].
    rewrite IH. reflexivity.
  - rewrite filter_cons_False by exact Hne. exact IH.
Qed.

Lemma populated_slots (c : ThemeColors) :
  populated c -> Forall (fun s => isEmpty s = false) (slots c).
Proof.
  unfold populated. intros H. eapply Forall_impl; [exact H |].
  intros s Hs. destruct s; [congruence | reflexivity].
Qed.

Ltac store_lookup :=
  repeat (rewrite lookup_insert_ne by discriminate);
  rewrite lookup_insert_eq; cbn [getOr]; unfold strOr;
  match goal with
  | H : isEmpty ?s = false |- context [isEmpty ?s] => rewrite H
  end.

(** The colours of the store after the entries of [c] were inserted. *)
Lemma colorsOfMap_entries (c : ThemeColors) :
  populated c ->
  Installer.colorsOfMap (newMap (colorEntries c)) = c.
Proof.
  intros Hp. apply populated_slots in Hp. unfold slots in Hp.
  repeat match type of Hp with
         | Forall _ (_ :: _) =>
             let Hx := fresh "Hs" in apply Forall_cons in Hp as [Hx Hp]
         end.
  unfold Installer.colorsOfMap, newMap, colorEntries.
  cbn [fold_left fst snd].
  repeat store_lookup.
  destruct c as [? ? ? ? ? ? []]. reflexivity.
Qed.

(** X19. The keys under which the import handlers store the colours of a
    theme are the keys the installers read: after the 22 inserts for a
    new theme id, [getThemeColors] and [getFullThemeColors] return the
    imported colours (an empty slot turns into the default of the
    store), and the rows of every other theme are untouched. *)
Theorem import_then_lookup (db : Database) (themeId : string)
  (c : ThemeColors) :
  selectColors db themeId = [] ->
  exists db',
    insertColors db themeId (colorEntries c) = Ret db'
    /\ selectColors db' themeId = colorEntries c
    /\ (forall other, other <> themeId ->
          selectColors db' other = selectColors db other)
    /\ Installer.getThemeColors db' themeId
       = Some (Installer.colorsOfMap (newMap (colorEntries c)))
    /\ Cli.getFullThemeColors db' themeId
       = Some (Installer.colorsOfMap (newMap (colorEntries c)))
    /\ (populated c -> Installer.getThemeColors db' themeId = Some c).
Proof.
  intros Hnew.
  destruct (insertColors_rows db themeId (colorEntries c)) as (db' & Hrun & Ht & Hc).
  { unfold colorEntries. cbn [fmap list_fmap fst].
    apply (bool_decide_unpack _). vm_compute. reflexivity. }
  { intros k _. rewrite Hnew. apply not_elem_of_nil. }
  assert (Hdb : db' = mkDb (theme_colors db
                            ++ map (fun kv => mkColorRow themeId kv.1 kv.2)
                                 (colorEntries c)) (themes db)).
  { destruct db'. cbn in Ht, Hc. subst. reflexivity. }
  assert (Hsel : forall other,
             selectColors db' other
             = selectColors db other
               ++ (if decide (themeId = other) then colorEntries c else [])).
  { intros other. rewrite Hdb, selectColors_app, selectColors_inserted.
    reflexivity. }
  assert (Hown : selectColors db' themeId = colorEntries c).
  { rewrite Hsel, Hnew. destruct (decide (themeId = themeId)); [| congruence].
    reflexivity. }
  exists db'. split; [exact Hrun |]. split; [exact Hown |].
  split.
  { intros other Hne. rewrite Hsel.
    destruct (decide (themeId = other)); [congruence |]. apply app_nil_r. }
  assert (Hgui : Installer.getThemeColors db' themeId
                 = Some (Installer.colorsOfMap (newMap (colorEntries c)))).
  { unfold Installer.getThemeColors. rewrite Hown. reflexivity. }
  split; [exact Hgui |]. split.
  - unfold Cli.getFullThemeColors. rewrite Hown. reflexivity.
  - intros Hp. rewrite Hgui, (colorsOfMap_entries c Hp). reflexivity.
Qed.

Lemma import_then_lookup_witness :
  exists db',
    insertColors oneRowDb "t9" (colorEntries tokyoNight) = Ret db'
    /\ Installer.getThemeColors db' "t9" = Some tokyoNight.
Proof.
  destruct (import_then_lookup oneRowDb "t9" tokyoNight eq_refl)
    as (db' & Hrun & _ & _ & _ & _ & Hget).
  exists db'. split; [exact Hrun |]. apply Hget.
  unfold populated. vm_compute slots. repeat constructor; discriminate.
Defined.

(** *** The first application to a PowerShell profile *)

Lemma headerLength_absent (s : string) :
  includes Cli.blockHeader s = false -> Cli.headerLength s = None.
Proof.
  intros H. unfold Cli.headerLength.
  destruct s as [| c r].
  - reflexivity.
  - cbn [includes] in H. apply orb_false_iff in H as [Hhere Hrest].
    rewrite Hhere.
    destruct (startsWith (String nl Cli.blockHeader) (String c r)) eqn:Hnl;
      [| reflexivity].
    exfalso. cbn [startsWith] in Hnl.
    destruct (Ascii.eqb nl c); [| discriminate].
    destruct r as [| d r'].
    + discriminate.
    + cbn [includes] in Hrest. apply orb_false_iff in Hrest as [Hr _].
      congruence.
Qed.

Lemma removeBlocks_absent (s : string) :
  includes Cli.blockHeader s = false -> Cli.removeBlocks None s = s.
Proof.
  induction s as [| c r IH]; intros H; [reflexivity |].
  cbn [Cli.removeBlocks]. rewrite (headerLength_absent _ H).
  cbn [includes] in H. apply orb_false_iff in H as [_ Hrest].
  rewrite IH by exact Hrest. reflexivity.
Qed.

(** X20. A profile without a ShellShade block is kept: the first
    application writes the trimmed text of the profile (nothing when
    there is no profile yet), a line break and the theme's script. *)
Theorem powershell_first_application (env : Env) (colors : ThemeColors)
  (themeName : string) (w : World) :
  dirAvailable env w (Cli.psProfileDir env) ->
  Cli.psProfilePath env ∉ dirs w ->
  includes Cli.blockHeader (profileBefore env w) = false ->
  writeFileSync_error env (Cli.psProfilePath env) = None ->
  exists r w',
    Cli.applyToPowerShell env colors themeName w = (Ret r, w')
    /\ Cli.success r = true
    /\ files w'
       = <[Cli.psProfilePath env
             := appendedProfile (profileBefore env w) colors themeName]>
           (files w).
Proof.
  intros Hdir Hnodir Hclean Hwrite. unfold Cli.applyToPowerShell.
  rewrite (ensure_dir env w (Cli.psProfileDir env) _ Hdir).
  set (w1 := withDir w (Cli.psProfileDir env)).
  assert (Hf1 : files w1 = files w).
  { unfold w1, withDir. destruct (present w _); reflexivity. }
  assert (Hp1 : present w1 (Cli.psProfilePath env)
                = present w (Cli.psProfilePath env)).
  { apply present_withDir. unfold Cli.psProfilePath.
    apply join_longer. discriminate. }
  clearbody w1.
  unfold tryCatch. unfold bind at 1. unfold existsSync at 1.
  fold (present w1 (Cli.psProfilePath env)). rewrite Hp1.
  unfold profileBefore, appendedProfile in *. unfold present.
  rewrite (bool_decide_eq_false_2 _ Hnodir), orb_false_r.
  destruct (files w !! Cli.psProfilePath env) as [text |] eqn:Hfile.
  - rewrite bool_decide_eq_true_2 by eauto.
    unfold bind, readFileSync. cbn [files dirs trace].
    rewrite Hf1, Hfile.
    rewrite (removeBlocks_absent _ Hclean).
    unfold writeFileSync. rewrite Hwrite. cbn [files dirs trace].
    eexists _, _. split; [reflexivity |]. split; [reflexivity |].
    rewrite ?Hf1. reflexivity.
  - rewrite bool_decide_eq_false_2 by (intros [? ?]; discriminate).
    unfold bind, ret. rewrite (removeBlocks_absent _ Hclean).
    unfold writeFileSync. rewrite Hwrite. cbn [files dirs trace].
    eexists _, _. split; [reflexivity |]. split; [reflexivity |].
    rewrite ?Hf1. reflexivity.
Qed.

Lemma powershell_first_application_witness :
  exists r w',
    Cli.applyToPowerShell psEnv tokyoNight "Tokyo Night" psWorld = (Ret r, w')
    /\ Cli.success r = true
    /\ files w'
       = <[Cli.psProfilePath psEnv
             := appendedProfile (profileBefore psEnv psWorld) tokyoNight
                  "Tokyo Night"]>
           (files psWorld).
Proof.
  apply (powershell_first_application psEnv tokyoNight "Tokyo Night" psWorld).
  - left. vm_compute. reflexivity.
  - unfold psWorld. cbn [dirs]. rewrite not_elem_of_singleton. discriminate.
  - vm_compute. reflexivity.
  - reflexivity.
Defined.

(** *** Terminal detection *)

(** X21. The terminal [detectTerminal] reports is always one of the
    terminals offered for the current platform, and one of the [case]
    labels of [applyTheme]. *)
Theorem detectTerminal_offered (platform : OsPlatform)
  (getenv : string -> option string) :
  detectTerminal platform getenv ∈ platformTerminals platform
  /\ detectTerminal platform getenv ∈ supportedTerminals.
Proof.
  unfold detectTerminal, supportedTerminals.
  destruct platform; cbn [platformTerminals];
    repeat match goal with
           | |- context [if ?b then _ else _] => destruct b
           end;
    split; rewrite !elem_of_cons; tauto.
Qed.

(** *** Favourites *)

Lemma filter_unique (rows : list FavoriteRow) (themeId : string)
  (theme : FavoriteRow) (rest : list FavoriteRow) :
  List.NoDup (map fav_id rows) ->
  List.filter (fun r => String.eqb (fav_id r) themeId) rows = theme :: rest ->
  forall r, In r rows -> fav_id r = themeId -> r = theme.
Proof.
  induction rows as [| x rows IH]; intros Hnd Hf r Hin Hid; [destruct Hin |].
  cbn [map] in Hnd. apply List.NoDup_cons_iff in Hnd as [Hx Hnd].
  cbn [List.filter] in Hf.
  destruct (String.eqb (fav_id x) themeId) eqn:Hxid.
  - injection Hf as -> Hrest. apply String.eqb_eq in Hxid.
    destruct Hin as [-> | Hin]; [reflexivity |].
    exfalso. apply Hx. rewrite Hxid, <- Hid. apply in_map, Hin.
  - destruct Hin as [-> | Hin].
    + apply String.eqb_neq in Hxid. contradiction.
    + apply (IH Hnd Hf r Hin Hid).
Qed.

(** X22. [toggleFavorite] answers [false] and changes nothing for an
    unknown theme. On a table whose ids are unique and whose flags are
    0 or 1, toggling a theme twice restores the table, and the two
    answers are opposite. *)
Theorem toggleFavorite_twice (rows : list FavoriteRow) (themeId : string) :
  List.NoDup (map fav_id rows) ->
  Forall isFlag rows ->
  let first := toggleFavorite rows themeId in
  let second := toggleFavorite first.2 themeId in
  second.2 = rows
  /\ (themeId ∉ map fav_id rows -> first = (false, rows))
  /\ (themeId ∈ map fav_id rows -> second.1 = negb first.1).
Proof.
  intros Hnd Hflags first second. subst second first.
  unfold toggleFavorite at 2 4 5.
  destruct (List.filter _ rows) as [| theme rest] eqn:Hf.
  - cbn [fst snd]. unfold toggleFavorite. rewrite Hf.
    split; [reflexivity |]. split; [reflexivity |].
    intros Hin. exfalso. apply list_elem_of_In, in_map_iff in Hin
      as (r & Hid & Hr).
    assert (Hr' : In r (List.filter (fun r => String.eqb (fav_id r) themeId) rows)).
    { apply filter_In. split; [exact Hr |]. apply String.eqb_eq, Hid. }
    rewrite Hf in Hr'. destruct Hr'.
  - cbn [fst snd].
    assert (Htheme : In theme rows /\ fav_id theme = themeId).
    { assert (Hin : In theme (theme :: rest)) by (left; reflexivity).
      rewrite <- Hf in Hin. apply filter_In in Hin as [Hin Hid].
      split; [exact Hin | apply String.eqb_eq, Hid]. }
    destruct Htheme as [Hin Hid].
    pose proof (filter_unique rows themeId theme rest Hnd Hf) as Huniq.
    assert (Hflag : isFlag theme).
    { rewrite Forall_forall in Hflags. apply Hflags, list_elem_of_In, Hin. }
    set (v1 := flipFavorite (is_favorite theme)).
    set (rows1 := map _ rows).
    assert (Hf1 : List.filter (fun r => String.eqb (fav_id r) themeId) rows1
                  = map (fun r => mkFavorite (fav_id r) (Some v1))
                      (List.filter (fun r => String.eqb (fav_id r) themeId)
                         rows)).
    { unfold rows1. clear. induction rows as [| x rows IH]; [reflexivity |].
      cbn [map List.filter].
      destruct (String.eqb (fav_id x) themeId) eqn:Hx.
      - cbn [fav_id]. rewrite Hx. cbn [map]. f_equal. exact IH.
      - rewrite Hx. exact IH. }
    unfold toggleFavorite. rewrite Hf1, Hf. cbn [map is_favorite fst snd].
    assert (Hback : flipFavorite (Some v1) = match is_favorite theme with
                                             | Some z => z
                                             | None => 0
                                             end
                    /\ (flipFavorite (Some v1) =? 1) = negb (v1 =? 1)).
    { unfold v1. destruct Hflag as [-> | ->]; split; reflexivity. }
    destruct Hback as [Hback Hneg].
    split; [| split].
    + unfold rows1. rewrite map_map.
      rewrite <- (map_id rows) at 2. apply map_ext_in. intros r Hr.
      destruct (String.eqb (fav_id r) themeId) eqn:Hrid.
      * cbn [fav_id]. rewrite Hrid. apply String.eqb_eq in Hrid.
        rewrite (Huniq r Hr Hrid) in *. rewrite Hback.
        destruct theme as [i f]. unfold isFlag in Hflag. cbn in *.
        destruct Hflag as [-> | ->]; reflexivity.
      * rewrite Hrid. reflexivity.
    + intros Hn. exfalso. apply Hn. rewrite <- Hid.
      apply list_elem_of_In, in_map, Hin.
    + intros _. exact Hneg.
Qed.

Lemma toggleFavorite_twice_witness :
  (toggleFavorite (toggleFavorite twoThemes "t2").2 "t2").2 = twoThemes
  /\ (toggleFavorite (toggleFavorite twoThemes "t2").2 "t2").1
     = negb (toggleFavorite twoThemes "t2").1.
Proof.
  destruct (toggleFavorite_twice twoThemes "t2") as (Hback & _ & Hneg).
  - repeat constructor; cbn; intuition discriminate.
  - apply Forall_cons; split; [right; reflexivity |].
    apply Forall_cons; split; [left; reflexivity |]. apply Forall_nil_2.
  - split; [exact Hback |]. apply Hneg. cbn. rewrite !elem_of_cons. tauto.
Defined.

(** *** The extension of a written file *)

Lemma indexedFrom_acc (s : string) (i : Z) (acc : list (Z * ascii)) :
  indexedFrom i s acc = indexedFrom i s [] ++ acc.
Proof.
  revert i acc. induction s as [| c r IH]; intros i acc; [reflexivity |].
  cbn [indexedFrom]. rewrite (IH (i + 1) ((i, c) :: acc)),
    (IH (i + 1) [(i, c)]), <- app_assoc. reflexivity.
Qed.

Lemma indexedFrom_app (a b : string) (i : Z) :
  indexedFrom i (a +:+ b) []
  = indexedFrom (i + Z.of_nat (String.length a)) b [] ++ indexedFrom i a [].
Proof.
  revert i. induction a as [| c a IH]; intros i.
  - cbn [String.append String.length indexedFrom Z.of_nat].
    rewrite Z.add_0_r, app_nil_r. reflexivity.
  - cbn [String.append indexedFrom String.length].
    rewrite (indexedFrom_acc (a +:+ b) (i + 1) [(i, c)]), IH,
      (indexedFrom_acc a (i + 1) [(i, c)]), <- app_assoc.
    replace (i + Z.of_nat (S (String.length a)))
      with (i + 1 + Z.of_nat (String.length a)) by lia.
    reflexivity.
Qed.

Lemma extStep_stopped (l : list (Z * ascii)) (st : ExtState) :
  stopped st = true -> fold_left extStep l st = st.
Proof.
  intros Hs. induction l as [| [i c] l IH]; [reflexivity |].
  cbn [fold_left]. unfold extStep at 2. rewrite Hs. exact IH.
Qed.

(** Plain characters in front of a dot already seen. *)
Lemma extStep_plain_after_dot (s : string) (i d e : Z) (pre : Z) :
  allChars isPlainChar s = true -> s <> EmptyString ->
  d <> -1 -> e <> -1 ->
  fold_left extStep (indexedFrom i s []) (mkExt d 0 e false pre false)
  = mkExt d 0 e false (-1) false.
Proof.
  intros Hs Hne Hd He.
  assert (Hgen : forall l : list (Z * ascii),
             Forall (fun ic => isPlainChar ic.2 = true) l ->
             forall pre',
               fold_left extStep l (mkExt d 0 e false pre' false)
               = mkExt d 0 e false (if bool_decide (l = []) then pre' else -1)
                       false).
  { induction l as [| [j c] l IH]; intros Hl pre'; [reflexivity |].
    apply Forall_cons in Hl as [Hc Hl]. cbn [snd] in Hc.
    unfold isPlainChar in Hc. apply andb_prop in Hc as [Hc1 Hc2].
    apply negb_true_iff in Hc1, Hc2.
    cbn [fold_left]. unfold extStep at 2.
    cbn [stopped endIdx startDot startPart matchedSlash preDotState].
    rewrite Hc1, Hc2.
    destruct (e =? -1) eqn:E1; [apply Z.eqb_eq in E1; contradiction |].
    cbn [startDot].
    destruct (d =? -1) eqn:E2; [apply Z.eqb_eq in E2; contradiction |].
    cbn [negb startDot startPart endIdx matchedSlash].
    rewrite (IH Hl). destruct (bool_decide (l = [])); reflexivity. }
  rewrite Hgen.
  - rewrite bool_decide_eq_false_2; [reflexivity |].
    destruct s as [| c r]; [congruence |]. cbn [indexedFrom].
    rewrite indexedFrom_acc. intros H. apply app_eq_nil in H as [_ H].
    discriminate.
  - clear -Hs. revert i. induction s as [| c r IH]; intros i.
    + constructor.
    + cbn [allChars] in Hs. apply andb_prop in Hs as [Hc Hr].
      cbn [indexedFrom]. rewrite indexedFrom_acc. apply Forall_app. split.
      * apply IH, Hr.
      * apply Forall_cons. split; [exact Hc | apply Forall_nil_2].
Qed.

(** Plain characters at the end of the path. *)
Lemma extStep_plain_at_end (s : string) (i : Z) :
  allChars isPlainChar s = true -> s <> EmptyString -> 0 <= i ->
  fold_left extStep (indexedFrom i s []) (mkExt (-1) 0 (-1) true 0 false)
  = mkExt (-1) 0 (i + Z.of_nat (String.length s)) false 0 false.
Proof.
  revert i. induction s as [| c r IH]; intros i Hs Hne Hi; [congruence |].
  cbn [allChars] in Hs. apply andb_prop in Hs as [Hc Hr].
  unfold isPlainChar in Hc. apply andb_prop in Hc as [Hc1 Hc2].
  apply negb_true_iff in Hc1, Hc2.
  cbn [indexedFrom]. rewrite indexedFrom_acc, fold_left_app.
  cbn [fold_left].
  destruct r as [| c' r'].
  - cbn [indexedFrom fold_left]. unfold extStep.
    cbn [stopped endIdx startDot startPart matchedSlash preDotState].
    rewrite Hc1, Hc2. cbn. f_equal; lia.
  - rewrite IH by (try exact Hr; try discriminate; lia).
    unfold extStep.
    cbn [stopped endIdx startDot startPart matchedSlash preDotState].
    rewrite Hc1, Hc2.
    destruct (i + 1 + Z.of_nat (String.length (String c' r')) =? -1) eqn:E;
      [apply Z.eqb_eq in E; lia |].
    cbn [negb]. f_equal; cbn [String.length]; lia.
Qed.

Lemma drop_string_app (a b : string) :
  drop_string (String.length a) (a +:+ b) = b.
Proof. induction a as [| c a IH]; [reflexivity | exact IH]. Qed.

Lemma take_string_all (s : string) : take_string (String.length s) s = s.
Proof.
  induction s as [| c s IH]; [reflexivity |].
  cbn [String.length take_string]. rewrite IH. reflexivity.
Qed.

(** The extension of [dir/name.ext] when [name] and [ext] are not empty
    and hold neither dot nor slash. *)
Lemma extname_written (dir body ext : string) :
  allChars isPlainChar body = true -> body <> EmptyString ->
  allChars isPlainChar ext = true -> ext <> EmptyString ->
  extname (dir +:+ String slash (body +:+ String dot ext)) = String dot ext.
Proof.
  intros Hbody Hbne Hext Hene. unfold extname, backwards.
  set (n := Z.of_nat (String.length dir)).
  set (m := n + 1 + Z.of_nat (String.length body)).
  set (e := m + 1 + Z.of_nat (String.length ext)).
  assert (Hlist : indexedFrom 0 (dir +:+ String slash (body +:+ String dot ext)) []
                  = indexedFrom (m + 1) ext [] ++ [(m, dot)]
                    ++ indexedFrom (n + 1) body [] ++ [(n, slash)]
                    ++ indexedFrom 0 dir []).
  { rewrite indexedFrom_app. cbn [indexedFrom]. fold n.
    rewrite (indexedFrom_acc _ (0 + n + 1) [(0 + n, slash)]), indexedFrom_app.
    cbn [indexedFrom].
    rewrite (indexedFrom_acc ext _ [_]).
    replace (0 + n + 1 + Z.of_nat (String.length body)) with m by lia.
    replace (0 + n + 1) with (n + 1) by lia.
    replace (0 + n) with n by lia.
    rewrite <- !app_assoc. reflexivity. }
  rewrite Hlist, !fold_left_app.
  assert (Hn : 0 <= n) by lia. assert (Hm : 0 <= m) by lia.
  rewrite (extStep_plain_at_end ext (m + 1) Hext Hene) by lia. fold e.
  assert (He : e <> -1) by lia. assert (Hmd : m <> -1) by lia.
  assert (Hdot : fold_left extStep [(m, dot)] (mkExt (-1) 0 e false 0 false)
                 = mkExt m 0 e false 0 false).
  { cbn [fold_left]. unfold extStep.
    cbn [stopped endIdx startDot startPart matchedSlash preDotState].
    change (Ascii.eqb dot slash) with false. change (Ascii.eqb dot dot) with true.
    destruct (e =? -1) eqn:E; [apply Z.eqb_eq in E; contradiction |].
    reflexivity. }
  rewrite Hdot.
  rewrite (extStep_plain_after_dot body (n + 1) m e 0 Hbody Hbne Hmd He).
  assert (Hslash : fold_left extStep [(n, slash)] (mkExt m 0 e false (-1) false)
                   = mkExt m (n + 1) e false (-1) true).
  { cbn [fold_left]. unfold extStep.
    cbn [stopped endIdx startDot startPart matchedSlash preDotState].
    change (Ascii.eqb slash slash) with true. reflexivity. }
  rewrite Hslash, extStep_stopped by reflexivity.
  cbn [startDot endIdx preDotState startPart].
  destruct (m =? -1) eqn:E1; [apply Z.eqb_eq in E1; contradiction |].
  destruct (e =? -1) eqn:E2; [apply Z.eqb_eq in E2; contradiction |].
  cbn [orb andb]. change (-1 =? 0) with false. change (-1 =? 1) with false.
  cbn [orb andb]. unfold slice.
  replace (Z.to_nat m) with (String.length (dir +:+ String slash body)).
  2:{ rewrite length_append. cbn [String.length]. lia. }
  replace (dir +:+ String slash (body +:+ String dot ext))
    with ((dir +:+ String slash body) +:+ String dot ext).
  2:{ rewrite append_assoc. reflexivity. }
  rewrite drop_string_app.
  replace (Z.to_nat (e - m)) with (String.length (String dot ext)).
  2:{ cbn [String.length]. lia. }
  apply take_string_all.
Qed.

(** *** Written themes through the import dispatcher *)

Lemma slugOr_plain (sep : ascii) (s : string) :
  isPlainChar sep = true ->
  allChars (isSlugOr sep) s = true -> allChars isPlainChar s = true.
Proof.
  intros Hsep. induction s as [| c s IH]; [reflexivity |].
  cbn [allChars]. intros H. apply andb_prop in H as [Hc Hs].
  rewrite (IH Hs), andb_true_r.
  unfold isSlugOr in Hc. apply orb_prop in Hc as [Hc | Hc].
  - revert c Hc.
    assert (Hall : forall c, implb (Installer.isSlugChar c) (isPlainChar c) = true)
      by (apply ascii_cases; vm_compute; reflexivity).
    intros c Hc. specialize (Hall c). rewrite Hc in Hall. exact Hall.
  - apply Ascii.eqb_eq in Hc. subst c. exact Hsep.
Qed.


Lemma slugUnderscore_nonempty (themeName : string) :
  themeName <> EmptyString -> slugUnderscore themeName <> EmptyString.
Proof.
  destruct themeName as [| c r]; [congruence |]. intros _.
  unfold slugUnderscore. cbn [toLowerCase underscoreRuns].
  destruct (Installer.isSlugChar (lowerChar c)); discriminate.
Qed.


Lemma join_nonempty (dir rest : string) :
  dir <> EmptyString -> join dir rest = dir +:+ String slash rest.
Proof. destruct dir; [congruence | reflexivity]. Qed.

Lemma join_rest_nonempty (dir : string) (c : ascii) (rest : string) :
  join dir (String c rest) <> EmptyString.
Proof. unfold join. destruct dir; discriminate. Qed.

(** The extension of a theme file named by an underscore slug. *)
Lemma extname_theme_file (env : Env) (sub themeName ext : string)
  (c : ascii) (sub' : string) :
  sub = String c sub' ->
  themeName <> EmptyString ->
  allChars isPlainChar ext = true -> ext <> EmptyString ->
  extname (join (join (homedir env) sub)
             (slugUnderscore themeName +:+ String dot ext))
  = String dot ext.
Proof.
  intros -> Hname Hext Hene.
  rewrite join_nonempty by apply join_rest_nonempty.
  apply extname_written; try assumption.
  - apply (slugOr_plain "_"); [reflexivity |].
    apply underscoreRuns_charset.
  - apply slugUnderscore_nonempty, Hname.
Qed.



(** X1. A theme file written by [applyToKitty] is a file the importer
    accepts: [parseThemeFile] sends it to the Kitty parser and returns the
    colours that were written, in lower case. *)
Theorem kitty_theme_reimports (env : Env) (colors : ThemeColors)
  (themeName : string) (w : World) :
  themeName <> EmptyString ->
  dirAvailable env w (join (homedir env) ".config/kitty/themes") ->
  writeFileSync_error env (kittyPath env themeName) = None ->
  validColors colors ->
  let p := kittyPath env themeName in
  let w1 := (applyToKitty env colors themeName w).2 in
  (parseThemeFile env p w1).1
  = Ret (parsed (basename p ".conf") (lowerColors colors)).
Proof.
  intros Hname Hdir Hw Hvalid p w1.
  assert (Hext : extname p = ".conf").
  { unfold p, kittyPath.
    apply (extname_theme_file env _ themeName "conf" _ _ eq_refl Hname);
      [reflexivity | discriminate]. }
  rewrite parseThemeFile_unfold, Hext.
  change (parserFor (toLowerCase ".conf")) with (Some KittyParser).
  cbn [runParser]. unfold parseKitty. rewrite Hext. subst w1 p.
  unfold applyToKitty.
  rewrite (writeThemeFile_run _ _ _ _ _ _ Hdir), Hw.
  unfold bind, readFileSync. cbn [snd files].
  rewrite lookup_insert_eq. cbn [fst ret].
  rewrite (kitty_write_then_parse colors themeName Hvalid). reflexivity.
Qed.

Lemma kitty_theme_reimports_witness :
  let p := kittyPath psEnv "Tokyo Night" in
  (parseThemeFile psEnv p
     (applyToKitty psEnv tokyoNight "Tokyo Night" emptyWorld).2).1
  = Ret (parsed (basename p ".conf") (lowerColors tokyoNight)).
Proof.
  apply (kitty_theme_reimports psEnv tokyoNight "Tokyo Night" emptyWorld).
  - discriminate.
  - right. reflexivity.
  - reflexivity.
  - exact tokyoNight_valid.
Defined.

(** X23. The theme files [applyToAlacritty] and [applyToKonsole] write are
    not files the importer accepts: [parseThemeFile] refuses their
    extensions before it reads anything. *)
Theorem written_themes_refused (env : Env) (themeName : string) (w : World) :
  themeName <> EmptyString ->
  parseThemeFile env (alacrittyPath env themeName) w
  = (Throw (plainError "Unsupported file format: .toml"), w)
  /\ parseThemeFile env (konsolePath env themeName) w
     = (Throw (plainError "Unsupported file format: .colorscheme"), w).
Proof.
  intros Hname. rewrite !parseThemeFile_unfold.
  unfold alacrittyPath, konsolePath.
  rewrite (extname_theme_file env _ themeName "toml" _ _ eq_refl Hname)
    by (reflexivity || discriminate).
  rewrite (extname_theme_file env _ themeName "colorscheme" _ _ eq_refl Hname)
    by (reflexivity || discriminate).
  split; reflexivity.
Qed.

Lemma written_themes_refused_witness :
  parseThemeFile psEnv (alacrittyPath psEnv "Tokyo Night") emptyWorld
  = (Throw (plainError "Unsupported file format: .toml"), emptyWorld)
  /\ parseThemeFile psEnv (konsolePath psEnv "Tokyo Night") emptyWorld
     = (Throw (plainError "Unsupported file format: .colorscheme"), emptyWorld).
Proof.
  apply (written_themes_refused psEnv "Tokyo Night" emptyWorld). discriminate.
Defined.





(** *** The Terminal.app installers *)

(** X24. [installToTerminalApp] never touches a file and always returns a
    result with an empty path. Without colours it starts no process.
    When the script that creates the profile fails, the installation
    fails and the second script is not run. When it succeeds, the
    installation succeeds whether or not the second script does; only the
    instructions differ. *)
Theorem terminal_app_install_outcomes (env : Env) (db : Database)
  (themeId : string) (w : World) :
  let run := installToTerminalApp env db themeId w in
  let name := Installer.getThemeName db themeId in
  files run.2 = files w /\ dirs run.2 = dirs w
  /\ exists r,
       run.1 = Ret r /\ Installer.path r = EmptyString
       /\ match Installer.getThemeColors db themeId with
          | None =>
              Installer.success r = false
              /\ Installer.error r = Some "Theme not found"
              /\ trace run.2 = trace w
          | Some colors =>
              match exec_error env (createCommand db themeId colors) with
              | Some _ =>
                  Installer.success r = false
                  /\ trace run.2
                     = EvExec (createCommand db themeId colors) :: trace w
              | None =>
                  Installer.success r = true
                  /\ trace run.2
                     = EvExec (applyCommand db themeId)
                       :: EvExec (createCommand db themeId colors) :: trace w
                  /\ Installer.instructions r
                     = Some (match exec_error env (applyCommand db themeId) with
                             | None => installedText name
                             | Some _ => savedText name
                             end)
              end
          end.
Proof.
  intros run name. subst run. unfold installToTerminalApp.
  fold name. unfold createCommand, applyCommand. fold name.
  destruct (Installer.getThemeColors db themeId) as [colors |].
  - set (c1 := Installer.osascript (createProfileScript colors _)).
    set (c2 := Installer.osascript (applyScript _)).
    clearbody c1 c2.
    unfold tryCatch, bind, exec, ret. cbn [files dirs trace].
    destruct (exec_error env c1) as [m1 |].
    + cbn. repeat split. eexists. repeat split.
    + cbn [files dirs trace].
      destruct (exec_error env c2) as [m2 |]; cbn;
        (split; [reflexivity |]); (split; [reflexivity |]);
        eexists; repeat split.
  - cbn. repeat split. eexists. repeat split.
Qed.

(** X25. [setTerminalDefault] never touches a file; it succeeds exactly
    when the colours are found and its one script runs, and otherwise
    reports [Theme not found] without starting a process, or the error of
    the script after [Failed to set default: ]. *)
Theorem terminal_default_outcomes (env : Env) (db : Database)
  (themeId : string) (w : World) :
  let run := setTerminalDefault env db themeId w in
  files run.2 = files w /\ dirs run.2 = dirs w
  /\ exists r,
       run.1 = Ret r /\ Installer.path r = EmptyString
       /\ match Installer.getThemeColors db themeId with
          | None =>
              Installer.success r = false
              /\ Installer.error r = Some "Theme not found"
              /\ trace run.2 = trace w
          | Some colors =>
              trace run.2
              = EvExec (defaultCommand db themeId colors) :: trace w
              /\ match exec_error env (defaultCommand db themeId colors) with
                 | Some msg =>
                     Installer.success r = false
                     /\ Installer.error r
                        = Some ("Failed to set default: Error: " +:+ msg)
                 | None =>
                     Installer.success r = true /\ Installer.error r = None
                 end
          end.
Proof.
  intros run. subst run. unfold setTerminalDefault, defaultCommand.
  destruct (Installer.getThemeColors db themeId) as [colors |].
  - set (c1 := Installer.osascript _). clearbody c1.
    unfold tryCatch, bind, exec, ret. cbn [files dirs trace].
    destruct (exec_error env c1) as [m1 |]; cbn;
      (split; [reflexivity |]); (split; [reflexivity |]);
      eexists; repeat split.
  - cbn. repeat split. eexists. repeat split.
Qed.

(** *** Decoding a colour into channels *)

(** Two hexadecimal digits are read as a byte, and the byte is written
    back as these digits in lower case. *)
Lemma channelByte_digits (c : string) (a b : Z) (x y : ascii) :
  slice a b c = String x (String y EmptyString) ->
  isHexDigit x = true -> isHexDigit y = true ->
  exists n, channelByte c a b = Some n /\ 0 <= n <= 255
            /\ hex2 n = String (lowerChar x) (String (lowerChar y) EmptyString).
Proof.
  intros Hs Hx Hy. unfold channelByte. rewrite Hs.
  pose proof (digitsSurvive_all x y) as H. unfold digitsSurvive in H.
  rewrite Hx, Hy in H. cbn [andb implb] in H.
  destruct (Installer.parseInt16 (String x (String y EmptyString))) as [n |];
    [| discriminate].
  apply andb_prop in H as [Hr H]. apply andb_prop in Hr as [H0 H255].
  apply String.eqb_eq in H. rewrite Math_round_byte in H.
  exists n. split; [reflexivity |]. split; [lia | exact H].
Qed.

(** X26. For a valid colour the three decoders of the CLI agree on three
    bytes between 0 and 255: [hexToRgb] returns them, [hexToRGB] writes
    them scaled by 257, [hexToKonsoleRgb] writes them in decimal, none of
    them gives [NaN]; and writing the bytes as two hexadecimal digits each
    gives the colour back in lower case. *)
Theorem hex_channels (c : string) :
  isValidHexColor c = true ->
  exists r g b,
    (0 <= r <= 255 /\ 0 <= g <= 255 /\ 0 <= b <= 255)
    /\ hexToRgb c = (Some r, Some g, Some b)
    /\ hexToRGB c
       = "{" +:+ toString10 (r * 257) +:+ ", " +:+ toString10 (g * 257)
         +:+ ", " +:+ toString10 (b * 257) +:+ "}"
    /\ hexToKonsoleRgb c
       = toString10 r +:+ "," +:+ toString10 g +:+ "," +:+ toString10 b
    /\ "#" +:+ hex2 r +:+ hex2 g +:+ hex2 b = toLowerCase c.
Proof.
  intros Hv.
  destruct (validHex_inv c Hv) as (h1 & h2 & h3 & h4 & h5 & h6 & -> & H1 & H2
                                    & H3 & H4 & H5 & H6).
  set (c := String "#" _).
  destruct (channelByte_digits c 1 3 h1 h2 eq_refl H1 H2) as (r & Hr & Rr & Er).
  destruct (channelByte_digits c 3 5 h3 h4 eq_refl H3 H4) as (g & Hg & Rg & Eg).
  destruct (channelByte_digits c 5 7 h5 h6 eq_refl H5 H6) as (b & Hb & Rb & Eb).
  exists r, g, b. split; [repeat split; lia |].
  unfold hexToRgb, hexToRGB, hexToKonsoleRgb. rewrite Hr, Hg, Hb.
  split; [reflexivity |]. split; [reflexivity |]. split; [reflexivity |].
  rewrite Er, Eg, Eb. reflexivity.
Qed.

Lemma hex_channels_witness :
  exists r g b,
    (0 <= r <= 255 /\ 0 <= g <= 255 /\ 0 <= b <= 255)
    /\ hexToRgb "#FF8000" = (Some r, Some g, Some b)
    /\ hexToRGB "#FF8000"
       = "{" +:+ toString10 (r * 257) +:+ ", " +:+ toString10 (g * 257)
         +:+ ", " +:+ toString10 (b * 257) +:+ "}"
    /\ hexToKonsoleRgb "#FF8000"
       = toString10 r +:+ "," +:+ toString10 g +:+ "," +:+ toString10 b
    /\ "#" +:+ hex2 r +:+ hex2 g +:+ hex2 b = toLowerCase "#FF8000".
Proof. apply (hex_channels "#FF8000"). reflexivity. Defined.
